(** * Verification of the WCPM grading and training wrappers

    Shallow embedding of
      - [literacy_score/grade.py]  ([DataGrader])
      - [literacy_score/train.py]  ([ModelTrainer])
      - [litreading/base.py]       ([BaseModel], [load_model_from_file])
      - [litreading/grade.py]      ([Grader])

    Python objects are records whose attributes are [option]s (an attribute
    that was never assigned is [None], reading it raises [AttributeError]);
    methods are computations in a state-and-exception monad over the object
    and its environment (log, standard streams, file system).  Numbers are
    IEEE 754 binary64 values, taken from the [SpecFloat] specification of the
    Standard Library.  The behaviour of pandas, numpy, scikit-learn and of
    the helper modules of the repository that the four files import is
    written down where it is known and kept as a section variable where it
    is not. *)

From Stdlib Require Import ZArith QArith Qabs Lia Ascii String.
From Stdlib Require Import Floats.SpecFloat.
From stdpp Require Import base option list strings gmap pretty.

Local Open Scope Z_scope.

(** ** Python exceptions and outcomes *)

Inductive exn : Type :=
  | AttributeError (attr : string)
  | TypeError (msg : string)
  | ValueError (msg : string)
  | KeyError (key : string)
  | FileNotFoundError (path : list string)
  | UnboundLocalError (var : string)
  | EOFError
  | IndexingError
  | LibraryError (origin : string).

Inductive outcome (A : Type) : Type :=
  | Return (a : A)
  | Raise (e : exn).
Arguments Return {A} a.
Arguments Raise {A} e.

Definition raises {A} (o : outcome A) : Prop := ∃ e, o = Raise e.

(** ** binary64 arithmetic *)

Module Float64.

Definition prec : Z := 53.
Definition emax : Z := 1024.

Abbreviation float64 := spec_float.

Definition of_Z (z : Z) : float64 := binary_normalize prec emax z 0 false.

Definition div : float64 → float64 → float64 := SFdiv prec emax.

Definition nan : float64 := S754_nan.

Definition isnan (x : float64) : bool :=
  match x with S754_nan => true | _ => false end.

Definition isfinite (x : float64) : bool :=
  match x with S754_zero _ | S754_finite _ _ _ => true | _ => false end.

(** [x == 0] in Python: both signed zeros compare equal to zero. *)
Definition is_zero (x : float64) : bool :=
  match x with S754_zero _ => true | _ => false end.

(** The integer nearest to [n / d] for [0 < d], a tie going to the even
    neighbour. *)
Definition nearest_even (n d : Z) : Z :=
  let q := n / d in
  let r := n mod d in
  match 2 * r ?= d with
  | Lt => q
  | Gt => q + 1
  | Eq => if Z.even q then q else q + 1
  end.

(** [numpy.rint], which is what [numpy.round] and [Series.round] compute
    for zero decimals: special values and integral values are kept, any
    other value goes to the nearest integer, ties to even, and keeps its
    sign (so that -0.3 rounds to -0.0). *)
Definition rint (x : float64) : float64 :=
  match x with
  | S754_finite s m e =>
      if 0 <=? e then x
      else binary_normalize prec emax
             (cond_Zopp s (nearest_even (Zpos m) (2 ^ (- e)))) 0 s
  | _ => x
  end.

(** The rational number a finite value stands for (0 for the others). *)
Definition to_Q (x : float64) : Q :=
  match x with
  | S754_finite s m e =>
      let v := if 0 <=? e then inject_Z (Zpos m * 2 ^ e)
               else Qmake (Zpos m) (Z.to_pos (2 ^ (- e))) in
      if s then Qopp v else v
  | _ => 0%Q
  end.

(** A value that is an integer, and which one. *)
Definition to_Z (x : float64) : option Z :=
  match x with
  | S754_zero _ => Some 0
  | S754_finite s m e =>
      if 0 <=? e then Some (cond_Zopp s (Zpos m * 2 ^ e))
      else if (Zpos m mod 2 ^ (- e) =? 0)
           then Some (cond_Zopp s (Zpos m / 2 ^ (- e)))
           else None
  | _ => None
  end.

Definition sixty : float64 := Eval vm_compute in of_Z 60.

End Float64.
Import Float64.

(** ** The environment of a run and the monad of methods *)

Inductive level : Type := DEBUG | INFO | ERROR.

(** What a run leaves behind for an observer: log records (the format
    string and its arguments, as the logger receives them), lines printed,
    prompts shown by [input], files handed to [open_file] (by path text or
    by path parts), and calls into a collaborator. *)
Inductive event : Type :=
  | Log (lvl : level) (fmt : string) (args : list string)
  | Print (line : string)
  | Prompt (text : string)
  | OpenFile (path : string)
  | OpenPath (parts : list string)
  | Call (method : string).

Record Env : Type := mkEnv {
  trace : list event;      (* oldest event first *)
  stdin : list string      (* the lines [input] has still to read *)
}.

Record state (Obj : Type) : Type := mkState {
  env : Env;
  self : Obj
}.
Arguments mkState {Obj} env self.
Arguments env {Obj} s.
Arguments self {Obj} s.

(** A method: from the state before the call to its outcome and the state
    after it.  An exception does not roll the state back. *)
Definition M (Obj A : Type) : Type := state Obj → outcome A * state Obj.

#[global] Instance M_ret {Obj} : MRet (M Obj) :=
  λ A a s, (Return a, s).

#[global] Instance M_bind {Obj} : MBind (M Obj) :=
  λ A B k m s, match m s with
               | (Return a, s') => k a s'
               | (Raise e, s') => (Raise e, s')
               end.

Section Monad.
Context {Obj : Type}.

Definition raise {A} (e : exn) : M Obj A := λ s, (Raise e, s).

(** A collaborator's answer, raised again when it is an exception. *)
Definition lift {A} (o : outcome A) : M Obj A := λ s, (o, s).

Definition emit (ev : event) : M Obj unit :=
  λ s, (Return tt,
        mkState (mkEnv (trace (env s) ++ [ev]) (stdin (env s))) (self s)).

Definition get_self : M Obj Obj := λ s, (Return (self s), s).

Definition modify_self (f : Obj → Obj) : M Obj unit :=
  λ s, (Return tt, mkState (env s) (f (self s))).

(** [self.attr] for an attribute that may not have been assigned. *)
Definition getattr {A} (name : string) (proj : Obj → option A) : M Obj A :=
  λ s, match proj (self s) with
       | Some a => (Return a, s)
       | None => (Raise (AttributeError name), s)
       end.

(** [try: body except AttributeError: handler] *)
Definition try_except_AttributeError {A}
    (body : M Obj A) (handler : M Obj A) : M Obj A :=
  λ s, match body s with
       | (Raise (AttributeError _), s') => handler s'
       | r => r
       end.

(** [input(prompt)]: show the prompt, read one line. *)
Definition input (prompt : string) : M Obj string :=
  λ s, let tr := trace (env s) ++ [Prompt prompt] in
       match stdin (env s) with
       | line :: rest => (Return line, mkState (mkEnv tr rest) (self s))
       | [] => (Raise EOFError, mkState (mkEnv tr []) (self s))
       end.

Definition print (line : string) : M Obj unit := emit (Print line).

Definition logger (lvl : level) (fmt : string) (args : list string)
  : M Obj unit := emit (Log lvl fmt args).

End Monad.

(** A method called on an object built in a scope that holds no object of
    its own: the environment goes through the call, the object is dropped
    when the scope ends. *)
Definition call_on {Obj A} (obj : Obj) (method : M Obj A) : M unit A :=
  λ s, let '(r, s') := method (mkState (env s) obj) in
       (r, mkState (env s') tt).

(** Runs the monad's plumbing in a goal, down to the first call whose
    answer is not known. *)
Ltac run :=
  unfold mbind, M_bind, mret, M_ret, lift, raise, emit, logger, print,
         get_self, modify_self, getattr, try_except_AttributeError;
  simpl.

(** Destructs the answers of the collaborators a run still waits for, the
    innermost first. *)
Ltac answer_all :=
  repeat match goal with
         | |- context [match ?x with _ => _ end] =>
             lazymatch x with
             | context [match _ with _ => _ end] => fail
             | _ => destruct x eqn:?; simpl
             end
         end.

(** ** Python values *)

Inductive pyval : Type :=
  | PyNone
  | PyBool (b : bool)
  | PyInt (z : Z)
  | PyFloat (x : float64)
  | PyStr (s : string).

(** [isinstance(v, bool)]: an [int] is no [bool]. *)
Definition isinstance_bool (v : pyval) : bool :=
  match v with PyBool _ => true | _ => false end.

(** The truth value of [v] in a condition. *)
Definition truthy (v : pyval) : bool :=
  match v with
  | PyNone => false
  | PyBool b => b
  | PyInt z => negb (z =? 0)
  | PyFloat x => negb (is_zero x)
  | PyStr s => negb (bool_decide (s = ""))
  end.

(** ** pandas: Series and DataFrame *)

Module pandas.

(** A cell of a table: a float, or text (an [object] column). *)
Inductive cell : Type :=
  | Num (x : float64)
  | Str (s : string).

Definition as_float (c : cell) : option float64 :=
  match c with Num x => Some x | Str _ => None end.

(** A table: the row labels in row order, and under each column name the
    cells of the column in the same order.  The labels of an index are
    taken to be distinct integers. *)
Record DataFrame : Type := mkDataFrame {
  index : list Z;
  columns : gmap string (list cell)
}.

Definition nrows (df : DataFrame) : nat := length (index df).

(** Every column has one cell per row. *)
Definition well_formed (df : DataFrame) : Prop :=
  map_Forall (λ _ c, length c = nrows df) (columns df).

(** A float Series: the value at each label of its index; a missing value
    is NaN.  The order of its rows plays no part in arithmetic, which pairs
    values by label. *)
Abbreviation Series := (gmap Z float64).

(** [pd.Series(array)]: the default index 0, 1, ..., n-1. *)
Definition Series_of_array (a : list float64) : Series :=
  map_seqZ 0 a.

(** The labelled values of a column of [df]. *)
Definition Series_of_column (df : DataFrame) (vals : list float64)
  : Series :=
  list_to_map (zip (index df) vals).

(** [df[col].values] *)
Definition getitem (df : DataFrame) (col : string) : outcome (list cell) :=
  match columns df !! col with
  | Some c => Return c
  | None => Raise (KeyError col)
  end.

(** The cells of a numeric column; arithmetic on text raises. *)
Definition to_floats (c : list cell) : outcome (list float64) :=
  match mapM as_float c with
  | Some xs => Return xs
  | None => Raise (TypeError "unsupported operand type(s) for /: 'str' and 'int'")
  end.

(** [pandas.core.ops.fill_binop]: where exactly one operand is missing it
    is replaced by [fill_value]. *)
Definition fill_binop (left right fill_value : float64) : float64 * float64 :=
  let left_mask := isnan left in
  let right_mask := isnan right in
  let mask := xorb left_mask right_mask in
  (if left_mask && mask then fill_value else left,
   if right_mask && mask then fill_value else right).

(** [a.div(b, fill_value=fill_value)]: the operands are aligned on the
    union of their labels (a label absent from one side is a missing value
    there), filled, and divided element by element. *)
Definition Series_div (a b : Series) (fill_value : float64)
  : Series :=
  merge (λ x y,
           match x, y with
           | None, None => None
           | _, _ =>
               let '(l, r) := fill_binop (default nan x) (default nan y)
                                         fill_value in
               Some (div l r)
           end) a b.

(** [s.round()] *)
Definition Series_round (s : Series) : Series := rint <$> s.

(** The column a Series becomes when it is stored into [df]: it is
    reindexed on the rows of the table, and a row whose label the Series
    lacks gets NaN. *)
Definition reindex (df : DataFrame) (s : Series) : list cell :=
  (λ i, Num (default nan (s !! i))) <$> index df.

(** [df[col] = s] *)
Definition setitem (df : DataFrame) (col : string) (s : Series)
  : DataFrame :=
  mkDataFrame (index df) (<[col := reindex df s]> (columns df)).

(** [df.drop(columns=[col])] *)
Definition drop_column (df : DataFrame) (col : string) : outcome DataFrame :=
  match columns df !! col with
  | Some _ => Return (mkDataFrame (index df) (delete col (columns df)))
  | None => Raise (KeyError col)
  end.

(** The elements of [l] at the positions [pos], in the order of [pos]. *)
Definition take {A} (l : list A) (pos : list nat) : list A :=
  omap (λ k, l !! k) pos.

(** [df.iloc[pos]] *)
Definition iloc (df : DataFrame) (pos : list nat) : DataFrame :=
  mkDataFrame (take (index df) pos) ((λ c, take c pos) <$> columns df).

(** The positions at which a boolean mask holds. *)
Definition mask_positions (mask : list bool) : list nat :=
  omap (λ '(k, b), if b : bool then Some k else None) (imap pair mask).

(** [df[mask]] for a boolean mask with one entry per row. *)
Definition boolean_index (df : DataFrame) (mask : list bool)
  : outcome DataFrame :=
  if bool_decide (length mask = nrows df)
  then Return (iloc df (mask_positions mask))
  else Raise IndexingError.

End pandas.
Import pandas.

(** ** Text helpers of the Python runtime *)

(** [s.rfind(c)] for a one-character [c]. *)
Fixpoint rfind (c : ascii) (s : string) : option nat :=
  match s with
  | EmptyString => None
  | String a s' =>
      match rfind c s' with
      | Some i => Some (S i)
      | None => if Ascii.eqb a c then Some 0%nat else None
      end
  end.

Fixpoint replicate_string (n : nat) (c : ascii) : string :=
  match n with
  | O => EmptyString
  | S n' => String c (replicate_string n' c)
  end.

(** [s.center(width, fillchar)], with CPython's placement of the odd
    padding character. *)
Definition center (s : string) (width : nat) (fillchar : ascii) : string :=
  let len := String.length s in
  if (width <=? len)%nat then s
  else
    let marg := (width - len)%nat in
    let left := (marg / 2 + (if Nat.odd marg && Nat.odd width then 1 else 0))%nat in
    replicate_string left fillchar +:+ s
      +:+ replicate_string (marg - left) fillchar.

(** ** pathlib *)

Module pathlib.

(** A path is the list of its parts, as [PurePath.parts] gives them. *)
Abbreviation Path := (list string).

(** [PurePath.name]: the last part, unless the path is a bare root. *)
Definition name (p : Path) : string :=
  match p with
  | [anchor] =>
      if bool_decide (anchor = "/") || bool_decide (anchor = "//")
      then "" else anchor
  | _ => default "" (last p)
  end.

(** [PurePath.suffix]: the last dot of the name and what follows it, unless
    the dot starts or ends the name. *)
Definition suffix (p : Path) : string :=
  let name := name p in
  match rfind "." name with
  | Some i =>
      if ((0 <? i) && (i <? String.length name - 1))%nat
      then String.substring i (String.length name - i) name
      else ""
  | None => ""
  end.

(** What a path leads to. *)
Inductive node (content : Type) : Type :=
  | Directory
  | RegularFile (c : content).
Arguments Directory {content}.
Arguments RegularFile {content} c.

(** [Path.is_file()] *)
Definition is_file {content} (fs : gmap Path (node content))
    (p : Path) : bool :=
  match fs !! p with
  | Some (RegularFile _) => true
  | _ => false
  end.

End pathlib.
Import pathlib.

(** ** literacy_score/grade.py *)

Module literacy_score_grade.
Section DataGrader.

(** What the file imports and this development does not open: the
    deserialised artefacts and their methods (joblib, scikit-learn,
    xgboost), the feature table built by [Dataset], and the constants of
    [literacy_score.config]. *)
Variable pyobj : Type.
Variable table : Type.
Variable MODELS_PATH : string.
Variable open_file : string → outcome pyobj.
Variable transform : pyobj → table → outcome table.
Variable predict : pyobj → table → outcome (list float64).

(** The two methods of [Dataset] that [grade_wcpm] calls, as functions of
    the table the object holds: [preprocess_data] with the configured steps
    and [inplace=True] gives the table the object holds afterwards,
    [compute_features] the feature table. *)
Variable preprocess_data : DataFrame → outcome DataFrame.
Variable compute_features : DataFrame → outcome table.

Record DataGrader : Type := mkDataGrader {
  data : DataFrame;
  prompt_col : string;
  asr_col : string;
  duration_col : string;
  features : option table;
  scaler : pyobj;
  model : pyobj;
  model_type : string
}.

Definition with_data (d : DataFrame) (g : DataGrader) : DataGrader :=
  mkDataGrader d (prompt_col g) (asr_col g) (duration_col g) (features g)
               (scaler g) (model g) (model_type g).

Definition with_features (f : table) (g : DataGrader) : DataGrader :=
  mkDataGrader (data g) (prompt_col g) (asr_col g) (duration_col g) (Some f)
               (scaler g) (model g) (model_type g).

Definition with_model (m : pyobj) (g : DataGrader) : DataGrader :=
  mkDataGrader (data g) (prompt_col g) (asr_col g) (duration_col g)
               (features g) (scaler g) m (model_type g).

Definition with_model_type (t : string) (g : DataGrader) : DataGrader :=
  mkDataGrader (data g) (prompt_col g) (asr_col g) (duration_col g)
               (features g) (scaler g) (model g) t.

(** [DataGrader.__load_model] *)
Definition __load_model {Obj} (model_file : string) : M Obj pyobj :=
  let model_path := MODELS_PATH +:+ model_file in
  logger INFO "Loading model from %s" [model_path];;
  emit (OpenFile model_path);;
  model ← lift (open_file model_path);
  mret model.

(** [DataGrader.__init__]: [Dataset.__init__] keeps the table and the
    column names; [features] is first assigned by [grade_wcpm]. *)
Definition __init__ (df : DataFrame)
    (prompt_col asr_col duration_col model_type model_file : string)
  : M unit DataGrader :=
  scaler ← __load_model "standard_scaler.joblib";
  model ← (if bool_decide (model_file = "")
           then __load_model "XGB_0.joblib"
           else __load_model model_file);
  mret (mkDataGrader df prompt_col asr_col duration_col None
                     scaler model model_type).

(** [DataGrader.set_model] *)
Definition set_model (model_type' : string) : M DataGrader unit :=
  this ← get_self;
  if bool_decide (model_type this = model_type') then
    mret tt                          (* no changes if same model wanted *)
  else if bool_decide (model_type' = "RF") then
    m ← __load_model "rf_hypertuned.pkl";
    modify_self (with_model m);;
    modify_self (with_model_type model_type')
  else if bool_decide (model_type' = "XGB") then
    m ← __load_model "xgb_hypertuned.pkl";
    modify_self (with_model m);;
    modify_self (with_model_type model_type')
  else
    logger ERROR
      "No such model is available: %s in %s. please choose between 'RF' and 'XGB'"
      [model_type'; MODELS_PATH].

(** The arithmetic of [estimate_wcpm] on the predicted word counts and the
    duration column:
    [pd.Series(wc).div(data[duration_col] / 60, fill_value=0).round()]. *)
Definition wcpm_of (df : DataFrame) (wc : list float64)
    (duration : list float64) : Series :=
  let wc := Series_of_array wc in
  let per_minute := Series_of_column df ((λ d, div d sixty) <$> duration) in
  Series_round (Series_div wc per_minute (of_Z 0)).

(** [DataGrader.estimate_wcpm].  The local name [model] is rebound to
    [self.model] when the argument is [None] and is not read again: the
    prediction always goes through [self.model]. *)
Definition estimate_wcpm (inplace : bool) (model_arg : option string)
  : M DataGrader (option (Series)) :=
  match model_arg with
  | None => mret tt
  | Some model_type' => set_model model_type'
  end;;
  logger DEBUG "Estimating wcpm" [];;
  this ← get_self;
  features_in ← getattr "features" features;
  emit (Call "scaler.transform");;
  features' ← lift (transform (scaler this) features_in);
  modify_self (with_features features');;
  this ← get_self;
  emit (Call "model.predict");;
  wc ← lift (predict (model this) features');
  column ← lift (getitem (data this) (duration_col this));
  duration ← lift (to_floats column);
  let wcpm := wcpm_of (data this) wc duration in
  if negb inplace then
    mret (Some wcpm)
  else
    modify_self (with_data (setitem (data this) "wcpm_estimations" wcpm));;
    mret None.

(** [DataGrader.grade_wcpm]; [get_data] hands back the table the object
    holds. *)
Definition grade_wcpm : M DataGrader DataFrame :=
  this ← get_self;
  emit (Call "preprocess_data");;
  data' ← lift (preprocess_data (data this));
  modify_self (with_data data');;
  emit (Call "compute_features");;
  features' ← lift (compute_features data');
  modify_self (with_features features');;
  estimate_wcpm true None;;
  this ← get_self;
  mret (data this).

Variable DEFAULT_MODEL : string.

(** The function [grade_wcpm(df)] of the module: a [DataGrader] built with
    the default arguments, and its method [grade_wcpm]. *)
Definition grade_wcpm_function (df : DataFrame) : M unit DataFrame :=
  data ← __init__ df "prompt" "asr_transcript" "scored_duration"
                  DEFAULT_MODEL "";
  call_on data grade_wcpm.

End DataGrader.
End literacy_score_grade.

(** ** litreading/base.py *)

Module litreading_base.
Section BaseModel.

(** The collaborators: scikit-learn's [Pipeline] and its [predict], the
    other objects a pickle file can hold, the preprocessor of
    [litreading.preprocessor], [open_file] of [litreading.utils.files], the
    baseline column named in [litreading.config], and the file system the
    loader looks into. *)
Variable Pipeline : Type.
Variable other : Type.
Variable content : Type.
Variable fs : gmap Path (node content).
Variable BASELINE_MODEL_PREDICTION_COL : string.
Variable preprocess_data : DataFrame → outcome DataFrame.
Variable Pipeline_predict : Pipeline → DataFrame → outcome (list float64).

(** What unpickling gives: a [Pipeline] or something else. *)
Inductive pyobj : Type :=
  | APipeline (p : Pipeline)
  | NotAPipeline (o : other).

Variable open_file : Path → outcome pyobj.

Record BaseModel : Type := mkBaseModel {
  _baseline_mode : bool;
  _model : option Pipeline        (* [None] is Python's [None] *)
}.

(** [BaseModel.__init__] *)
Definition __init__ (baseline_mode : pyval) : M unit BaseModel :=
  if negb (isinstance_bool baseline_mode) then
    raise (TypeError "baseline_mode must be a boolean")
  else
    mret (mkBaseModel (truthy baseline_mode) None).

(** [BaseModel._predict] *)
Definition _predict (X : DataFrame) : M BaseModel (list cell) :=
  this ← get_self;
  emit (Call "preprocessor.preprocess_data");;
  X_processed ← lift (preprocess_data X);
  if _baseline_mode this then
    y_pred ← lift (getitem X_processed BASELINE_MODEL_PREDICTION_COL);
    mret y_pred
  else
    match _model this with
    | None => raise (AttributeError "predict")
    | Some model =>
        emit (Call "model.predict");;
        y_pred ← lift (Pipeline_predict model X_processed);
        mret (Num <$> y_pred)
    end.

(** [load_model_from_file]; [Path(None)] is a [TypeError]. *)
Definition load_model_from_file {Obj} (model_filepath : option Path)
  : M Obj Pipeline :=
  match model_filepath with
  | None =>
      raise (TypeError "expected str, bytes or os.PathLike object, not NoneType")
  | Some model_filepath =>
      if negb (is_file fs model_filepath) then
        raise (FileNotFoundError model_filepath)
      else if bool_decide (suffix model_filepath ≠ ".pkl") then
        raise (ValueError "Please give a path to pickle file")
      else
        emit (OpenPath model_filepath);;
        model ← lift (open_file model_filepath);
        match model with
        | APipeline p => mret p
        | NotAPipeline _ =>
            raise (ValueError
              "Incompatible model: please give a filepath to a sklearn pipeline object")
        end
  end.

End BaseModel.
End litreading_base.

(** ** litreading/grade.py *)

Module litreading_grade.
Section Grader.

Variable Pipeline : Type.
Variable other : Type.
Variable content : Type.
Variable fs : gmap Path (node content).
Variable BASELINE_MODEL_PREDICTION_COL : string.
Variable preprocess_data : DataFrame → outcome DataFrame.
Variable Pipeline_predict : Pipeline → DataFrame → outcome (list float64).
Variable open_file : Path → outcome (litreading_base.pyobj Pipeline other).

Abbreviation Grader := (litreading_base.BaseModel Pipeline).

(** [Grader.__init__] *)
Definition __init__ (model_filepath : option Path)
    (baseline_mode : pyval) : M unit Grader :=
  this ← litreading_base.__init__ Pipeline baseline_mode;
  if negb (truthy baseline_mode) then
    model ← litreading_base.load_model_from_file
               Pipeline other content fs open_file model_filepath;
    logger INFO "Model loaded from {model_filepath}: {self._model}" [];;
    mret (litreading_base.mkBaseModel Pipeline
            (litreading_base._baseline_mode Pipeline this) (Some model))
  else
    mret this.

(** [Grader.grade] *)
Definition grade (X : DataFrame) : M Grader (list cell) :=
  y_pred ← litreading_base._predict Pipeline BASELINE_MODEL_PREDICTION_COL
              preprocess_data Pipeline_predict X;
  mret y_pred.

End Grader.
End litreading_grade.

(** ** literacy_score/train.py *)

Module literacy_score_train.

(** The regressors [set_new_model] can build. *)
Inductive regressor_class : Type :=
  | RandomForestRegressor
  | XGBRegressor
  | KNeighborsRegressor
  | BaselineModel.

Definition class_name (c : regressor_class) : string :=
  match c with
  | RandomForestRegressor => "RandomForestRegressor"
  | XGBRegressor => "XGBRegressor"
  | KNeighborsRegressor => "KNeighborsRegressor"
  | BaselineModel => "BaselineModel"
  end.

Abbreviation matrix := (list (list float64)).

(** A labelled column, as [train_test_split] hands back the target. *)
Abbreviation target := (list (Z * cell)).

(** An estimator object: its class, the parameters set on it, and the data
    it was last fitted on ([None]: not fitted). *)
Record Estimator : Type := mkEstimator {
  est_class : regressor_class;
  est_params : gmap string pyval;
  fitted_on : option (matrix * target)
}.

(** [StandardScaler()]: its statistics are those of the table it was fitted
    on ([None]: not fitted). *)
Record StandardScaler : Type := mkStandardScaler {
  scaler_fitted_on : option DataFrame
}.

(** [GridSearchCV(...)] *)
Record GridSearchCV : Type := mkGridSearchCV {
  gs_estimator : Estimator;
  gs_param_grid : list (string * list pyval);
  gs_scoring : string;
  gs_cv : Z;
  gs_verbose : Z;
  best_estimator_ : option Estimator
}.

(** [itertools.product] of the lists given as arguments *)
Fixpoint product {A} (lists : list (list A)) : list (list A) :=
  match lists with
  | [] => [[]]
  | l :: rest => x ← l; (λ t, x :: t) <$> product rest
  end.

Section ModelTrainer.

(** Kept abstract: the [Dataset] of [literacy_score.dataset] and its
    methods, the seed of [literacy_score.config], which keyword parameters a
    regressor class accepts, when fitting fails, how scikit-learn picks the
    rows of a split from a seed and standardises a table, what the
    cross-validated search returns, and how a parameter list prints. *)
Variable Dataset : Type.
Variable SEED : Z.
Variable new_Dataset : DataFrame → outcome Dataset.
Variable preprocess_data : Dataset → outcome Dataset.
Variable Dataset_compute_features : Dataset → outcome DataFrame.
Variable determine_outliers_mask : Dataset → float64 → outcome (list bool).
Variable valid_param : regressor_class → string → bool.
Variable fit_failure : Estimator → matrix → target → option exn.
Variable split_positions : Z → nat → float64 → outcome (list nat * list nat).
Variable standardize : DataFrame → DataFrame → outcome matrix.
Variable search :
  Estimator → list (string * list pyval) → string → Z →
  matrix → target → outcome Estimator.
Variable repr : list pyval → string.

Record ModelTrainer : Type := mkModelTrainer {
  model : option Estimator;
  model_type : option string;
  data : option Dataset;
  features : option DataFrame;
  datapoints : option nat;
  test_idx : option (list Z);
  scaler : option StandardScaler;
  X_train : option matrix;
  X_test : option matrix;
  Y_train : option target;
  Y_test : option target
}.

(** The object as [__init__] receives it: no attribute assigned. *)
Definition blank : ModelTrainer :=
  mkModelTrainer None None None None None None None None None None None.

Definition with_model (m : Estimator) (t : ModelTrainer) : ModelTrainer :=
  mkModelTrainer (Some m) (model_type t) (data t) (features t) (datapoints t)
    (test_idx t) (scaler t) (X_train t) (X_test t) (Y_train t) (Y_test t).

Definition with_model_type (mt : string) (t : ModelTrainer) : ModelTrainer :=
  mkModelTrainer (model t) (Some mt) (data t) (features t) (datapoints t)
    (test_idx t) (scaler t) (X_train t) (X_test t) (Y_train t) (Y_test t).

Definition with_data (d : Dataset) (t : ModelTrainer) : ModelTrainer :=
  mkModelTrainer (model t) (model_type t) (Some d) (features t) (datapoints t)
    (test_idx t) (scaler t) (X_train t) (X_test t) (Y_train t) (Y_test t).

Definition with_features (f : DataFrame) (t : ModelTrainer) : ModelTrainer :=
  mkModelTrainer (model t) (model_type t) (data t) (Some f) (datapoints t)
    (test_idx t) (scaler t) (X_train t) (X_test t) (Y_train t) (Y_test t).

Definition with_datapoints (n : nat) (t : ModelTrainer) : ModelTrainer :=
  mkModelTrainer (model t) (model_type t) (data t) (features t) (Some n)
    (test_idx t) (scaler t) (X_train t) (X_test t) (Y_train t) (Y_test t).

Definition with_test_idx (i : list Z) (t : ModelTrainer) : ModelTrainer :=
  mkModelTrainer (model t) (model_type t) (data t) (features t) (datapoints t)
    (Some i) (scaler t) (X_train t) (X_test t) (Y_train t) (Y_test t).

Definition with_scaler (sc : StandardScaler) (t : ModelTrainer) : ModelTrainer :=
  mkModelTrainer (model t) (model_type t) (data t) (features t) (datapoints t)
    (test_idx t) (Some sc) (X_train t) (X_test t) (Y_train t) (Y_test t).

Definition with_train_test (xtr xte : matrix) (ytr yte : target)
    (t : ModelTrainer) : ModelTrainer :=
  mkModelTrainer (model t) (model_type t) (data t) (features t) (datapoints t)
    (test_idx t) (scaler t) (Some xtr) (Some xte) (Some ytr) (Some yte).

(** A regressor as its constructor leaves it. *)
Definition new_regressor (c : regressor_class)
    (kwargs : list (string * pyval)) : Estimator :=
  mkEstimator c (list_to_map kwargs) None.

(** [BaseEstimator.set_params], called with keyword arguments: the parameters are set one after
    the other on the object itself, and a name the class does not accept
    stops the call with those before it already set. *)
Fixpoint set_params (e : Estimator) (params : list (string * pyval))
  : outcome unit * Estimator :=
  match params with
  | [] => (Return tt, e)
  | (key, value) :: rest =>
      if valid_param (est_class e) key
      then set_params
             (mkEstimator (est_class e) (<[key := value]> (est_params e))
                          (fitted_on e)) rest
      else (Raise (ValueError ("Invalid parameter " +:+ key)), e)
  end.

(** [self.model.set_params] with the keywords [params], on the object [self.model] names. *)
Definition model_set_params (params : list (string * pyval))
  : M ModelTrainer unit :=
  m ← getattr "model" model;
  let '(r, m') := set_params m params in
  modify_self (with_model m');;
  lift r.

(** [ModelTrainer.set_model_params] *)
Definition set_model_params (params : list (string * pyval))
  : M ModelTrainer unit :=
  model_set_params params.

(** [ModelTrainer.set_new_model]; [known] is false on the path that ends in
    the early [return]. *)
Definition set_new_model (model_type : string)
    (params : list (string * pyval)) : M ModelTrainer unit :=
  known ←
    (if bool_decide (model_type = "RF") then
       modify_self (with_model
         (new_regressor RandomForestRegressor [("random_state", PyInt SEED)]));;
       mret true
     else if bool_decide (model_type = "XGB") then
       modify_self (with_model
         (new_regressor XGBRegressor [("random_state", PyInt SEED)]));;
       mret true
     else if bool_decide (model_type = "KNN") then
       modify_self (with_model (new_regressor KNeighborsRegressor []));;
       mret true
     else if bool_decide (model_type = "Baseline") then
       modify_self (with_model (new_regressor BaselineModel []));;
       mret true
     else
       logger ERROR
         "Sorry, training for mode_type %s has not been implemented yet."
         [model_type];;
       mret false);
  if negb known then mret tt
  else
    modify_self (with_model_type model_type);;
    if bool_decide (params ≠ []) then set_model_params params else mret tt.

(** [ModelTrainer.__init__], run on the blank object. *)
Definition __init__ (df : DataFrame) (model_type : string)
  : M ModelTrainer unit :=
  set_new_model model_type [];;
  emit (Call "Dataset");;
  d ← lift (new_Dataset df);
  modify_self (with_data d).

(** [ModelTrainer.compute_features] *)
Definition compute_features : M ModelTrainer unit :=
  d ← getattr "data" data;
  emit (Call "data.preprocess_data");;
  d' ← lift (preprocess_data d);
  modify_self (with_data d');;
  emit (Call "data.compute_features");;
  f ← lift (Dataset_compute_features d');
  modify_self (with_features f).

Definition not_prepared_message : string :=
  "X_train, Y_train not defined: Please prepare train and test set before training by calling ModelTrainer.prepare_train_test_set()".

(** [estimator.fit(X, Y)]: fits the object in place and returns it. *)
Definition fit (e : Estimator) (X : matrix) (Y : target) : outcome Estimator :=
  match fit_failure e X Y with
  | Some err => Raise err
  | None => Return (mkEstimator (est_class e) (est_params e) (Some (X, Y)))
  end.

(** [ModelTrainer.train] *)
Definition train (params : list (string * pyval)) : M ModelTrainer unit :=
  model_set_params params;;
  prepared ← try_except_AttributeError
                (_ ← getattr "X_train" X_train; mret true)
                (logger ERROR not_prepared_message [];; mret false);
  if negb prepared then mret tt
  else
    model_type ← getattr "model_type" model_type;
    logger INFO "Training %s" [model_type];;
    m ← getattr "model" model;
    X ← getattr "X_train" X_train;
    Y ← getattr "Y_train" Y_train;
    emit (Call "model.fit");;
    m' ← lift (fit m X Y);
    modify_self (with_model m').

(** [train_test_split(X, y, test_size=test_size, random_state=seed)]: the
    rows at the positions drawn for each side, in the order drawn. *)
Definition train_test_split (X : DataFrame) (y : list cell)
    (test_size : float64) (random_state : Z)
  : outcome (DataFrame * DataFrame * target * target) :=
  match split_positions random_state (nrows X) test_size with
  | Return (train, test) =>
      Return (iloc X train, iloc X test,
              take (zip (index X) y) train, take (zip (index X) y) test)
  | Raise e => Raise e
  end.

(** [self.scaler.fit_transform(X)] *)
Definition scaler_fit_transform (X : DataFrame) : M ModelTrainer matrix :=
  _ ← getattr "scaler" scaler;
  emit (Call "scaler.fit_transform");;
  Xs ← lift (standardize X X);
  modify_self (with_scaler (mkStandardScaler (Some X)));;
  mret Xs.

(** [self.scaler.transform(X)] *)
Definition scaler_transform (X : DataFrame) : M ModelTrainer matrix :=
  sc ← getattr "scaler" scaler;
  emit (Call "scaler.transform");;
  match scaler_fitted_on sc with
  | None => raise (LibraryError "NotFittedError")
  | Some X0 => lift (standardize X0 X)
  end.

(** [mask.sum()] *)
Definition count_true (mask : list bool) : nat :=
  length (mask_positions mask).

(** [ModelTrainer.prepare_train_test_set] *)
Definition prepare_train_test_set (remove_outliers : bool)
    (outliers_tol test_set_size : float64) (inplace : bool)
  : M ModelTrainer (option (matrix * matrix * target * target)) :=
  (if remove_outliers then
     d ← getattr "data" data;
     emit (Call "data.determine_outliers_mask");;
     mask ← lift (determine_outliers_mask d outliers_tol);
     f ← getattr "features" features;
     f' ← lift (boolean_index f mask);
     modify_self (with_features f');;
     modify_self (with_datapoints (count_true mask));;
     logger INFO
       "Removed %i outliers, %i datapoints remaining for training/testing"
       [pretty (length mask - count_true mask)%nat; pretty (count_true mask)]
   else
     f ← getattr "features" features;
     modify_self (with_datapoints (nrows f)));;
  f ← getattr "features" features;
  X ← lift (drop_column f "human_wc");
  y ← lift (getitem f "human_wc");
  emit (Call "train_test_split");;
  split ← lift (train_test_split X y test_set_size SEED);
  let '(X_train_raw, X_test_raw, Y_train, Y_test) := split in
  modify_self (with_test_idx (index X_test_raw));;
  logger DEBUG
    "Fit scaler to training set and transform training and test set" [];;
  modify_self (with_scaler (mkStandardScaler None));;
  X_train ← scaler_fit_transform X_train_raw;
  X_test ← scaler_transform X_test_raw;
  if negb inplace then
    mret (Some (X_train, X_test, Y_train, Y_test))
  else
    modify_self (with_train_test X_train X_test Y_train Y_test);;
    mret None.

Definition nl : string := String (ascii_of_nat 10) EmptyString.

(** [[print(key, value) for key, value in cv_params.items()]] *)
Fixpoint print_items (items : list (string * list pyval))
  : M ModelTrainer unit :=
  match items with
  | [] => mret tt
  | (key, value) :: rest =>
      print (key +:+ " " +:+ repr value);;
      print_items rest
  end.

(** [ModelTrainer.grid_search] *)
Definition grid_search (cv_params : list (string * list pyval))
    (cv_folds verbose : Z) (scoring_metric : string)
  : M ModelTrainer (option GridSearchCV) :=
  model_type ← getattr "model_type" model_type;
  let estimator :=
    if bool_decide (model_type = "RF") then
      Some (new_regressor RandomForestRegressor [("random_state", PyInt SEED)])
    else if bool_decide (model_type = "XGB") then
      Some (new_regressor XGBRegressor [("random_state", PyInt SEED)])
    else if bool_decide (model_type = "KNN") then
      Some (new_regressor KNeighborsRegressor [])
    else None in
  print (nl +:+ center " Estimator: " 120 "-");;
  estimator ← match estimator with
              | Some e => mret e
              | None => raise (UnboundLocalError "estimator")
              end;
  print (class_name (est_class estimator));;
  print (nl +:+ center " Metric for evaluation: " 120 "-");;
  print scoring_metric;;
  print (nl +:+ center " Params to be tested: " 120 "-");;
  print_items cv_params;;
  let params_list := product (snd <$> cv_params) in
  let n_combi := length params_list in
  print (nl +:+ " # of possible combinations to be cross-validated: "
            +:+ pretty n_combi);;
  answer ← input (nl +:+ "Continue with these c-v parameters ? (y/n)  ");
  if bool_decide (answer = "n") || bool_decide (answer = "no") then
    print "Please redefine inputs.";;
    mret None
  else
    let grid_search :=
      mkGridSearchCV estimator cv_params scoring_metric cv_folds verbose None in
    grid_search ← try_except_AttributeError
      (X ← getattr "X_train" X_train;
       Y ← getattr "Y_train" Y_train;
       emit (Call "GridSearchCV.fit");;
       best ← lift (search estimator cv_params scoring_metric cv_folds X Y);
       mret (mkGridSearchCV estimator cv_params scoring_metric cv_folds
                            verbose (Some best)))
      (logger ERROR not_prepared_message [];;
       mret grid_search);
    match best_estimator_ grid_search with
    | None => raise (AttributeError "best_estimator_")
    | Some best =>
        modify_self (with_model best);;
        mret (Some grid_search)
    end.

(** What [save_file] of [literacy_score.utils] is given to write, the
    directory of [literacy_score.config] it writes to, and its answer. *)
Inductive artefact : Type :=
  | AScaler (sc : StandardScaler)
  | AModel (m : Estimator).

Variable MODELS_PATH : string.
Variable save_file : artefact → string → string → bool → outcome unit.

Definition scaler_not_defined_message : string :=
  "scaler not defined: Please fit a scaler before saving                             it by calling ModelTrainer.prepare_train_test_set()".

(** [ModelTrainer.save_model]; the [try] spans the read of [self.scaler]
    and the call of [save_file]. *)
Definition save_model (scaler' model' replace : bool)
  : M ModelTrainer unit :=
  (if scaler' then
     try_except_AttributeError
       (sc ← getattr "scaler" scaler;
        emit (Call "save_file");;
        lift (save_file (AScaler sc) MODELS_PATH "standard_scaler.joblib"
                        replace))
       (logger ERROR scaler_not_defined_message [])
   else mret tt);;
  if model' then
    m ← getattr "model" model;
    model_type ← getattr "model_type" model_type;
    emit (Call "save_file");;
    lift (save_file (AModel m) MODELS_PATH (model_type +:+ ".joblib") replace)
  else mret tt.

End ModelTrainer.
End literacy_score_train.

(** ** Worked inputs

    Small concrete runs, used below to evaluate the embedded methods. *)

Module scenario.

(** A batch of one row, labelled 0, read for [duration] seconds. *)
Definition batch (duration : float64) : DataFrame :=
  mkDataFrame [0] {["scored_duration" := [Num duration]]}.

(** A grader over [batch duration] whose artefacts are placeholders. *)
Definition grader (duration : float64)
  : state (literacy_score_grade.DataGrader unit unit) :=
  mkState (mkEnv [] [])
    (literacy_score_grade.mkDataGrader unit unit (batch duration)
       "prompt" "asr_transcript" "scored_duration" (Some tt) tt tt "XGB").

(** [estimate_wcpm] with a regressor that predicts [wc] words for the row. *)
Definition estimate (wc : float64) (inplace : bool) (duration : float64) :=
  literacy_score_grade.estimate_wcpm unit unit "models/"
    (λ _, Return tt) (λ _ t, Return t) (λ _ _, Return [wc])
    inplace None (grader duration).

(** [grade_wcpm] on the same batch, with a preprocessing that keeps the
    table as it is. *)
Definition grade (wc : float64) (duration : float64) :=
  literacy_score_grade.grade_wcpm unit unit "models/"
    (λ _, Return tt) (λ _ t, Return t) (λ _ _, Return [wc])
    (λ d, Return d) (λ _, Return tt)
    (grader duration).

Definition two_and_a_half : float64 := Eval vm_compute in div (of_Z 5) (of_Z 2).

(** The same estimation, asked for the model [model_type] by name. *)
Definition estimate_with (model_type : string) (wc : float64) (inplace : bool)
    (duration : float64) :=
  literacy_score_grade.estimate_wcpm unit unit "models/"
    (λ _, Return tt) (λ _ t, Return t) (λ _ _, Return [wc])
    inplace (Some model_type) (grader duration).

(** A grader over a batch whose only row, read in 30 seconds, is labelled 5. *)
Definition relabelled_grader
  : state (literacy_score_grade.DataGrader unit unit) :=
  mkState (mkEnv [] [])
    (literacy_score_grade.mkDataGrader unit unit
       (mkDataFrame [5] {["scored_duration" := [Num (of_Z 30)]]})
       "prompt" "asr_transcript" "scored_duration" (Some tt) tt tt "XGB").

(** A grader whose feature table is a number: scaling adds one to it, and
    the regressor predicts that many words for the row, read in a minute. *)
Definition rescaling_grader
  : state (literacy_score_grade.DataGrader unit nat) :=
  mkState (mkEnv [] [])
    (literacy_score_grade.mkDataGrader unit nat (batch (of_Z 60))
       "prompt" "asr_transcript" "scored_duration" (Some 0%nat) tt tt "XGB").

Definition rescale (sc : unit) (n : nat) : outcome nat := Return (S n).

Definition count_words (m : unit) (n : nat) : outcome (list float64) :=
  Return [of_Z (Z.of_nat n)].

Definition estimate_rescaled
    (s : state (literacy_score_grade.DataGrader unit nat)) :=
  literacy_score_grade.estimate_wcpm unit nat "models/"
    (λ _, Return tt) rescale count_words false None s.

(** A grader whose artefacts are the paths they were loaded from, with
    features at hand: the random forest predicts 6 words for the row, any
    other model 3. *)
Definition named_grader : state (literacy_score_grade.DataGrader string unit) :=
  mkState (mkEnv [] [])
    (literacy_score_grade.mkDataGrader string unit (batch (of_Z 30))
       "prompt" "asr_transcript" "scored_duration" (Some tt)
       "models/standard_scaler.joblib" "models/XGB_0.joblib" "XGB").

Definition predict_by_name (m : string) (t : unit) : outcome (list float64) :=
  Return [if bool_decide (m = "models/rf_hypertuned.pkl")
          then of_Z 6 else of_Z 3].

Definition estimate_named (model_arg : option string) :=
  literacy_score_grade.estimate_wcpm string unit "models/"
    (λ p, Return p) (λ _ t, Return t) predict_by_name
    false model_arg named_grader.

(** The module function on [batch duration], with "RF" as the configured
    default type. *)
Definition grade_batch (wc : float64) (duration : float64) :=
  literacy_score_grade.grade_wcpm_function unit unit "models/"
    (λ _, Return tt) (λ _ t, Return t) (λ _ _, Return [wc])
    (λ d, Return d) (λ _, Return tt) "RF"
    (batch duration) (mkState (mkEnv [] []) tt).

(** A grader whose artefacts are the paths they were loaded from, and
    [set_model] on it. *)
Definition xgb_grader : state (literacy_score_grade.DataGrader string unit) :=
  mkState (mkEnv [] [])
    (literacy_score_grade.mkDataGrader string unit (batch (of_Z 30))
       "prompt" "asr_transcript" "scored_duration" None
       "models/standard_scaler.joblib" "models/XGB_0.joblib" "XGB").

Definition switch_to (model_type : string) :=
  literacy_score_grade.set_model string unit "models/" (λ p, Return p)
    model_type xgb_grader.

(** A models directory: a pickled pipeline, a pickled scaler (no pipeline),
    and a text file. *)
Definition models : gmap (list string) (node unit) :=
  {[ ["models"] := Directory;
     ["models"; "model.pkl"] := RegularFile tt;
     ["models"; "scaler.pkl"] := RegularFile tt;
     ["models"; "notes.txt"] := RegularFile tt ]}.

(** Unpickling in that directory: pipelines are numbered. *)
Definition unpickle (p : list string) : outcome (litreading_base.pyobj nat unit) :=
  if bool_decide (p = ["models"; "model.pkl"])
  then Return (litreading_base.APipeline nat unit 7%nat)
  else Return (litreading_base.NotAPipeline nat unit tt).

Definition load (p : list string) : outcome nat :=
  (litreading_base.load_model_from_file nat unit unit models unpickle (Some p)
     (mkState (mkEnv [] []) tt)).1.

(** [Grader(model_filepath, baseline_mode)] over that directory. *)
Definition new_Grader (model_filepath : option (list string))
    (baseline_mode : pyval) :=
  litreading_grade.__init__ nat unit unit models unpickle
    model_filepath baseline_mode (mkState (mkEnv [] []) tt).

(** A preprocessed batch of two rows with a baseline column. *)
Definition preprocessed : DataFrame :=
  mkDataFrame [0; 1]
    {[ "prompt" := [Str "the cat sat"; Str "on the mat"];
       "correct_words" := [Num (of_Z 3); Num (of_Z 2)] ]}.

(** A training run: the seed, a regressor class that accepts
    [n_estimators] only, fits that never fail, a split that sends the first
    row to the test side, a scaler that keeps one (empty) row per row, and a
    search that returns its estimator fitted. *)
Definition SEED : Z := 42.

Definition accepts (c : literacy_score_train.regressor_class) (key : string)
  : bool :=
  bool_decide (key = "n_estimators").

Definition split (seed : Z) (n : nat) (test_size : float64)
  : outcome (list nat * list nat) :=
  Return (seq 1 (n - 1), [0%nat]).

Definition standardize (X0 X : DataFrame)
  : outcome (list (list float64)) :=
  Return ((λ _, []) <$> index X).

Definition search (e : literacy_score_train.Estimator)
    (grid : list (string * list pyval)) (scoring : string) (cv : Z)
    (X : list (list float64)) (Y : list (Z * cell))
  : outcome literacy_score_train.Estimator :=
  Return (literacy_score_train.mkEstimator
            (literacy_score_train.est_class e)
            (literacy_score_train.est_params e) (Some (X, Y))).

Definition features_table : DataFrame :=
  mkDataFrame [0; 1; 2; 3]
    {[ "asr_word_count" := [Num (of_Z 10); Num (of_Z 20); Num (of_Z 30); Num (of_Z 40)];
       "human_wc" := [Num (of_Z 9); Num (of_Z 21); Num (of_Z 30); Num (of_Z 38)] ]}.

(** [ModelTrainer(df, model_type)], followed by the assignment of the
    feature table. *)
Definition trainer (model_type : string)
  : state (literacy_score_train.ModelTrainer unit) :=
  let s := (literacy_score_train.__init__ unit SEED (λ _, Return tt) accepts
              (mkDataFrame [] ∅) model_type
              (mkState (mkEnv [] []) (literacy_score_train.blank unit))).2 in
  mkState (mkEnv [] []) (literacy_score_train.with_features unit features_table (self s)).

Definition train (params : list (string * pyval))
    (s : state (literacy_score_train.ModelTrainer unit)) :=
  literacy_score_train.train unit accepts (λ _ _ _, None) params s.

Definition prepare (s : state (literacy_score_train.ModelTrainer unit)) :=
  literacy_score_train.prepare_train_test_set unit SEED
    (λ _ _, Return [true; true; true; true]) split standardize
    false (of_Z 0) (of_Z 0) true s.

(** The same split with the second row masked out as an outlier, and the
    split handed back instead of stored. *)
Definition prepare_masked (s : state (literacy_score_train.ModelTrainer unit)) :=
  literacy_score_train.prepare_train_test_set unit SEED
    (λ _ _, Return [true; false; true; true]) split standardize
    true (of_Z 0) (of_Z 0) true s.

Definition prepare_not_inplace
    (s : state (literacy_score_train.ModelTrainer unit)) :=
  literacy_score_train.prepare_train_test_set unit SEED
    (λ _ _, Return [true; true; true; true]) split standardize
    false (of_Z 0) (of_Z 0) false s.

(** Setting two parameters on the model, the second of which the class
    does not accept. *)
Definition tune (s : state (literacy_score_train.ModelTrainer unit)) :=
  literacy_score_train.set_model_params unit accepts
    [("n_estimators", PyInt 100); ("max_depth", PyInt 3)] s.

(** Construction, features, split and fit in a row, on a [Dataset] whose
    feature table is [features_table]. *)
Definition sequence (model_type : string) :=
  let constructed :=
    (literacy_score_train.__init__ unit SEED (λ _, Return tt) accepts
       (mkDataFrame [] ∅) model_type
       (mkState (mkEnv [] []) (literacy_score_train.blank unit))).2 in
  let featured :=
    (literacy_score_train.compute_features unit (λ d, Return d)
       (λ _, Return features_table) constructed).2 in
  train [] (prepare featured).2.

(** [grid_search] over two lists of three and two values, with [answer]
    typed at the prompt. *)
Definition grid : list (string * list pyval) :=
  [("n_estimators", [PyInt 10; PyInt 50; PyInt 100]);
   ("max_depth", [PyInt 3; PyInt 5])].

Definition ask (answer : string)
    (s : state (literacy_score_train.ModelTrainer unit)) :=
  literacy_score_train.grid_search unit SEED search (λ _, "[...]")
    grid 5 2 "r2" (mkState (mkEnv [] [answer]) (self s)).

End scenario.

(** * Properties *)

(** ** binary64: rounding to an integer *)

Section Float64_facts.

Example rint_2_5 : rint (div (of_Z 5) (of_Z 2)) = of_Z 2.
Proof. vm_compute. reflexivity. Qed.

Example rint_3_5 : rint (div (of_Z 7) (of_Z 2)) = of_Z 4.
Proof. vm_compute. reflexivity. Qed.

Example rint_minus_third : rint (div (of_Z (-1)) (of_Z 3)) = S754_zero true.
Proof. vm_compute. reflexivity. Qed.

Example rint_33 : to_Z (rint (div (of_Z 100) (of_Z 3))) = Some 33.
Proof. vm_compute. reflexivity. Qed.

Lemma nearest_even_spec (n d : Z) :
  0 < d →
  2 * Z.abs (nearest_even n d * d - n) ≤ d ∧
  (2 * Z.abs (nearest_even n d * d - n) = d → Z.even (nearest_even n d) = true).
Proof.
  intros Hd. unfold nearest_even.
  pose proof (Z.div_mod n d ltac:(lia)) as Hdm.
  pose proof (Z.mod_pos_bound n d Hd) as Hr.
  set (q := n / d) in *. set (r := n mod d) in *.
  destruct (Z.compare_spec (2 * r) d) as [He|Hl|Hg].
  - destruct (Z.even q) eqn:Hev.
    + split; [nia|done].
    + split; [nia|]. intros _.
      rewrite Z.even_add, Hev. reflexivity.
  - split; [nia|]. intros H. exfalso. nia.
  - split; [nia|]. intros H. exfalso. nia.
Qed.

Lemma nearest_even_bounds (n d : Z) :
  0 ≤ n → 2 ≤ d → 0 ≤ nearest_even n d ≤ n.
Proof.
  intros Hn Hd. unfold nearest_even.
  pose proof (Z.div_mod n d ltac:(lia)) as Hdm.
  pose proof (Z.mod_pos_bound n d ltac:(lia)) as Hr.
  assert (0 ≤ n / d) by (apply Z.div_pos; lia).
  set (q := n / d) in *. set (r := n mod d) in *.
  destruct (Z.compare_spec (2 * r) d) as [He|Hl|Hg].
  - destruct (Z.even q) eqn:Hev; [nia|].
    assert (q ≠ 0) by (intros ->; discriminate). nia.
  - nia.
  - nia.
Qed.

Lemma digits2_pos_size p : digits2_pos p = Pos.size p.
Proof. induction p; simpl; congruence. Qed.

Lemma digits2_pos_le (m : positive) (k : Z) :
  0 ≤ k → Zpos m < 2 ^ k → Zpos (digits2_pos m) ≤ k.
Proof.
  intros Hk Hm. rewrite digits2_pos_size.
  pose proof (Pos.size_le m) as Hle.
  destruct (Z.le_gt_cases (Zpos (Pos.size m)) k) as [|Hgt]; [done|exfalso].
  assert (2 ^ (k + 1) ≤ 2 ^ Zpos (Pos.size m)) by (apply Z.pow_le_mono_r; lia).
  assert (Zpos (2 ^ Pos.size m) ≤ Zpos m~0) by (apply Pos2Z.pos_le_pos; exact Hle).
  rewrite Pos2Z.inj_pow in *. rewrite Z.pow_add_r in * by lia. lia.
Qed.

Lemma digits2_pos_shift (m k : positive) :
  digits2_pos (Pos.iter xO m k) = (digits2_pos m + k)%positive.
Proof.
  induction k using Pos.peano_ind.
  - simpl. lia.
  - rewrite Pos.iter_succ. simpl. rewrite IHk. lia.
Qed.

Lemma Zpos_shift (m k : positive) :
  Zpos (Pos.iter xO m k) = Zpos m * 2 ^ Zpos k.
Proof.
  induction k using Pos.peano_ind.
  - simpl. lia.
  - rewrite Pos.iter_succ, Pos2Z.inj_xO, IHk, Pos2Z.inj_succ, Z.pow_succ_r by lia.
    lia.
Qed.

Lemma binary_round_integer (s : bool) (m : positive) :
  Zpos (digits2_pos m) ≤ 53 →
  to_Z (binary_round prec emax s m 0) = Some (cond_Zopp s (Zpos m)).
Proof.
  intros Hd. unfold binary_round, prec, emax.
  assert (Hf : fexp 53 1024 (Zpos (digits2_pos m) + 0) = Zpos (digits2_pos m) - 53).
  { unfold fexp, emin. lia. }
  rewrite Hf. unfold shl_align.
  destruct (Zpos (digits2_pos m) - 53 - 0) as [|k|k] eqn:Hk; [|lia|].
  - (* already 53 digits *)
    unfold binary_round_aux, shr_fexp. simpl Zdigits2.
    assert (Hf0 : fexp 53 1024 (Zpos (digits2_pos m) + 0) - 0 = 0).
    { rewrite Hf. lia. }
    rewrite Hf0. simpl. rewrite Hf0. simpl.
    destruct s; simpl; f_equal; lia.
  - unfold binary_round_aux, shr_fexp. simpl Zdigits2.
    rewrite digits2_pos_shift.
    assert (Hf1 : fexp 53 1024 (Zpos (digits2_pos m + k) + (Zpos (digits2_pos m) - 53))
                  - (Zpos (digits2_pos m) - 53) = 0).
    { unfold fexp, emin. lia. }
    rewrite Hf1. simpl shr. cbv iota beta. simpl shr_m. simpl loc_of_shr_record.
    simpl round_nearest_even. simpl Zdigits2. rewrite digits2_pos_shift, Hf1.
    simpl shr. cbv iota beta. simpl shr_m.
    assert (Hle : (Zpos (digits2_pos m) - 53 <=? 1024 - 53) = true) by (apply Z.leb_le; lia).
    rewrite Hle. unfold to_Z.
    assert (Hneg : (0 <=? Zpos (digits2_pos m) - 53) = false) by (apply Z.leb_gt; lia).
    rewrite Hneg.
    assert (He : - (Zpos (digits2_pos m) - 53) = Zpos k) by lia.
    rewrite He, Zpos_shift.
    rewrite Z.mod_mul by lia. simpl Z.eqb. cbv iota.
    rewrite Z.div_mul by lia. reflexivity.
Qed.

Lemma valid_digits (s : bool) (m : positive) (e : Z) :
  valid_binary prec emax (S754_finite s m e) = true →
  Zpos (digits2_pos m) ≤ 53.
Proof.
  simpl. unfold bounded, canonical_mantissa, fexp, emin, prec, emax.
  intros H. apply andb_prop in H as [H _]. apply Z.eqb_eq in H. lia.
Qed.

Lemma mantissa_lt (m : positive) :
  Zpos (digits2_pos m) ≤ 53 → Zpos m < 2 ^ 53.
Proof.
  intros H. rewrite digits2_pos_size in H.
  pose proof (Pos.size_gt m) as Hgt.
  apply Pos2Z.pos_lt_pos in Hgt. rewrite Pos2Z.inj_pow in Hgt.
  eapply Z.lt_le_trans; [exact Hgt|]. apply Z.pow_le_mono_r; lia.
Qed.

Lemma to_Z_normalize (s : bool) (n : Z) :
  0 ≤ n < 2 ^ 53 →
  to_Z (binary_normalize prec emax (cond_Zopp s n) 0 s) = Some (cond_Zopp s n).
Proof.
  intros Hn. destruct n as [|p|p]; [by destruct s| |lia].
  assert (Hd : Zpos (digits2_pos p) ≤ 53) by (apply digits2_pos_le; lia).
  destruct s; simpl; by rewrite binary_round_integer.
Qed.

(** What [rint] does to a finite value: the result is an integer [n] at
    distance at most 1/2 from the value, and an integer at distance exactly
    1/2 is even. *)
Lemma rint_nearest_even (x : float64) :
  isfinite x = true →
  valid_binary prec emax x = true →
  ∃ n : Z, to_Z (rint x) = Some n ∧
           (Qabs (inject_Z n - to_Q x) <= 1 # 2)%Q ∧
           ((Qabs (inject_Z n - to_Q x) == 1 # 2)%Q → Z.even n = true).
Proof.
  intros Hfin Hvalid. destruct x as [s| |  |s m e]; try discriminate.
  - exists 0. split; [done|]. split; [unfold Qle; simpl; lia|]. intros _. reflexivity.
  - pose proof (valid_digits _ _ _ Hvalid) as Hd.
    pose proof (mantissa_lt _ Hd) as Hm.
    unfold rint, to_Q, to_Z. destruct (0 <=? e) eqn:He.
    + exists (cond_Zopp s (Zpos m * 2 ^ e)). split; [by rewrite He|].
      assert (Heq : (inject_Z (cond_Zopp s (Zpos m * 2 ^ e)) -
                (if s then - inject_Z (Zpos m * 2 ^ e) else inject_Z (Zpos m * 2 ^ e)) == 0)%Q).
      { destruct s; simpl; unfold Qeq, Qminus, Qplus, Qopp, inject_Z; simpl; lia. }
      split.
      * rewrite Heq. done.
      * rewrite Heq. intros H. discriminate H.
    + apply Z.leb_gt in He.
      assert (Hpow : 2 ≤ 2 ^ (- e)).
      { change 2 with (2 ^ 1) at 1. apply Z.pow_le_mono_r; lia. }
      set (d := 2 ^ (- e)) in *.
      pose proof (nearest_even_spec (Zpos m) d ltac:(lia)) as [Hnear Htie].
      pose proof (nearest_even_bounds (Zpos m) d ltac:(lia) Hpow) as Hb.
      set (n := nearest_even (Zpos m) d) in *.
      exists (cond_Zopp s n). split.
      { fold (to_Z (binary_normalize prec emax (cond_Zopp s n) 0 s)).
        apply to_Z_normalize. lia. }
      assert (Hpos : Zpos (Z.to_pos d) = d) by (apply Z2Pos.id; lia).
      assert (Habs : (Qabs (inject_Z (cond_Zopp s n) -
                 (if s then - (Zpos m # Z.to_pos d) else Zpos m # Z.to_pos d))
               == Z.abs (n * d - Zpos m) # Z.to_pos d)%Q).
      { destruct s; unfold Qeq, Qabs, Qminus, Qplus, Qopp, inject_Z; simpl;
          rewrite ?Hpos; rewrite ?Pos2Z.inj_mul, ?Hpos; f_equal; lia. }
      split.
      * rewrite Habs. unfold Qle. simpl. rewrite Hpos. lia.
      * rewrite Habs. unfold Qeq. simpl. rewrite Hpos. intros H.
        assert (Hev : Z.even n = true) by (apply Htie; lia).
        destruct s; simpl; [rewrite Z.even_opp|]; exact Hev.
Qed.

(** Division of two finite values is never NaN. *)

Lemma shr_1_nonneg (mrs : shr_record) : 0 ≤ shr_m mrs → 0 ≤ shr_m (shr_1 mrs).
Proof.
  destruct mrs as [m r s]. simpl. intros Hm.
  destruct m as [|p|p]; [done| |lia]. destruct p; simpl; lia.
Qed.

Lemma iter_pos_invariant {A} (P : A → Prop) (f : A → A) :
  (∀ a, P a → P (f a)) → ∀ n a, P a → P (SpecFloat.iter_pos f n a).
Proof.
  intros Hf n. induction n as [n IH|n IH|]; intros a Ha; simpl; auto.
Qed.

Lemma shr_nonneg (mrs : shr_record) (e n : Z) :
  0 ≤ shr_m mrs → 0 ≤ shr_m (fst (shr mrs e n)).
Proof.
  intros Hm. destruct n as [|p|p]; simpl; try done.
  by apply (iter_pos_invariant (λ r, 0 ≤ shr_m r)), Hm; apply shr_1_nonneg.
Qed.

Lemma shr_record_of_loc_m (m : Z) (l : location) :
  shr_m (shr_record_of_loc m l) = m.
Proof. by destruct l as [|[]]. Qed.

Lemma round_nearest_even_nonneg (m : Z) (l : location) :
  0 ≤ m → 0 ≤ round_nearest_even m l.
Proof. intros Hm. destruct l as [|[]]; simpl; try lia. destruct (Z.even m); lia. Qed.

Lemma binary_round_aux_not_nan (s : bool) (m e : Z) (l : location) :
  0 ≤ m → isnan (binary_round_aux prec emax s m e l) = false.
Proof.
  intros Hm. unfold binary_round_aux, shr_fexp.
  set (n1 := fexp prec emax (Zdigits2 m + e) - e).
  pose proof (shr_nonneg (shr_record_of_loc m l) e n1) as H1.
  rewrite shr_record_of_loc_m in H1. specialize (H1 Hm).
  destruct (shr (shr_record_of_loc m l) e n1) as [mrs' e'] eqn:E1. simpl in H1.
  set (m2 := round_nearest_even (shr_m mrs') (loc_of_shr_record mrs')).
  assert (H2 : 0 ≤ m2) by (by apply round_nearest_even_nonneg).
  set (n2 := fexp prec emax (Zdigits2 m2 + e') - e').
  pose proof (shr_nonneg (shr_record_of_loc m2 loc_Exact) e' n2) as H3.
  specialize (H3 H2).
  destruct (shr (shr_record_of_loc m2 loc_Exact) e' n2) as [mrs'' e''] eqn:E2.
  simpl in H3. destruct (shr_m mrs'') as [|p|p] eqn:Em; [done| |lia].
  by destruct (e'' <=? emax - prec).
Qed.

Lemma div_finite_not_nan (s1 s2 : bool) (m1 m2 : positive) (e1 e2 : Z) :
  isnan (div (S754_finite s1 m1 e1) (S754_finite s2 m2 e2)) = false.
Proof.
  unfold div, SFdiv.
  destruct (SFdiv_core_binary prec emax (Zpos m1) e1 (Zpos m2) e2)
    as [[mz ez] lz] eqn:E.
  apply binary_round_aux_not_nan.
  unfold SFdiv_core_binary in E.
  set (m' := match _ - _ - _ with Z0 => _ | Zpos _ => _ | Zneg _ => _ end) in E.
  assert (Hm' : 0 ≤ m').
  { subst m'. destruct (_ - _ - _); [lia| |lia]. apply Z.shiftl_nonneg. lia. }
  pose proof (Z.div_eucl_eq m' (Zpos m2) ltac:(lia)) as Hq.
  pose proof (Z.mod_pos_bound m' (Zpos m2) ltac:(lia)) as Hr.
  unfold Z.modulo in Hr.
  destruct (Z.div_eucl m' (Zpos m2)) as [q r]. inversion E; subst. nia.
Qed.

Lemma isnan_div_sixty (d : float64) : isnan (div d sixty) = isnan d.
Proof.
  destruct d as [s|s| |s m e]; try reflexivity. apply div_finite_not_nan.
Qed.

(** Division always gives a binary64 number: a canonical mantissa and an
    exponent in range, whatever the operands. *)

Lemma Zdigits2_log2 (m : Z) : 0 < m → Zdigits2 m = Z.log2 m + 1.
Proof.
  destruct m as [|p|p]; try lia. intros _. simpl.
  destruct p as [p|p|]; simpl; try rewrite digits2_pos_size; lia.
Qed.

Lemma Zdigits2_nonneg (m : Z) : 0 ≤ Zdigits2 m.
Proof. destruct m; simpl; lia. Qed.

Lemma Zdigits2_mono (a b : Z) : 0 ≤ a ≤ b → Zdigits2 a ≤ Zdigits2 b.
Proof.
  intros [Ha Hab]. destruct (Z.eq_dec a 0) as [->|Hne].
  - apply Zdigits2_nonneg.
  - rewrite !Zdigits2_log2 by lia. pose proof (Z.log2_le_mono a b Hab). lia.
Qed.

Lemma Zdigits2_gt (m : Z) : 0 ≤ m → m < 2 ^ Zdigits2 m.
Proof.
  intros Hm. destruct (Z.eq_dec m 0) as [->|Hne]; [done|].
  rewrite Zdigits2_log2 by lia. apply Z.log2_spec. lia.
Qed.

Lemma Zdigits2_shiftr (m n : Z) :
  0 ≤ m → 0 ≤ n → Zdigits2 (m / 2 ^ n) = Z.max 0 (Zdigits2 m - n).
Proof.
  intros Hm Hn. destruct (Z.eq_dec m 0) as [->|Hne].
  { rewrite Z.div_0_l by (apply Z.pow_nonzero; lia). simpl. lia. }
  assert (Hpow : 0 < 2 ^ n) by (apply Z.pow_pos_nonneg; lia).
  pose proof (Z.log2_spec m ltac:(lia)) as [Hlo Hhi].
  pose proof (Z.log2_nonneg m) as Hl0.
  destruct (Z.lt_ge_cases m (2 ^ n)) as [Hlt|Hge].
  - rewrite Z.div_small by lia. simpl. rewrite Zdigits2_log2 by lia.
    assert (Z.log2 m < n); [|lia].
    apply (Z.pow_lt_mono_r_iff 2); lia.
  - assert (Hq : 0 < m / 2 ^ n) by (apply Z.div_str_pos; lia).
    rewrite !Zdigits2_log2 by lia.
    rewrite <- Z.shiftr_div_pow2 by lia.
    rewrite Z.log2_shiftr by lia.
    assert (n ≤ Z.log2 m); [|lia].
    apply Z.log2_le_pow2; lia.
Qed.

Lemma Zdigits2_shiftl (m n : Z) :
  0 < m → 0 ≤ n → Zdigits2 (Z.shiftl m n) = Zdigits2 m + n.
Proof.
  intros Hm Hn.
  assert (0 < Z.shiftl m n).
  { rewrite Z.shiftl_mul_pow2 by lia. apply Z.mul_pos_pos; [lia|].
    apply Z.pow_pos_nonneg; lia. }
  rewrite !Zdigits2_log2 by lia. rewrite Z.log2_shiftl by lia. lia.
Qed.

Lemma Zdigits2_div (a b : Z) :
  0 ≤ a → 0 < b → Zdigits2 a - Zdigits2 b ≤ Zdigits2 (a / b).
Proof.
  intros Ha Hb.
  pose proof (Zdigits2_gt b ltac:(lia)) as Hlt.
  pose proof (Zdigits2_nonneg b) as Hd.
  assert (Hle : a / 2 ^ Zdigits2 b ≤ a / b).
  { apply Z.div_le_compat_l; lia. }
  assert (0 ≤ a / 2 ^ Zdigits2 b).
  { apply Z.div_pos; [lia|]. apply Z.pow_pos_nonneg; lia. }
  pose proof (Zdigits2_mono _ _ (conj H Hle)) as Hmono.
  rewrite Zdigits2_shiftr in Hmono by lia. lia.
Qed.

Lemma fexp_mono (x y : Z) : x ≤ y → fexp prec emax x ≤ fexp prec emax y.
Proof. unfold fexp, emin, prec, emax. lia. Qed.

Lemma shr_1_m (mrs : shr_record) :
  0 ≤ shr_m mrs → shr_m (shr_1 mrs) = shr_m mrs / 2.
Proof.
  destruct mrs as [m r s]. simpl. intros Hm.
  destruct m as [|[p|p|]|p]; simpl; [reflexivity| | |reflexivity|lia].
  - apply (Z.div_unique _ _ _ 1); lia.
  - apply (Z.div_unique _ _ _ 0); lia.
Qed.

Lemma iter_shr_1_m (n : positive) (mrs : shr_record) :
  0 ≤ shr_m mrs →
  shr_m (SpecFloat.iter_pos shr_1 n mrs) = shr_m mrs / 2 ^ Zpos n.
Proof.
  revert mrs. induction n as [n IH|n IH|]; intros mrs Hm; simpl SpecFloat.iter_pos.
  - pose proof (shr_1_nonneg mrs Hm) as H1.
    assert (H2 : 0 ≤ shr_m (SpecFloat.iter_pos shr_1 n (shr_1 mrs))).
    { by apply (iter_pos_invariant (λ r, 0 ≤ shr_m r)), H1; apply shr_1_nonneg. }
    rewrite IH by done. rewrite IH by done. rewrite shr_1_m by done.
    rewrite !Z.div_div by (try apply Z.pow_pos_nonneg; lia).
    f_equal. rewrite <- (Z.pow_1_r 2) at 1. rewrite <- !Z.pow_add_r by lia.
    f_equal. lia.
  - assert (H2 : 0 ≤ shr_m (SpecFloat.iter_pos shr_1 n mrs)).
    { by apply (iter_pos_invariant (λ r, 0 ≤ shr_m r)), Hm; apply shr_1_nonneg. }
    rewrite IH by done. rewrite IH by done.
    rewrite !Z.div_div by (try apply Z.pow_pos_nonneg; lia).
    f_equal. rewrite <- !Z.pow_add_r by lia. f_equal. lia.
  - by rewrite shr_1_m.
Qed.

(** One normalisation step of [binary_round_aux]: from a mantissa with
    enough digits to a canonical one. *)
Lemma shr_fexp_canonical (m e : Z) (l : location) :
  0 ≤ m → e ≤ fexp prec emax (Zdigits2 m + e) →
  let '(mrs', e') := shr_fexp prec emax m e l in
  0 ≤ shr_m mrs' ∧ fexp prec emax (Zdigits2 (shr_m mrs') + e') = e'.
Proof.
  intros Hm He. unfold shr_fexp.
  set (D := Zdigits2 m + e) in *.
  destruct (fexp prec emax D - e) as [|n|n] eqn:Hn; try lia; simpl.
  - rewrite shr_record_of_loc_m. split; [done|]. fold D. lia.
  - pose proof (iter_shr_1_m n (shr_record_of_loc m l)) as Hit.
    rewrite shr_record_of_loc_m in Hit. specialize (Hit Hm).
    split.
    { rewrite Hit. apply Z.div_pos; [lia|]. apply Z.pow_pos_nonneg; lia. }
    rewrite Hit, Zdigits2_shiftr by lia.
    pose proof (Zdigits2_nonneg m).
    unfold fexp, emin, prec, emax in *. lia.
Qed.

Lemma round_nearest_even_range (m : Z) (l : location) :
  m ≤ round_nearest_even m l ≤ m + 1.
Proof. destruct l as [|[]]; simpl; try lia. destruct (Z.even m); lia. Qed.

Lemma binary_round_aux_valid (s : bool) (m e : Z) (l : location) :
  0 ≤ m → e ≤ fexp prec emax (Zdigits2 m + e) →
  valid_binary prec emax (binary_round_aux prec emax s m e l) = true.
Proof.
  intros Hm He. unfold binary_round_aux.
  pose proof (shr_fexp_canonical m e l Hm He) as H1.
  destruct (shr_fexp prec emax m e l) as [mrs' e'].
  destruct H1 as [Hm1 Hc1].
  set (m1 := round_nearest_even (shr_m mrs') (loc_of_shr_record mrs')).
  pose proof (round_nearest_even_range (shr_m mrs') (loc_of_shr_record mrs')) as Hr.
  fold m1 in Hr.
  assert (Hm1' : 0 ≤ m1) by lia.
  assert (He1 : e' ≤ fexp prec emax (Zdigits2 m1 + e')).
  { rewrite <- Hc1 at 1. apply fexp_mono.
    pose proof (Zdigits2_mono (shr_m mrs') m1 ltac:(lia)). lia. }
  pose proof (shr_fexp_canonical m1 e' loc_Exact Hm1' He1) as H2.
  destruct (shr_fexp prec emax m1 e' loc_Exact) as [mrs'' e''].
  destruct H2 as [Hm2 Hc2].
  destruct (shr_m mrs'') as [|p|p] eqn:Hp; try done.
  destruct (e'' <=? emax - prec) eqn:Hle; [|done].
  simpl. unfold bounded, canonical_mantissa.
  simpl in Hc2. rewrite Hc2, Z.eqb_refl, Hle. done.
Qed.

Lemma div_valid (x y : float64) : valid_binary prec emax (div x y) = true.
Proof.
  destruct x as [sx|sx| |sx mx ex], y as [sy|sy| |sy my ey]; try reflexivity.
  unfold div, SFdiv.
  destruct (SFdiv_core_binary prec emax (Zpos mx) ex (Zpos my) ey)
    as [[mz ez] lz] eqn:E.
  unfold SFdiv_core_binary in E.
  set (d1 := Zdigits2 (Zpos mx)) in E. set (d2 := Zdigits2 (Zpos my)) in E.
  set (e' := Z.min (fexp prec emax (d1 + ex - (d2 + ey))) (ex - ey)) in E.
  set (m' := match ex - ey - e' with Z0 => _ | Zpos _ => _ | Zneg _ => _ end) in E.
  assert (Hs : 0 ≤ ex - ey - e') by lia.
  assert (Hm' : 0 ≤ m' ∧ Zdigits2 m' = d1 + (ex - ey - e')).
  { subst m'. destruct (ex - ey - e') as [|p|p] eqn:Hp; try lia.
    split; [apply Z.shiftl_nonneg; lia|].
    rewrite Zdigits2_shiftl by lia. reflexivity. }
  destruct Hm' as [Hm'0 Hm'd].
  pose proof (Zdigits2_div m' (Zpos my) Hm'0 ltac:(lia)) as Hdiv.
  fold d2 in Hdiv.
  assert (Hq : mz = m' / Zpos my ∧ ez = e').
  { unfold Z.div. destruct (Z.div_eucl m' (Zpos my)) as [q r].
    by inversion E. }
  destruct Hq as [-> ->].
  apply binary_round_aux_valid.
  - apply Z.div_pos; lia.
  - etrans; [apply Z.le_min_l|]. apply fexp_mono. lia.
Qed.

End Float64_facts.

(** ** pandas: values by label *)

Section pandas_facts.
Import literacy_score_grade.

Lemma NoDup_fst_zip {A} (idx : list Z) (vals : list A) :
  NoDup idx → NoDup (zip idx vals).*1.
Proof.
  intros Hnd. revert vals. induction Hnd as [|i idx Hi Hnd IH]; intros [|v vals]; simpl;
    try constructor; auto.
  intros Hin. apply Hi. apply list_elem_of_fmap in Hin as [[j w] [-> Hin]].
  by apply elem_of_zip_l in Hin.
Qed.

Lemma Series_of_column_lookup (df : DataFrame) (vals : list float64)
    (k : nat) (i : Z) (v : float64) :
  NoDup (index df) → index df !! k = Some i → vals !! k = Some v →
  Series_of_column df vals !! i = Some v.
Proof.
  intros Hnd Hi Hv. unfold Series_of_column.
  apply elem_of_list_to_map; [by apply NoDup_fst_zip|].
  apply list_elem_of_lookup. exists k.
  rewrite lookup_zip_with, Hi. simpl. by rewrite Hv.
Qed.

Lemma wcpm_of_lookup (df : DataFrame) (wc duration : list float64)
    (k : nat) (i : Z) (d : float64) :
  NoDup (index df) → index df !! k = Some i → duration !! k = Some d →
  wcpm_of df wc duration !! i =
    Some (rint (let '(l, r) := fill_binop (default nan (Series_of_array wc !! i))
                                          (div d sixty) (of_Z 0) in
                div l r)).
Proof.
  intros Hnd Hi Hd. unfold wcpm_of, Series_round, Series_div.
  rewrite lookup_fmap, lookup_merge.
  rewrite (Series_of_column_lookup df _ k i (div d sixty)); try done.
  - unfold fill_binop. by destruct (Series_of_array wc !! i).
  - by rewrite list_lookup_fmap, Hd.
Qed.

Lemma reindex_lookup (df : DataFrame) (s : gmap Z float64) (k : nat) (i : Z) :
  index df !! k = Some i →
  reindex df s !! k = Some (Num (default nan (s !! i))).
Proof. intros Hi. unfold reindex. by rewrite list_lookup_fmap, Hi. Qed.

(** Dividing by a zero duration: never a finite number. *)
Lemma zero_duration_value (w : option float64) (d : float64) :
  is_zero d = true →
  let v := rint (let '(l, r) := fill_binop (default nan w) (div d sixty) (of_Z 0) in
                 div l r) in
  isfinite v = false ∧
  (isnan v = true ↔ match w with
                    | Some w => (isnan w || is_zero w) = true
                    | None => True
                    end).
Proof.
  intros Hz. destruct d as [sd| | |]; try discriminate.
  destruct w as [[s|s| |s m e]|]; simpl; split; try done; try (by destruct sd, s).
Qed.

(** Rows taken from two lists of one length carry the labels of the rows
    taken from the first. *)
Lemma take_zip_fst {A B} (l : list A) (k : list B) (pos : list nat) :
  length l = length k → (take (zip l k) pos).*1 = take l pos.
Proof.
  intros Hlen. unfold take. induction pos as [|p pos IH]; [done|].
  cbn [omap list_omap]. rewrite lookup_zip_with.
  destruct (l !! p) as [a|] eqn:Ha; simpl.
  - destruct (k !! p) as [b|] eqn:Hb; simpl.
    + f_equal. exact IH.
    + apply lookup_lt_Some in Ha. apply lookup_ge_None in Hb. lia.
  - exact IH.
Qed.

End pandas_facts.
(** ** literacy_score/grade.py: [DataGrader] *)

Section DataGrader_facts.
Import literacy_score_grade.
Context (pyobj table : Type) (MODELS_PATH : string).
Context (open_file : string → outcome pyobj).
Context (transform : pyobj → table → outcome table).
Context (predict : pyobj → table → outcome (list float64)).
Context (preprocess_data : DataFrame → outcome DataFrame).
Context (compute_features : DataFrame → outcome table).

Local Abbreviation DataGrader := (DataGrader pyobj table).
Local Abbreviation set_model := (set_model pyobj table MODELS_PATH open_file).
Local Abbreviation estimate_wcpm :=
  (estimate_wcpm pyobj table MODELS_PATH open_file transform predict).
Local Abbreviation grade_wcpm :=
  (grade_wcpm pyobj table MODELS_PATH open_file transform predict
     preprocess_data compute_features).
Local Abbreviation model := (model pyobj table).
Local Abbreviation model_type := (model_type pyobj table).
Local Abbreviation data := (data pyobj table).
Local Abbreviation duration_col := (duration_col pyobj table).
Local Abbreviation features := (features pyobj table).
Local Abbreviation scaler := (scaler pyobj table).

Lemma set_model_same (mt : string) (s : state DataGrader) :
  model_type (self s) = mt → set_model mt s = (Return tt, s).
Proof.
  intros H. unfold literacy_score_grade.set_model. run.
  rewrite bool_decide_true by done. reflexivity.
Qed.

Lemma set_model_unknown (mt : string) (s : state DataGrader) :
  model_type (self s) ≠ mt → mt ≠ "RF" → mt ≠ "XGB" →
  ∃ ev, set_model mt s =
        (Return tt, mkState (mkEnv (trace (env s) ++ [ev]) (stdin (env s))) (self s)).
Proof.
  intros H1 H2 H3. unfold literacy_score_grade.set_model. run.
  rewrite !bool_decide_false by done. eauto.
Qed.

Lemma set_model_known (mt file : string) (s : state DataGrader) :
  model_type (self s) ≠ mt →
  (mt = "RF" ∧ file = "rf_hypertuned.pkl") ∨ (mt = "XGB" ∧ file = "xgb_hypertuned.pkl") →
  ∃ tr, match open_file (MODELS_PATH +:+ file) with
  | Return m =>
      set_model mt s =
        (Return tt, mkState (mkEnv tr (stdin (env s)))
                      (with_model_type _ _ mt (with_model _ _ m (self s))))
  | Raise e =>
      set_model mt s = (Raise e, mkState (mkEnv tr (stdin (env s))) (self s))
  end.
Proof.
  intros H1 H2. unfold literacy_score_grade.set_model, __load_model. run.
  destruct H2 as [[-> ->] | [-> ->]]; simpl; destruct (open_file _); simpl;
    eexists; rewrite bool_decide_false by done; simpl; reflexivity.
Qed.

(** C10. [set_model] leaves [model] and [model_type] as they were when the
    requested type is the current one or is neither "RF" nor "XGB", and then
    returns normally; a requested type that is recognised and differs from
    the current one puts the artefact [open_file] returns for its file in
    [model] and the requested name in [model_type]; and whenever either
    attribute has changed, the requested type was a recognised one that
    differed from the current one. *)
Theorem set_model_changes_only_recognized_different
    (mt : string) (s : state DataGrader) :
  let r := set_model mt s in
  ((model_type (self s) = mt ∨ (mt ≠ "RF" ∧ mt ≠ "XGB")) →
     r.1 = Return tt ∧
     model (self r.2) = model (self s) ∧
     model_type (self r.2) = model_type (self s))
  ∧ (∀ file m,
       model_type (self s) ≠ mt →
       (mt = "RF" ∧ file = "rf_hypertuned.pkl") ∨
       (mt = "XGB" ∧ file = "xgb_hypertuned.pkl") →
       open_file (MODELS_PATH +:+ file) = Return m →
       r.1 = Return tt ∧ model (self r.2) = m ∧ model_type (self r.2) = mt)
  ∧ ((model (self r.2) ≠ model (self s) ∨
      model_type (self r.2) ≠ model_type (self s)) →
     model_type (self s) ≠ mt ∧ (mt = "RF" ∨ mt = "XGB")).
Proof.
  intros r. subst r.
  assert (Hframe : (model_type (self s) = mt ∨ (mt ≠ "RF" ∧ mt ≠ "XGB")) →
     (set_model mt s).1 = Return tt ∧
     model (self (set_model mt s).2) = model (self s) ∧
     model_type (self (set_model mt s).2) = model_type (self s)).
  { intros H. destruct (decide (model_type (self s) = mt)) as [Heq|Hne].
    - by rewrite set_model_same.
    - destruct H as [H|[H2 H3]]; [done|].
      destruct (set_model_unknown mt s Hne H2 H3) as [ev ->]. done. }
  split; [exact Hframe|]. split.
  - intros file m Hne Hrec Hopen.
    destruct (set_model_known mt file s Hne Hrec) as [tr Hrun].
    rewrite Hopen in Hrun. rewrite Hrun. done.
  - intros Hchanged.
    destruct (decide (model_type (self s) = mt)) as [Heq|Hne].
    { destruct (Hframe (or_introl Heq)) as (_ & H1 & H2).
      destruct Hchanged; congruence. }
    split; [done|].
    destruct (decide (mt = "RF")) as [|H2]; [by left|].
    destruct (decide (mt = "XGB")) as [|H3]; [by right|].
    destruct (Hframe (or_intror (conj H2 H3))) as (_ & H1' & H2').
    destruct Hchanged; congruence.
Qed.

(** What a run of [estimate_wcpm] on the current model gives when every
    collaborator answers: no exception, and the series computed by
    [wcpm_of], returned or stored in the table. *)
Lemma estimate_wcpm_run (inplace : bool) (s : state DataGrader)
    (f f' : table) (wc : list float64) (col : list cell) (duration : list float64) :
  features (self s) = Some f →
  transform (scaler (self s)) f = Return f' →
  predict (model (self s)) f' = Return wc →
  getitem (data (self s)) (duration_col (self s)) = Return col →
  to_floats col = Return duration →
  ∃ s',
    estimate_wcpm inplace None s =
      (Return (if inplace then None
               else Some (wcpm_of (data (self s)) wc duration)), s') ∧
    data (self s') =
      (if inplace
       then setitem (data (self s)) "wcpm_estimations"
                    (wcpm_of (data (self s)) wc duration)
       else data (self s)) ∧
    model (self s') = model (self s) ∧
    model_type (self s') = model_type (self s).
Proof.
  intros Hf Ht Hp Hc Hd.
  unfold literacy_score_grade.estimate_wcpm. run.
  rewrite Hf. simpl. rewrite Ht. simpl. rewrite Hp. simpl. rewrite Hc. simpl.
  rewrite Hd. simpl. destruct inplace; simpl; eexists; split; try reflexivity; done.
Qed.

Lemma stored_row (df : DataFrame) (wcpm : gmap Z float64) (k : nat) (i : Z)
    (v : float64) :
  index df !! k = Some i → wcpm !! i = Some v →
  ∃ c, columns (setitem df "wcpm_estimations" wcpm) !! "wcpm_estimations" = Some c
       ∧ c !! k = Some (Num v).
Proof.
  intros Hi Hv. exists (reindex df wcpm). split.
  - unfold setitem. simpl. apply lookup_insert_eq.
  - rewrite (reindex_lookup df wcpm k i Hi), Hv. done.
Qed.

(** C1, as the code has it.  No duration is refused: with a numeric
    duration column and answering collaborators [estimate_wcpm] returns
    normally, and a row whose duration is zero gets a value that is not
    finite, infinite when a non-zero word count was predicted for its label
    and NaN otherwise. *)
Theorem estimate_wcpm_zero_duration_not_finite
    (inplace : bool) (s : state DataGrader) (f f' : table)
    (wc : list float64) (col : list cell) (duration : list float64) :
  features (self s) = Some f →
  transform (scaler (self s)) f = Return f' →
  predict (model (self s)) f' = Return wc →
  getitem (data (self s)) (duration_col (self s)) = Return col →
  to_floats col = Return duration →
  NoDup (index (data (self s))) →
  ∃ s',
    estimate_wcpm inplace None s =
      (Return (if inplace then None
               else Some (wcpm_of (data (self s)) wc duration)), s') ∧
    ∀ (k : nat) (i : Z) (d : float64),
      index (data (self s)) !! k = Some i →
      duration !! k = Some d →
      is_zero d = true →
      ∃ v, wcpm_of (data (self s)) wc duration !! i = Some v ∧
           isfinite v = false ∧
           (isnan v = true ↔
              match Series_of_array wc !! i with
              | Some w => (isnan w || is_zero w) = true
              | None => True
              end) ∧
           (inplace = true →
            ∃ c, columns (data (self s')) !! "wcpm_estimations" = Some c ∧
                 c !! k = Some (Num v)).
Proof.
  intros Hf Ht Hp Hc Hd Hnd.
  destruct (estimate_wcpm_run inplace s f f' wc col duration Hf Ht Hp Hc Hd)
    as (s' & Hrun & Hdata & _).
  exists s'. split; [exact Hrun|].
  intros k i d Hi Hk Hz.
  pose proof (wcpm_of_lookup _ wc duration k i d Hnd Hi Hk) as Hv.
  destruct (zero_duration_value (Series_of_array wc !! i) d Hz) as [Hfin Hnan].
  eexists. split; [exact Hv|]. split; [exact Hfin|]. split; [exact Hnan|].
  intros ->. rewrite Hdata. by apply (stored_row _ _ k i).
Qed.

(** C3, as the code has it.  On a row whose label is its position (the
    default index of a batch), with a predicted word count and a duration
    that are not missing, the estimate is the binary64 quotient of the word
    count by (duration / 60), rounded by [rint]: when the quotient is
    finite, the estimate is an integer at distance at most 1/2 from it, and
    an estimate at distance exactly 1/2 is even. *)
Theorem estimate_wcpm_rounds_half_to_even
    (inplace : bool) (s : state DataGrader) (f f' : table)
    (wc : list float64) (col : list cell) (duration : list float64) :
  features (self s) = Some f →
  transform (scaler (self s)) f = Return f' →
  predict (model (self s)) f' = Return wc →
  getitem (data (self s)) (duration_col (self s)) = Return col →
  to_floats col = Return duration →
  NoDup (index (data (self s))) →
  ∃ s',
    estimate_wcpm inplace None s =
      (Return (if inplace then None
               else Some (wcpm_of (data (self s)) wc duration)), s') ∧
    ∀ (k : nat) (w d : float64),
      index (data (self s)) !! k = Some (Z.of_nat k) →
      wc !! k = Some w →
      duration !! k = Some d →
      isnan w = false →
      isnan d = false →
      let q := div w (div d sixty) in
      wcpm_of (data (self s)) wc duration !! Z.of_nat k = Some (rint q) ∧
      (inplace = true →
       ∃ c, columns (data (self s')) !! "wcpm_estimations" = Some c ∧
            c !! k = Some (Num (rint q))) ∧
      (isfinite q = true →
       ∃ n : Z, to_Z (rint q) = Some n ∧
                (Qabs (inject_Z n - to_Q q) <= 1 # 2)%Q ∧
                ((Qabs (inject_Z n - to_Q q) == 1 # 2)%Q → Z.even n = true)).
Proof.
  intros Hf Ht Hp Hc Hd Hnd.
  destruct (estimate_wcpm_run inplace s f f' wc col duration Hf Ht Hp Hc Hd)
    as (s' & Hrun & Hdata & _).
  exists s'. split; [exact Hrun|].
  intros k w d Hi Hw Hk Hwn Hdn q.
  assert (Hv : wcpm_of (data (self s)) wc duration !! Z.of_nat k = Some (rint q)).
  { rewrite (wcpm_of_lookup _ wc duration k _ d Hnd Hi Hk).
    unfold Series_of_array. rewrite lookup_map_seqZ_0 by lia.
    rewrite Nat2Z.id, Hw. simpl. unfold fill_binop.
    by rewrite isnan_div_sixty, Hwn, Hdn. }
  split; [exact Hv|]. split.
  - intros ->. rewrite Hdata. by apply (stored_row _ _ k (Z.of_nat k)).
  - intros Hfin. apply rint_nearest_even; [done|]. apply div_valid.
Qed.

(** [grade_wcpm] end to end: the table it returns is the preprocessed
    batch with the estimates of [wcpm_of] stored under "wcpm_estimations". *)
Lemma grade_wcpm_run (s : state DataGrader) (data' : DataFrame)
    (f f' : table) (wc : list float64) (col : list cell)
    (duration : list float64) :
  preprocess_data (data (self s)) = Return data' →
  compute_features data' = Return f →
  transform (scaler (self s)) f = Return f' →
  predict (model (self s)) f' = Return wc →
  getitem data' (duration_col (self s)) = Return col →
  to_floats col = Return duration →
  (grade_wcpm s).1 =
    Return (setitem data' "wcpm_estimations" (wcpm_of data' wc duration)).
Proof.
  intros Hp Hc Ht Hm Hcol Hd.
  unfold literacy_score_grade.grade_wcpm, literacy_score_grade.estimate_wcpm.
  run. rewrite Hp. simpl. rewrite Hc. simpl. rewrite Ht. simpl.
  rewrite Hm. simpl. rewrite Hcol. simpl. by rewrite Hd.
Qed.

End DataGrader_facts.

Example set_model_examples :
  scenario.switch_to "XGB" = (Return tt, scenario.xgb_grader)
  ∧ self (scenario.switch_to "KNN").2 = self scenario.xgb_grader
  ∧ literacy_score_grade.model _ _ (self (scenario.switch_to "RF").2)
    = "models/rf_hypertuned.pkl"
  ∧ literacy_score_grade.model_type _ _ (self (scenario.switch_to "RF").2) = "RF".
Proof. repeat split; reflexivity. Qed.

(** C1 as stated fails: on a one-row batch whose duration is 0 and for
    which 5 words are predicted, [estimate_wcpm] raises nothing and the
    estimate is +infinity. *)
Lemma estimate_wcpm_zero_duration_is_infinite :
  (scenario.estimate (of_Z 5) false (of_Z 0)).1
    = Return (Some {[ 0 := S754_infinity false ]})
  ∧ (scenario.estimate (of_Z 0) false (of_Z 0)).1
    = Return (Some {[ 0 := S754_nan ]}).
Proof. split; vm_compute; reflexivity. Qed.

(** C3 as stated fails: 2.5 words in 60 seconds is a quotient of exactly
    2.5, and the estimate is 2, not 3. *)
Lemma estimate_wcpm_tie_goes_to_even :
  Qred (to_Q (div scenario.two_and_a_half (div (of_Z 60) sixty))) = (5 # 2)%Q
  ∧ (scenario.estimate scenario.two_and_a_half false (of_Z 60)).1
    = Return (Some {[ 0 := of_Z 2 ]}).
Proof. split; vm_compute; reflexivity. Qed.

(** The scenario of the specification: 6 words in 30 seconds are 12 words
    per minute. *)
Example estimate_wcpm_six_words_in_thirty_seconds :
  (scenario.estimate (of_Z 6) false (of_Z 30)).1
    = Return (Some {[ 0 := of_Z 12 ]}).
Proof. vm_compute. reflexivity. Qed.

Example grade_wcpm_six_words_in_thirty_seconds :
  (scenario.grade (of_Z 6) (of_Z 30)).1
    = Return (mkDataFrame [0]
                {[ "scored_duration" := [Num (of_Z 30)];
                   "wcpm_estimations" := [Num (of_Z 12)] ]}).
Proof. vm_compute. reflexivity. Qed.

(** Predictions and durations are paired by label: on a batch whose only
    row is labelled 5, the word count predicted for it (label 0 of the
    predictions) meets no duration, and the row is estimated at 0. *)
Example estimate_wcpm_pairs_by_label :
  literacy_score_grade.wcpm_of
    (mkDataFrame [5] {["scored_duration" := [Num (of_Z 30)]]})
    [of_Z 6] [of_Z 30]
  = {[ 0 := S754_infinity false; 5 := S754_zero false ]}.
Proof. vm_compute. reflexivity. Qed.

(** The zero-duration theorem at the one-row batch of the scenario. *)
Lemma estimate_wcpm_zero_duration_witness :
  getitem (scenario.batch (of_Z 0)) "scored_duration" = Return [Num (of_Z 0)]
  ∧ to_floats [Num (of_Z 0)] = Return [of_Z 0]
  ∧ is_zero (of_Z 0) = true
  ∧ ∃ v, literacy_score_grade.wcpm_of (scenario.batch (of_Z 0))
                                      [of_Z 5] [of_Z 0] !! 0 = Some v
         ∧ isfinite v = false.
Proof.
  split; [reflexivity|]. split; [reflexivity|]. split; [reflexivity|].
  destruct (estimate_wcpm_zero_duration_not_finite unit unit "models/"
              (λ _, Return tt) (λ _ t, Return t) (λ _ _, Return [of_Z 5])
              true (scenario.grader (of_Z 0)) tt tt
              [of_Z 5] [Num (of_Z 0)] [of_Z 0]
              eq_refl eq_refl eq_refl eq_refl eq_refl
              ltac:(apply NoDup_singleton))
    as (s' & _ & H).
  destruct (H 0%nat 0 (of_Z 0) eq_refl eq_refl eq_refl) as (v & Hv & Hfin & _).
  exists v. split; [exact Hv|exact Hfin].
Defined.

(** The rounding theorem at 2.5 words read in 60 seconds. *)
Lemma estimate_wcpm_rounds_half_to_even_witness :
  isnan scenario.two_and_a_half = false
  ∧ isnan (of_Z 60) = false
  ∧ literacy_score_grade.wcpm_of (scenario.batch (of_Z 60))
       [scenario.two_and_a_half] [of_Z 60] !! 0
    = Some (rint (div scenario.two_and_a_half (div (of_Z 60) sixty))).
Proof.
  split; [reflexivity|]. split; [reflexivity|].
  destruct (estimate_wcpm_rounds_half_to_even unit unit "models/"
              (λ _, Return tt) (λ _ t, Return t)
              (λ _ _, Return [scenario.two_and_a_half])
              true (scenario.grader (of_Z 60)) tt tt
              [scenario.two_and_a_half] [Num (of_Z 60)] [of_Z 60]
              eq_refl eq_refl eq_refl eq_refl eq_refl
              ltac:(apply NoDup_singleton))
    as (s' & _ & H).
  destruct (H 0%nat scenario.two_and_a_half (of_Z 60)
              eq_refl eq_refl eq_refl eq_refl eq_refl) as (Hv & _).
  exact Hv.
Defined.
(** ** litreading: [load_model_from_file], [BaseModel], [Grader] *)

Section litreading_facts.
Import litreading_base.
Context (Pipeline other content : Type).
Context (fs : gmap (list string) (node content)).
Context (BASELINE_MODEL_PREDICTION_COL : string).
Context (preprocess_data : DataFrame → outcome DataFrame).
Context (Pipeline_predict : Pipeline → DataFrame → outcome (list float64)).
Context (open_file : list string → outcome (pyobj Pipeline other)).

Local Abbreviation load_model_from_file :=
  (@load_model_from_file Pipeline other content fs open_file).
Local Abbreviation BaseModel := (BaseModel Pipeline).
Local Abbreviation _predict :=
  (_predict Pipeline BASELINE_MODEL_PREDICTION_COL preprocess_data Pipeline_predict).
Local Abbreviation grade :=
  (litreading_grade.grade Pipeline BASELINE_MODEL_PREDICTION_COL
     preprocess_data Pipeline_predict).
Local Abbreviation Grader__init__ :=
  (litreading_grade.__init__ Pipeline other content fs open_file).

Lemma is_file_spec (p : list string) :
  is_file fs p = true ↔ ∃ c, fs !! p = Some (RegularFile c).
Proof.
  unfold is_file. destruct (fs !! p) as [[|c]|]; split; try done.
  - by intros [c [=]].
  - eauto.
  - by intros [c [=]].
Qed.

(** What the loader does at a path, case by case. *)
Lemma load_model_from_file_cases {Obj} (p : list string) (s : state Obj) :
  (load_model_from_file (Some p) s).1 =
    if negb (is_file fs p) then Raise (FileNotFoundError p)
    else if bool_decide (suffix p ≠ ".pkl")
         then Raise (ValueError "Please give a path to pickle file")
         else match open_file p with
              | Return (APipeline _ _ m) => Return m
              | Return (NotAPipeline _ _ _) =>
                  Raise (ValueError
                    "Incompatible model: please give a filepath to a sklearn pipeline object")
              | Raise e => Raise e
              end.
Proof.
  unfold litreading_base.load_model_from_file. run.
  destruct (is_file fs p); simpl; [|done].
  destruct (bool_decide (suffix p ≠ ".pkl")); simpl; [done|].
  by destruct (open_file p) as [[m|o]|e].
Qed.

(** C2. At every path [load_model_from_file] raises exactly when there is
    no regular file at the path, or the suffix of the path is not ".pkl",
    or unpickling the file does not give a [Pipeline]; a path with no file
    is answered by [FileNotFoundError]; and the loader returns [m] exactly
    when none of the three holds and [m] is the pipeline [open_file] gave,
    so that nothing else is ever returned in its place. *)
Theorem load_model_from_file_raises_iff {Obj} (p : list string) (s : state Obj) :
  let r := (load_model_from_file (Some p) s).1 in
  (raises r ↔
     (¬ ∃ c, fs !! p = Some (RegularFile c)) ∨
     suffix p ≠ ".pkl" ∨
     (¬ ∃ m, open_file p = Return (APipeline _ _ m)))
  ∧ ((¬ ∃ c, fs !! p = Some (RegularFile c)) →
     r = Raise (FileNotFoundError p))
  ∧ (∀ m, r = Return m ↔
            (∃ c, fs !! p = Some (RegularFile c)) ∧
            suffix p = ".pkl" ∧
            open_file p = Return (APipeline _ _ m)).
Proof.
  intros r. subst r. rewrite load_model_from_file_cases.
  pose proof (is_file_spec p) as Hfile. unfold raises.
  destruct (is_file fs p) eqn:Hf; simpl.
  2:{ assert (Hno : ¬ ∃ c, fs !! p = Some (RegularFile c)).
      { intros H. apply Hfile in H. discriminate. }
      repeat split; try done; eauto. by intros (? & _). }
  assert (Hyes : ∃ c, fs !! p = Some (RegularFile c)) by (by apply Hfile).
  destruct (decide (suffix p = ".pkl")) as [Hs|Hs].
  2:{ rewrite bool_decide_true by done.
      repeat split; try done; eauto. by intros (_ & ? & _). }
  rewrite bool_decide_false by (by intros []).
  destruct (open_file p) as [[m|o]|e] eqn:Ho.
  - split; [|split].
    + split; [by intros [e [=]]|].
      intros [H|[H|H]]; [done|done|]. destruct H. eauto.
    + done.
    + intros m'. split; [by intros [= ->]|]. by intros (_ & _ & [= ->]).
  - split; [|split].
    + split; [|eauto]. intros _. right; right. by intros [m [=]].
    + done.
    + intros m'. split; [done|]. by intros (_ & _ & [=]).
  - split; [|split].
    + split; [|eauto]. intros _. right; right. by intros [m [=]].
    + done.
    + intros m'. split; [done|]. by intros (_ & _ & [=]).
Qed.

(** C9. A [baseline_mode] that is no [bool] stops [BaseModel.__init__], and
    with it [Grader.__init__], with a [TypeError] before anything else is
    done; and with [baseline_mode=True] the [Grader] is built whatever
    [model_filepath] is ([None], a path with no file behind it), its model
    is [None], and the run leaves no trace: no file was opened. *)
Theorem Grader_init_baseline_mode
    (model_filepath : option (list string)) (v : pyval) (s : state unit) :
  (isinstance_bool v = false →
     __init__ Pipeline v s =
       (Raise (TypeError "baseline_mode must be a boolean"), s) ∧
     Grader__init__ model_filepath v s =
       (Raise (TypeError "baseline_mode must be a boolean"), s))
  ∧ Grader__init__ model_filepath (PyBool true) s =
      (Return (mkBaseModel Pipeline true None), s).
Proof.
  split.
  - intros Hv. unfold litreading_grade.__init__, __init__. run.
    rewrite Hv. done.
  - unfold litreading_grade.__init__, __init__. run. done.
Qed.


End litreading_facts.

Example load_pickled_pipeline :
  scenario.load ["models"; "model.pkl"] = Return 7%nat.
Proof. vm_compute. reflexivity. Qed.

Example load_missing_file :
  scenario.load ["models"; "absent.pkl"]
    = Raise (FileNotFoundError ["models"; "absent.pkl"]).
Proof. vm_compute. reflexivity. Qed.

Example load_directory :
  scenario.load ["models"] = Raise (FileNotFoundError ["models"]).
Proof. vm_compute. reflexivity. Qed.

Example load_text_file :
  scenario.load ["models"; "notes.txt"]
    = Raise (ValueError "Please give a path to pickle file").
Proof. vm_compute. reflexivity. Qed.

Example load_pickled_scaler :
  scenario.load ["models"; "scaler.pkl"]
    = Raise (ValueError
        "Incompatible model: please give a filepath to a sklearn pipeline object").
Proof. vm_compute. reflexivity. Qed.

Example Grader_examples :
  scenario.new_Grader None (PyBool true)
    = (Return (litreading_base.mkBaseModel nat true None),
       mkState (mkEnv [] []) tt)
  ∧ (scenario.new_Grader (Some ["models"; "absent.pkl"]) (PyBool true)).1
    = Return (litreading_base.mkBaseModel nat true None)
  ∧ (scenario.new_Grader (Some ["models"; "model.pkl"]) (PyInt 1)).1
    = Raise (TypeError "baseline_mode must be a boolean")
  ∧ (scenario.new_Grader (Some ["models"; "model.pkl"]) (PyBool false)).1
    = Return (litreading_base.mkBaseModel nat false (Some 7%nat))
  ∧ (scenario.new_Grader None (PyBool false)).1
    = Raise (TypeError "expected str, bytes or os.PathLike object, not NoneType").
Proof. repeat split; vm_compute; reflexivity. Qed.

Example suffix_examples :
  suffix ["models"; "model.pkl"] = ".pkl"
  ∧ suffix ["archive.tar.gz"] = ".gz"
  ∧ suffix [".pkl"] = ""
  ∧ suffix ["model."] = ""
  ∧ suffix ["model.pkl"; "readme"] = "".
Proof. repeat split; reflexivity. Qed.

Lemma preprocessed_well_formed : well_formed scenario.preprocessed.
Proof.
  unfold well_formed.
  apply (bool_decide_unpack (map_Forall (λ _ c, length c = nrows scenario.preprocessed)
                                        (columns scenario.preprocessed))).
  vm_compute. exact I.
Qed.

(** ** literacy_score/train.py: [ModelTrainer] *)

Section ModelTrainer_facts.
Import literacy_score_train.
Context (Dataset : Type) (SEED : Z).
Context (new_Dataset : DataFrame → outcome Dataset).
Context (preprocess_data : Dataset → outcome Dataset).
Context (Dataset_compute_features : Dataset → outcome DataFrame).
Context (determine_outliers_mask : Dataset → float64 → outcome (list bool)).
Context (valid_param : regressor_class → string → bool).
Context (fit_failure : Estimator → matrix → target → option exn).
Context (split_positions : Z → nat → float64 → outcome (list nat * list nat)).
Context (standardize : DataFrame → DataFrame → outcome matrix).
Context (search :
  Estimator → list (string * list pyval) → string → Z →
  matrix → target → outcome Estimator).
Context (repr : list pyval → string).

Local Abbreviation ModelTrainer := (ModelTrainer Dataset).
Local Abbreviation set_params := (set_params valid_param).
Local Abbreviation set_new_model := (set_new_model Dataset SEED valid_param).
Local Abbreviation __init__ := (__init__ Dataset SEED new_Dataset valid_param).
Local Abbreviation train := (train Dataset valid_param fit_failure).
Local Abbreviation fit := (fit fit_failure).
Local Abbreviation prepare_train_test_set :=
  (prepare_train_test_set Dataset SEED determine_outliers_mask
     split_positions standardize).
Local Abbreviation train_test_split := (train_test_split split_positions).
Local Abbreviation grid_search :=
  (grid_search Dataset SEED search repr).
Local Abbreviation model := (model Dataset).
Local Abbreviation model_type := (model_type Dataset).
Local Abbreviation features := (features Dataset).
Local Abbreviation data := (data Dataset).
Local Abbreviation scaler := (scaler Dataset).
Local Abbreviation X_train := (X_train Dataset).
Local Abbreviation X_test := (X_test Dataset).
Local Abbreviation Y_train := (Y_train Dataset).
Local Abbreviation Y_test := (Y_test Dataset).
Local Abbreviation test_idx := (test_idx Dataset).
Local Abbreviation with_model := (with_model Dataset).
Local Abbreviation with_model_type := (with_model_type Dataset).

Lemma set_params_class (params : list (string * pyval)) (e : Estimator) :
  est_class (set_params e params).2 = est_class e.
Proof.
  revert e. induction params as [|[k v] rest IH]; intros e; simpl; [done|].
  destruct (valid_param (est_class e) k); [|done]. by rewrite IH.
Qed.

Lemma set_params_fitted_on (params : list (string * pyval)) (e : Estimator) :
  fitted_on (set_params e params).2 = fitted_on e.
Proof.
  revert e. induction params as [|[k v] rest IH]; intros e; simpl; [done|].
  destruct (valid_param (est_class e) k); [|done]. by rewrite IH.
Qed.

Lemma set_new_model_accepted (mt : string) (c : regressor_class)
    (kwargs params : list (string * pyval)) (s : state ModelTrainer) :
  (mt, c, kwargs) ∈
    [("RF", RandomForestRegressor, [("random_state", PyInt SEED)]);
     ("XGB", XGBRegressor, [("random_state", PyInt SEED)]);
     ("KNN", KNeighborsRegressor, []);
     ("Baseline", BaselineModel, [])] →
  set_new_model mt params s =
    (if bool_decide (params ≠ [])
     then (set_params (new_regressor c kwargs) params).1
     else Return tt,
     mkState (env s)
       (with_model (set_params (new_regressor c kwargs) params).2
          (with_model_type mt (with_model (new_regressor c kwargs) (self s))))).
Proof.
  intros Hin. rewrite !elem_of_cons, elem_of_nil in Hin.
  destruct Hin as [[= -> -> ->]|[[= -> -> ->]|[[= -> -> ->]|[[= -> -> ->]|[]]]]];
    unfold literacy_score_train.set_new_model, set_model_params, model_set_params;
    run;
    (destruct (decide (params = [])) as [->|Hne];
     [ by rewrite bool_decide_false by (by intros [])
     | rewrite bool_decide_true by done; simpl;
       match goal with
       | |- context [literacy_score_train.set_params ?vp ?e ?ps] =>
           destruct (literacy_score_train.set_params vp e ps) as [[[]|err] m'];
           simpl; reflexivity
       end ]).
Qed.

(** C4, as the code has it.  The four names "RF", "XGB", "KNN" and
    "Baseline", and no other, select a regressor: for each of them the
    trainer afterwards holds a model of the named class and the name as its
    [model_type] (with no parameters given, exactly the freshly constructed
    regressor).  For every other name [set_new_model] raises nothing: it
    logs one error and returns, the trainer left as it was. *)
Theorem set_new_model_closed_set (mt : string)
    (params : list (string * pyval)) (s : state ModelTrainer) :
  let r := set_new_model mt params s in
  (∀ c kwargs,
     (mt, c, kwargs) ∈
       [("RF", RandomForestRegressor, [("random_state", PyInt SEED)]);
        ("XGB", XGBRegressor, [("random_state", PyInt SEED)]);
        ("KNN", KNeighborsRegressor, []);
        ("Baseline", BaselineModel, [])] →
     model_type (self r.2) = Some mt ∧
     (∃ m, model (self r.2) = Some m ∧ est_class m = c) ∧
     (params = [] →
      r = (Return tt,
           mkState (env s)
             (with_model_type mt (with_model (new_regressor c kwargs) (self s))))))
  ∧ (mt ∉ ["RF"; "XGB"; "KNN"; "Baseline"] →
     r = (Return tt,
          mkState
            (mkEnv (trace (env s) ++
                    [Log ERROR
                       "Sorry, training for mode_type %s has not been implemented yet."
                       [mt]])
                   (stdin (env s)))
            (self s))).
Proof.
  intros r. subst r. split.
  - intros c kwargs Hin. rewrite (set_new_model_accepted mt c kwargs params s Hin).
    simpl. split; [done|]. split.
    + eexists. split; [reflexivity|]. by rewrite set_params_class.
    + by intros ->.
  - intros Hout. rewrite !not_elem_of_cons in Hout.
    destruct Hout as (H1 & H2 & H3 & H4 & _).
    unfold literacy_score_train.set_new_model. run.
    by rewrite !bool_decide_false by done.
Qed.

(** [prepare_train_test_set] when every step answers: the table left after
    the optional removal of outliers is [kept]. *)
Lemma prepare_train_test_set_run
    (remove_outliers inplace : bool) (tol ts : float64)
    (s : state ModelTrainer) (f kept : DataFrame) (y : list cell)
    (tr te : list nat) (Xtr Xte : matrix) :
  features (self s) = Some f →
  (if remove_outliers
   then ∃ d mask, data (self s) = Some d ∧
                  determine_outliers_mask d tol = Return mask ∧
                  boolean_index f mask = Return kept
   else kept = f) →
  columns kept !! "human_wc" = Some y →
  let X := mkDataFrame (index kept) (delete "human_wc" (columns kept)) in
  split_positions SEED (nrows X) ts = Return (tr, te) →
  standardize (iloc X tr) (iloc X tr) = Return Xtr →
  standardize (iloc X tr) (iloc X te) = Return Xte →
  let r := prepare_train_test_set remove_outliers tol ts inplace s in
  let Ytr := take (zip (index X) y) tr in
  let Yte := take (zip (index X) y) te in
  r.1 = Return (if inplace then None else Some (Xtr, Xte, Ytr, Yte)) ∧
  features (self r.2) = Some kept ∧
  scaler (self r.2) = Some (mkStandardScaler (Some (iloc X tr))) ∧
  test_idx (self r.2) = Some (index (iloc X te)) ∧
  model (self r.2) = model (self s) ∧
  model_type (self r.2) = model_type (self s) ∧
  stdin (env r.2) = stdin (env s) ∧
  (inplace = true →
   X_train (self r.2) = Some Xtr ∧ X_test (self r.2) = Some Xte ∧
   Y_train (self r.2) = Some Ytr ∧ Y_test (self r.2) = Some Yte) ∧
  (well_formed kept →
   Ytr.*1 = index (iloc X tr) ∧ Yte.*1 = index (iloc X te)).
Proof.
  intros Hf Hkept Hy X Hsplit Hfit Htr r Ytr Yte. subst r.
  unfold literacy_score_train.prepare_train_test_set, scaler_fit_transform,
    scaler_transform, literacy_score_train.train_test_split, drop_column, getitem.
  assert (Hlabels : well_formed kept →
            Ytr.*1 = index (iloc X tr) ∧ Yte.*1 = index (iloc X te)).
  { intros Hwf. pose proof (Hwf _ _ Hy) as Hlen. simpl in Hlen.
    subst Ytr Yte. simpl. split; apply take_zip_fst; by rewrite Hlen. }
  destruct remove_outliers.
  - destruct Hkept as (d & mask & Hd & Hm & Hb). run.
    rewrite Hd. simpl. rewrite Hm. simpl. rewrite Hf. simpl. rewrite Hb. simpl.
    rewrite Hy. simpl. fold X. rewrite Hsplit. simpl. rewrite Hfit. simpl.
    rewrite Htr. simpl. destruct inplace; simpl; repeat split; try done;
      by apply Hlabels.
  - subst kept. run. rewrite Hf. simpl. rewrite Hf. simpl.
    rewrite Hy. simpl. fold X. rewrite Hsplit. simpl. rewrite Hfit. simpl.
    rewrite Htr. simpl. destruct inplace; simpl; repeat split; try done;
      by apply Hlabels.
Qed.

(** A call of [prepare_train_test_set] in place that returns has assigned
    the train partition, and has not touched the model. *)
Lemma prepare_train_test_set_returned
    (remove_outliers : bool) (tol ts : float64)
    (s s' : state ModelTrainer) (r : option (matrix * matrix * target * target)) :
  prepare_train_test_set remove_outliers tol ts true s = (Return r, s') →
  ∃ X Y, X_train (self s') = Some X ∧ Y_train (self s') = Some Y ∧
         model (self s') = model (self s) ∧
         model_type (self s') = model_type (self s).
Proof.
  unfold literacy_score_train.prepare_train_test_set, scaler_fit_transform,
    scaler_transform, literacy_score_train.train_test_split, drop_column, getitem.
  run. intros H. destruct remove_outliers;
    repeat match type of H with
           | context [match ?x with _ => _ end] =>
               lazymatch x with
               | context [match _ with _ => _ end] => fail
               | _ => destruct x eqn:?; simpl in H; try discriminate H
               end
           end;
    inversion H; subst; simpl; eauto 10.
Qed.

(** C6. When every step answers, [prepare_train_test_set] splits the rows
    of the feature table (after the optional removal of outliers) at the
    positions scikit-learn draws for the fixed seed [SEED], features and
    target alike (in a well-formed table the target rows carry the labels
    of the feature rows), constructs a new scaler and fits it on the
    training rows alone, and transforms the training rows and the test rows
    with that scaler.  The outcome depends
    on the feature table, the options and the seed only: from any other
    state with the same [features] and [data] the call gives the same
    result, the same scaler and the same partitions. *)
Theorem prepare_train_test_set_fits_scaler_on_train_only
    (remove_outliers inplace : bool) (tol ts : float64)
    (s : state ModelTrainer) (f kept : DataFrame) (y : list cell)
    (tr te : list nat) (Xtr Xte : matrix) :
  features (self s) = Some f →
  (if remove_outliers
   then ∃ d mask, data (self s) = Some d ∧
                  determine_outliers_mask d tol = Return mask ∧
                  boolean_index f mask = Return kept
   else kept = f) →
  columns kept !! "human_wc" = Some y →
  let X := mkDataFrame (index kept) (delete "human_wc" (columns kept)) in
  split_positions SEED (nrows X) ts = Return (tr, te) →
  standardize (iloc X tr) (iloc X tr) = Return Xtr →
  standardize (iloc X tr) (iloc X te) = Return Xte →
  let r := prepare_train_test_set remove_outliers tol ts inplace s in
  let Ytr := take (zip (index X) y) tr in
  let Yte := take (zip (index X) y) te in
  r.1 = Return (if inplace then None else Some (Xtr, Xte, Ytr, Yte)) ∧
  scaler (self r.2) = Some (mkStandardScaler (Some (iloc X tr))) ∧
  test_idx (self r.2) = Some (index (iloc X te)) ∧
  (inplace = true →
   X_train (self r.2) = Some Xtr ∧ X_test (self r.2) = Some Xte ∧
   Y_train (self r.2) = Some Ytr ∧ Y_test (self r.2) = Some Yte) ∧
  (well_formed kept →
   Ytr.*1 = index (iloc X tr) ∧ Yte.*1 = index (iloc X te)) ∧
  ∀ s2 : state ModelTrainer,
    features (self s2) = features (self s) →
    data (self s2) = data (self s) →
    let r2 := prepare_train_test_set remove_outliers tol ts inplace s2 in
    r2.1 = r.1 ∧
    scaler (self r2.2) = scaler (self r.2) ∧
    test_idx (self r2.2) = test_idx (self r.2) ∧
    (inplace = true →
     X_train (self r2.2) = X_train (self r.2) ∧
     X_test (self r2.2) = X_test (self r.2) ∧
     Y_train (self r2.2) = Y_train (self r.2) ∧
     Y_test (self r2.2) = Y_test (self r.2)).
Proof.
  intros Hf Hkept Hy X Hsplit Hfit Htr r Ytr Yte.
  destruct (prepare_train_test_set_run remove_outliers inplace tol ts s f kept y
              tr te Xtr Xte Hf Hkept Hy Hsplit Hfit Htr)
    as (H1 & _ & H2 & H3 & _ & _ & _ & H4 & H5).
  fold X r Ytr Yte in H1, H2, H3, H4, H5.
  split; [exact H1|]. split; [exact H2|]. split; [exact H3|]. split; [exact H4|].
  split; [exact H5|].
  intros s2 Hf2 Hd2 r2.
  assert (Hkept2 : if remove_outliers
                   then ∃ d mask, data (self s2) = Some d ∧
                          determine_outliers_mask d tol = Return mask ∧
                          boolean_index f mask = Return kept
                   else kept = f).
  { destruct remove_outliers; [|done]. by rewrite Hd2. }
  rewrite <- Hf2 in Hf.
  destruct (prepare_train_test_set_run remove_outliers inplace tol ts s2 f kept y
              tr te Xtr Xte Hf Hkept2 Hy Hsplit Hfit Htr)
    as (G1 & _ & G2 & G3 & _ & _ & _ & G4 & _).
  fold X r2 Ytr Yte in G1, G2, G3, G4.
  rewrite G1, G2, G3, H1, H2, H3.
  split; [done|]. split; [done|]. split; [done|].
  intros Hin. destruct (H4 Hin) as (? & ? & ? & ?).
  destruct (G4 Hin) as (? & ? & ? & ?). repeat split; congruence.
Qed.

(** The fitted scaler is a function of the training rows: two tables whose
    splits give the same training rows give the same scaler, whatever
    their test rows. *)
Corollary prepare_train_test_set_scaler_ignores_test_rows
    (ts : float64) (s1 s2 : state ModelTrainer) (f1 f2 : DataFrame)
    (y1 y2 : list cell) (tr1 te1 tr2 te2 : list nat) (A1 A2 B1 B2 : matrix) :
  features (self s1) = Some f1 →
  features (self s2) = Some f2 →
  columns f1 !! "human_wc" = Some y1 →
  columns f2 !! "human_wc" = Some y2 →
  let X1 := mkDataFrame (index f1) (delete "human_wc" (columns f1)) in
  let X2 := mkDataFrame (index f2) (delete "human_wc" (columns f2)) in
  split_positions SEED (nrows X1) ts = Return (tr1, te1) →
  split_positions SEED (nrows X2) ts = Return (tr2, te2) →
  standardize (iloc X1 tr1) (iloc X1 tr1) = Return A1 →
  standardize (iloc X1 tr1) (iloc X1 te1) = Return B1 →
  standardize (iloc X2 tr2) (iloc X2 tr2) = Return A2 →
  standardize (iloc X2 tr2) (iloc X2 te2) = Return B2 →
  iloc X1 tr1 = iloc X2 tr2 →
  scaler (self (prepare_train_test_set false ts ts true s1).2) =
  scaler (self (prepare_train_test_set false ts ts true s2).2).
Proof.
  intros Hf1 Hf2 Hy1 Hy2 X1 X2 Hs1 Hs2 Ha1 Hb1 Ha2 Hb2 Heq.
  destruct (prepare_train_test_set_run false true ts ts s1 f1 f1 y1
              tr1 te1 A1 B1 Hf1 eq_refl Hy1 Hs1 Ha1 Hb1) as (_ & _ & -> & _).
  destruct (prepare_train_test_set_run false true ts ts s2 f2 f2 y2
              tr2 te2 A2 B2 Hf2 eq_refl Hy2 Hs2 Ha2 Hb2) as (_ & _ & -> & _).
  fold X1 X2. by rewrite Heq.
Qed.

Lemma train_not_prepared (params : list (string * pyval))
    (s : state ModelTrainer) (m m' : Estimator) :
  model (self s) = Some m →
  X_train (self s) = None →
  set_params m params = (Return tt, m') →
  train params s =
    (Return tt,
     mkState (mkEnv (trace (env s) ++ [Log ERROR not_prepared_message []])
                    (stdin (env s)))
             (with_model m' (self s))).
Proof.
  intros Hm Hx Hp. unfold literacy_score_train.train, model_set_params. run.
  rewrite Hm. simpl. rewrite Hp. simpl. by rewrite Hx.
Qed.

Lemma train_prepared (s : state ModelTrainer) (m : Estimator) (mt : string)
    (X : matrix) (Y : target) :
  model (self s) = Some m →
  model_type (self s) = Some mt →
  X_train (self s) = Some X →
  Y_train (self s) = Some Y →
  fit_failure m X Y = None →
  train [] s =
    (Return tt,
     mkState (mkEnv (trace (env s) ++ [Log INFO "Training %s" [mt]; Call "model.fit"])
                    (stdin (env s)))
             (with_model (mkEstimator (est_class m) (est_params m) (Some (X, Y)))
                         (self s))).
Proof.
  intros Hm Ht Hx Hy Hfit.
  unfold literacy_score_train.train, model_set_params, literacy_score_train.fit. run.
  repeat (progress (rewrite ?Hm, ?Hx, ?Ht, ?Hy, ?Hfit; simpl)).
  by rewrite <- app_assoc.
Qed.

(** C5, as the code has it.  On a trainer that holds a model, called with
    parameters that model accepts, [train] before
    [prepare_train_test_set] raises nothing: it logs the "not prepared"
    error and returns; the parameters have been set on the model, which was
    not fitted.  If [prepare_train_test_set] then returns, [train] fits the
    model on the prepared training partition. *)
Theorem train_before_prepare_logs_and_returns
    (params : list (string * pyval)) (s : state ModelTrainer)
    (m m' : Estimator) (mt : string) :
  model (self s) = Some m →
  model_type (self s) = Some mt →
  X_train (self s) = None →
  set_params m params = (Return tt, m') →
  let r := train params s in
  r = (Return tt,
       mkState (mkEnv (trace (env s) ++ [Log ERROR not_prepared_message []])
                      (stdin (env s)))
               (with_model m' (self s)))
  ∧ fitted_on m' = fitted_on m
  ∧ ∀ remove_outliers tol ts res s2,
      prepare_train_test_set remove_outliers tol ts true r.2 = (Return res, s2) →
      ∃ X Y,
        X_train (self s2) = Some X ∧ Y_train (self s2) = Some Y ∧
        (fit_failure m' X Y = None →
         (train [] s2).1 = Return tt ∧
         model (self (train [] s2).2) =
           Some (mkEstimator (est_class m') (est_params m') (Some (X, Y)))).
Proof.
  intros Hm Ht Hx Hp r. subst r.
  rewrite (train_not_prepared params s m m' Hm Hx Hp).
  split; [done|]. split.
  { pose proof (set_params_fitted_on params m) as H. by rewrite Hp in H. }
  intros ro tol ts res s2 Hprep.
  destruct (prepare_train_test_set_returned _ _ _ _ _ _ Hprep)
    as (X & Y & HX & HY & Hm2 & Ht2).
  simpl in Hm2, Ht2. exists X, Y. split; [done|]. split; [done|].
  intros Hfit. rewrite Ht in Ht2.
  by rewrite (train_prepared s2 m' mt X Y Hm2 Ht2 HX HY Hfit).
Qed.

Lemma length_product {A} (lists : list (list A)) :
  length (product lists) =
  foldr (λ values acc, (length values * acc)%nat) 1%nat lists.
Proof.
  induction lists as [|l rest IH]; [done|].
  cbn [product foldr]. rewrite <- IH. clear IH.
  generalize (product rest). intros ps.
  induction l as [|x l IHl]; [done|].
  cbn. rewrite length_app, length_fmap. cbn in IHl. by rewrite IHl.
Qed.

Lemma print_items_run (items : list (string * list pyval))
    (s : state ModelTrainer) :
  print_items Dataset repr items s =
    (Return tt,
     mkState (mkEnv (trace (env s) ++
                     ((λ kv, Print (kv.1 +:+ " " +:+ repr kv.2)) <$> items))
                    (stdin (env s)))
             (self s)).
Proof.
  revert s. induction items as [|[k v] rest IH]; intros s; simpl.
  - rewrite app_nil_r. by destruct s as [[] ?].
  - run. rewrite IH. simpl. by rewrite <- app_assoc.
Qed.

(** What [grid_search] prints before it asks. *)
Lemma grid_search_announcement_no_fit (header : list event)
    (items : list (string * list pyval)) :
  Forall (λ ev, ∃ line, ev = Print line) header →
  Call "GridSearchCV.fit" ∉
    header ++ ((λ kv, Print (kv.1 +:+ " " +:+ repr kv.2)) <$> items).
Proof.
  intros Hh Hin. apply elem_of_app in Hin as [Hin|Hin].
  - rewrite Forall_forall in Hh. by destruct (Hh _ Hin).
  - by apply list_elem_of_fmap in Hin as [kv [? _]].
Qed.

(** C8, as the code has it.  For a trainer whose model type is "RF", "XGB"
    or "KNN", [grid_search] prints the number of combinations, the product
    of the sizes of the value lists, and then asks; nothing is searched
    before the question.  The answers "n" and "no" stop the call: it
    returns [None] and the trainer is as it was.  Every other answer lets
    the search run on a prepared trainer, and when the call returns a
    search object the trainer's model is the best estimator found. *)
Theorem grid_search_runs_unless_answer_is_no
    (cv_params : list (string * list pyval)) (cv_folds verbose : Z)
    (scoring_metric : string) (s : state ModelTrainer)
    (mt answer : string) (rest : list string) :
  model_type (self s) = Some mt →
  mt ∈ ["RF"; "XGB"; "KNN"] →
  stdin (env s) = answer :: rest →
  let r := grid_search cv_params cv_folds verbose scoring_metric s in
  let n := foldr (λ values acc, (length values * acc)%nat) 1%nat
                 (snd <$> cv_params) in
  let count_line :=
    Print (nl +:+ " # of possible combinations to be cross-validated: "
              +:+ pretty n) in
  let question :=
    Prompt (nl +:+ "Continue with these c-v parameters ? (y/n)  ") in
  (∃ before after,
     trace (env r.2) =
       trace (env s) ++ before ++ [count_line; question] ++ after ∧
     (Call "GridSearchCV.fit" ∉ before) ∧
     (answer = "n" ∨ answer = "no" →
      after = [Print "Please redefine inputs."]))
  ∧ (answer = "n" ∨ answer = "no" → r.1 = Return None ∧ self r.2 = self s)
  ∧ (answer ≠ "n" → answer ≠ "no" →
     ∀ X Y, X_train (self s) = Some X → Y_train (self s) = Some Y →
       Call "GridSearchCV.fit" ∈ trace (env r.2) ∧
       ∀ gs, r.1 = Return (Some gs) →
             is_Some (best_estimator_ gs) ∧
             model (self r.2) = best_estimator_ gs).
Proof.
  clear fit_failure split_positions.
  intros Hmt Hin Hstdin r n count_line question.
  assert (Hrun : ∃ (header : list event) (est : Estimator),
    Forall (λ ev, ∃ line, ev = Print line) header ∧
    let before := header ++ ((λ kv, Print (kv.1 +:+ " " +:+ repr kv.2)) <$> cv_params) in
    let s1 := mkState (mkEnv (trace (env s) ++ before ++ [count_line; question]) rest)
                      (self s) in
    r = if bool_decide (answer = "n") || bool_decide (answer = "no")
        then (Return None,
              mkState (mkEnv (trace (env s1) ++ [Print "Please redefine inputs."]) rest)
                      (self s))
        else
          match X_train (self s), Y_train (self s) with
          | Some X, Some Y =>
              let s2 := mkState (mkEnv (trace (env s1) ++ [Call "GridSearchCV.fit"]) rest)
                                (self s) in
              match search est cv_params scoring_metric cv_folds X Y with
              | Return best =>
                  (Return (Some (mkGridSearchCV est cv_params scoring_metric
                                   cv_folds verbose (Some best))),
                   mkState (env s2) (with_model best (self s)))
              | Raise (AttributeError a) =>
                  (Raise (AttributeError "best_estimator_"),
                   mkState (mkEnv (trace (env s2) ++ [Log ERROR not_prepared_message []]) rest)
                           (self s))
              | Raise e => (Raise e, s2)
              end
          | _, _ =>
              (Raise (AttributeError "best_estimator_"),
               mkState (mkEnv (trace (env s1) ++ [Log ERROR not_prepared_message []]) rest)
                       (self s))
          end).
  { subst r. rewrite !elem_of_cons, elem_of_nil in Hin.
    unfold literacy_score_train.grid_search, input. run.
    rewrite Hmt. simpl.
    assert (Hcases :
      (mt = "RF" ∧ ∃ e, e = new_regressor RandomForestRegressor [("random_state", PyInt SEED)]) ∨
      (mt = "XGB" ∧ ∃ e, e = new_regressor XGBRegressor [("random_state", PyInt SEED)]) ∨
      (mt = "KNN" ∧ ∃ e, e = new_regressor KNeighborsRegressor [])).
    { destruct Hin as [->|[->|[->|[]]]]; eauto 6. }
    clear Hin.
    destruct Hcases as [[-> [e He]]|[[-> [e He]]|[-> [e He]]]]; simpl;
      rewrite <- He; rewrite print_items_run; simpl; rewrite Hstdin; simpl;
      rewrite length_product; fold n; fold count_line; fold question;
      eexists [_; _; _; _; _], e;
      (split;
       [
       | cbv zeta;
         destruct (bool_decide (answer = "n") || bool_decide (answer = "no")); simpl;
         [ repeat (rewrite <- ?app_assoc; simpl); reflexivity
         | destruct (X_train (self s)) as [X|]; simpl;
           [ destruct (Y_train (self s)) as [Y|]; simpl;
             [ destruct (search e cv_params scoring_metric cv_folds X Y) as [best|[]];
               simpl; repeat (rewrite <- ?app_assoc; simpl); reflexivity
             | repeat (rewrite <- ?app_assoc; simpl); reflexivity ]
           | repeat (rewrite <- ?app_assoc; simpl); reflexivity ] ] ]);
      repeat (apply Forall_cons; split; [eexists; reflexivity|]); by apply Forall_nil. }
  destruct Hrun as (header & est & Hheader & Hr). simpl in Hr.
  pose proof (grid_search_announcement_no_fit header cv_params Hheader) as Hnofit.
  set (before := header ++ _) in Hnofit, Hr |- *.
  split; [|split].
  - destruct (bool_decide (answer = "n") || bool_decide (answer = "no")) eqn:Hans.
    + exists before, [Print "Please redefine inputs."]. rewrite Hr. simpl.
      split; [by rewrite <- !app_assoc|]. done.
    + assert (Hno : ¬ (answer = "n" ∨ answer = "no")).
      { apply orb_false_elim in Hans as [H1 H2].
        apply bool_decide_eq_false in H1, H2. tauto. }
      destruct (X_train (self s)) as [X|];
        [destruct (Y_train (self s)) as [Y|];
         [destruct (search est cv_params scoring_metric cv_folds X Y) as [best|[]]|]|];
        rewrite Hr; simpl; eexists before, _;
        (split; [rewrite <- !app_assoc; simpl; reflexivity|]); split; try done.
  - intros Hans. rewrite Hr.
    assert ((bool_decide (answer = "n") || bool_decide (answer = "no")) = true) as ->.
    { destruct Hans as [->| ->]; [done|]. apply orb_true_r. }
    done.
  - intros H1 H2 X Y HX HY. rewrite Hr.
    rewrite (bool_decide_false _ H1), (bool_decide_false _ H2), HX, HY. simpl.
    destruct (search est cv_params scoring_metric cv_folds X Y) as [best|[]]; simpl;
      (split;
       [ first [ apply elem_of_app; right; apply list_elem_of_here
               | apply elem_of_app; left; apply elem_of_app; right;
                 apply list_elem_of_here ]
       | ]);
      intros gs Hgs; inversion Hgs; subst gs; simpl; eauto.
Qed.

End ModelTrainer_facts.

Example product_example :
  literacy_score_train.product [[1; 2]; [3]; [4; 5]]%nat
    = [[1; 3; 4]; [1; 3; 5]; [2; 3; 4]; [2; 3; 5]]%nat.
Proof. reflexivity. Qed.

Example set_new_model_examples :
  literacy_score_train.model unit (self (scenario.trainer "KNN"))
    = Some (literacy_score_train.new_regressor
              literacy_score_train.KNeighborsRegressor [])
  ∧ literacy_score_train.model_type unit (self (scenario.trainer "Baseline"))
    = Some "Baseline"
  ∧ literacy_score_train.model unit (self (scenario.trainer "SVM")) = None
  ∧ literacy_score_train.model_type unit (self (scenario.trainer "rf")) = None.
Proof. repeat split; reflexivity. Qed.

(** C4 as stated fails: an unknown name raises nothing; the call returns,
    one error is logged and the trainer holds no model. *)
Lemma set_new_model_unknown_name_returns :
  literacy_score_train.set_new_model unit scenario.SEED scenario.accepts "SVM" []
    (mkState (mkEnv [] []) (literacy_score_train.blank unit))
  = (Return tt,
     mkState
       (mkEnv [Log ERROR
                 "Sorry, training for mode_type %s has not been implemented yet."
                 ["SVM"]] [])
       (literacy_score_train.blank unit)).
Proof. reflexivity. Qed.

(** C5 as stated fails: on a trainer constructed with an unknown model
    type, which holds no model, [train] before [prepare_train_test_set]
    raises [AttributeError] and logs nothing. *)
Lemma train_without_model_raises :
  literacy_score_train.X_train unit (self (scenario.trainer "SVM")) = None
  ∧ scenario.train [] (scenario.trainer "SVM")
    = (Raise (AttributeError "model"), scenario.trainer "SVM").
Proof. split; reflexivity. Qed.

(** [train] before and after [prepare_train_test_set] on a random-forest
    trainer. *)
Lemma train_before_prepare_witness :
  literacy_score_train.X_train unit (self (scenario.trainer "RF")) = None
  ∧ (scenario.train [("n_estimators", PyInt 100)] (scenario.trainer "RF")).1
    = Return tt
  ∧ trace (env (scenario.train [("n_estimators", PyInt 100)]
                               (scenario.trainer "RF")).2)
    = [Log ERROR literacy_score_train.not_prepared_message []].
Proof.
  split; [reflexivity|].
  pose proof (train_before_prepare_logs_and_returns unit scenario.SEED
                (λ _ _, Return [true; true; true; true]) scenario.accepts
                (λ _ _ _, None) scenario.split scenario.standardize
                [("n_estimators", PyInt 100)] (scenario.trainer "RF")
                (literacy_score_train.new_regressor
                   literacy_score_train.RandomForestRegressor
                   [("random_state", PyInt scenario.SEED)])
                (literacy_score_train.set_params scenario.accepts
                   (literacy_score_train.new_regressor
                      literacy_score_train.RandomForestRegressor
                      [("random_state", PyInt scenario.SEED)])
                   [("n_estimators", PyInt 100)]).2
                "RF" eq_refl eq_refl eq_refl eq_refl) as (H & _).
  unfold scenario.train. rewrite H. split; reflexivity.
Defined.

(** The split of the four-row feature table of the scenario. *)
Lemma prepare_train_test_set_witness :
  (scenario.prepare (scenario.trainer "RF")).1 = Return None
  ∧ literacy_score_train.scaler unit
      (self (scenario.prepare (scenario.trainer "RF")).2)
    = Some (literacy_score_train.mkStandardScaler
              (Some (mkDataFrame [1; 2; 3]
                       {[ "asr_word_count" :=
                            [Num (of_Z 20); Num (of_Z 30); Num (of_Z 40)] ]}))).
Proof.
  destruct (prepare_train_test_set_fits_scaler_on_train_only unit scenario.SEED
              (λ _ _, Return [true; true; true; true])
              scenario.split scenario.standardize
              false true (of_Z 0) (of_Z 0) (scenario.trainer "RF")
              scenario.features_table scenario.features_table
              [Num (of_Z 9); Num (of_Z 21); Num (of_Z 30); Num (of_Z 38)]
              [1; 2; 3]%nat [0]%nat [[]; []; []] [[]]
              eq_refl eq_refl eq_refl eq_refl eq_refl eq_refl)
    as (H1 & H2 & _).
  unfold scenario.prepare. split; [exact H1|]. rewrite H2. vm_compute. reflexivity.
Defined.

(** C8 as stated fails: an empty answer, or "N", is no explicit
    confirmation, and the search runs: the last thing the call does is to
    fit the search, and it returns the search object. *)
Lemma grid_search_runs_on_empty_answer :
  last (trace (env (scenario.ask "" (scenario.prepare (scenario.trainer "RF")).2).2))
    = Some (Call "GridSearchCV.fit")
  ∧ last (trace (env (scenario.ask "N" (scenario.prepare (scenario.trainer "RF")).2).2))
    = Some (Call "GridSearchCV.fit")
  ∧ last (trace (env (scenario.ask "no" (scenario.prepare (scenario.trainer "RF")).2).2))
    = Some (Print "Please redefine inputs.").
Proof. repeat split; vm_compute; reflexivity. Qed.

(** With "Baseline" as model type no estimator is bound and the call stops
    before it has counted anything. *)
Example grid_search_baseline_unbound :
  (scenario.ask "y" (scenario.trainer "Baseline")).1
    = Raise (UnboundLocalError "estimator").
Proof. vm_compute. reflexivity. Qed.

(** The count printed for three values of one parameter and two of
    another. *)
Example grid_search_counts_six :
  nth_error (trace (env (scenario.ask "no" (scenario.trainer "KNN")).2)) 7
    = Some (Print (literacy_score_train.nl
                     +:+ " # of possible combinations to be cross-validated: 6")).
Proof. vm_compute. reflexivity. Qed.

(** The gate theorem at the answer "no". *)
Lemma grid_search_gate_witness :
  (scenario.ask "no" (scenario.trainer "RF")).1 = Return None
  ∧ self (scenario.ask "no" (scenario.trainer "RF")).2
    = self (scenario.trainer "RF").
Proof.
  destruct (grid_search_runs_unless_answer_is_no unit scenario.SEED
              scenario.search (λ _, "[...]") scenario.grid 5 2 "r2"
              (mkState (mkEnv [] ["no"]) (self (scenario.trainer "RF")))
              "RF" "no" [] eq_refl
              ltac:(apply list_elem_of_here) eq_refl)
    as (_ & H & _).
  exact (H (or_intror eq_refl)).
Defined.
(** ** literacy_score/grade.py: construction, repeated calls, labels *)

Section DataGrader_more.
Import literacy_score_grade.
Context (pyobj table : Type) (MODELS_PATH : string).
Context (open_file : string → outcome pyobj).
Context (transform : pyobj → table → outcome table).
Context (predict : pyobj → table → outcome (list float64)).
Context (preprocess_data : DataFrame → outcome DataFrame).
Context (compute_features : DataFrame → outcome table).
Context (DEFAULT_MODEL : string).

Local Abbreviation DataGrader := (DataGrader pyobj table).
Local Abbreviation __init__ := (__init__ pyobj table MODELS_PATH open_file).
Local Abbreviation set_model := (set_model pyobj table MODELS_PATH open_file).
Local Abbreviation estimate_wcpm :=
  (estimate_wcpm pyobj table MODELS_PATH open_file transform predict).
Local Abbreviation grade_wcpm :=
  (grade_wcpm pyobj table MODELS_PATH open_file transform predict
     preprocess_data compute_features).
Local Abbreviation grade_wcpm_function :=
  (grade_wcpm_function pyobj table MODELS_PATH open_file transform predict
     preprocess_data compute_features DEFAULT_MODEL).
Local Abbreviation model := (model pyobj table).
Local Abbreviation model_type := (model_type pyobj table).
Local Abbreviation data := (data pyobj table).
Local Abbreviation duration_col := (duration_col pyobj table).
Local Abbreviation features := (features pyobj table).
Local Abbreviation scaler := (scaler pyobj table).
Local Abbreviation with_features := (with_features pyobj table).
Local Abbreviation with_data := (with_data pyobj table).

(** The events of one estimation on the current model. *)
Local Abbreviation estimation_events :=
  [Log DEBUG "Estimating wcpm" []; Call "scaler.transform"; Call "model.predict"].

(** The state a successful estimation on the current model leaves. *)
Lemma estimate_wcpm_final_state (inplace : bool) (s : state DataGrader)
    (f f' : table) (wc : list float64) (col : list cell) (duration : list float64) :
  features (self s) = Some f →
  transform (scaler (self s)) f = Return f' →
  predict (model (self s)) f' = Return wc →
  getitem (data (self s)) (duration_col (self s)) = Return col →
  to_floats col = Return duration →
  estimate_wcpm inplace None s =
    (Return (if inplace then None
             else Some (wcpm_of (data (self s)) wc duration)),
     mkState (mkEnv (trace (env s) ++ estimation_events) (stdin (env s)))
       (if inplace
        then with_data (setitem (data (self s)) "wcpm_estimations"
                                (wcpm_of (data (self s)) wc duration))
                       (with_features f' (self s))
        else with_features f' (self s))).
Proof.
  intros Hf Ht Hp Hc Hd.
  unfold literacy_score_grade.estimate_wcpm. run.
  rewrite Hf. simpl. rewrite Ht. simpl. rewrite Hp. simpl. rewrite Hc. simpl.
  rewrite Hd. simpl. rewrite <- !app_assoc. simpl. by destruct inplace.
Qed.

(** An estimation on the current model reads the object and never the
    environment: its outcome and the object it leaves are the same from any
    environment, and what it adds to the trace starts with its debug
    record. *)
Lemma estimate_wcpm_reads_object_only (inplace : bool) (e1 e2 : Env)
    (g : DataGrader) :
  let r1 := estimate_wcpm inplace None (mkState e1 g) in
  let r2 := estimate_wcpm inplace None (mkState e2 g) in
  r1.1 = r2.1 ∧ self r1.2 = self r2.2 ∧
  ∃ rest, trace (env r1.2) = trace e1 ++ Log DEBUG "Estimating wcpm" [] :: rest.
Proof.
  unfold literacy_score_grade.estimate_wcpm. run.
  destruct (features g) as [f|]; simpl; [|by eauto].
  destruct (transform (scaler g) f) as [f'|err]; simpl;
    [|by rewrite <- !app_assoc; eauto].
  destruct (predict (model g) f') as [wc|err]; simpl;
    [|by rewrite <- !app_assoc; eauto].
  destruct (getitem (data g) (duration_col g)) as [col|err]; simpl;
    [|by rewrite <- !app_assoc; eauto].
  destruct (to_floats col) as [duration|err]; simpl;
    [|by rewrite <- !app_assoc; eauto].
  destruct inplace; simpl; rewrite <- !app_assoc; eauto.
Qed.


(** X2.  A model name that [set_model] does not know does not stop
    [estimate_wcpm]: the estimation runs on the current model, with the
    outcome and the effect on the object of a call that names no model.
    When the name differs from the current type, the error record of
    [set_model] comes first in what the call adds to the log. *)
Theorem estimate_wcpm_unknown_model_name_estimates
    (inplace : bool) (mt : string) (s : state DataGrader) :
  mt ≠ "RF" → mt ≠ "XGB" →
  let r := estimate_wcpm inplace (Some mt) s in
  let r0 := estimate_wcpm inplace None s in
  r.1 = r0.1 ∧ self r.2 = self r0.2 ∧
  (model_type (self s) ≠ mt →
   ∃ rest,
     trace (env r.2) =
       trace (env s) ++
         Log ERROR
           "No such model is available: %s in %s. please choose between 'RF' and 'XGB'"
           [mt; MODELS_PATH]
         :: Log DEBUG "Estimating wcpm" [] :: rest).
Proof.
  intros H1 H2 r r0. subst r r0.
  destruct (decide (model_type (self s) = mt)) as [Heq|Hne].
  - assert (Hsame : estimate_wcpm inplace (Some mt) s = estimate_wcpm inplace None s).
    { unfold literacy_score_grade.estimate_wcpm, literacy_score_grade.set_model.
      run. by rewrite bool_decide_true. }
    rewrite Hsame. done.
  - set (ev := Log ERROR _ [mt; MODELS_PATH]).
    set (e' := mkEnv (trace (env s) ++ [ev]) (stdin (env s))).
    assert (Hstep : estimate_wcpm inplace (Some mt) s =
                    estimate_wcpm inplace None (mkState e' (self s))).
    { unfold literacy_score_grade.estimate_wcpm, literacy_score_grade.set_model.
      run. by rewrite !bool_decide_false. }
    rewrite Hstep.
    destruct (estimate_wcpm_reads_object_only inplace e' (env s) (self s))
      as (Ho & Hs & rest & Htr).
    destruct s as [e g]. simpl in *.
    split; [exact Ho|]. split; [exact Hs|].
    intros _. exists rest. rewrite Htr. by rewrite <- app_assoc.
Qed.

(** X3.  Each estimation stores the scaled features in place of the
    features it was given, so that a second estimation scales the scaled
    features again: its word counts are predicted on the features
    transformed twice. *)
Theorem estimate_wcpm_scales_again_on_second_call
    (s : state DataGrader) (f f1 f2 : table) (wc1 wc2 : list float64)
    (col : list cell) (duration : list float64) :
  features (self s) = Some f →
  transform (scaler (self s)) f = Return f1 →
  predict (model (self s)) f1 = Return wc1 →
  transform (scaler (self s)) f1 = Return f2 →
  predict (model (self s)) f2 = Return wc2 →
  getitem (data (self s)) (duration_col (self s)) = Return col →
  to_floats col = Return duration →
  let first := estimate_wcpm false None s in
  let second := estimate_wcpm false None first.2 in
  first.1 = Return (Some (wcpm_of (data (self s)) wc1 duration)) ∧
  features (self first.2) = Some f1 ∧
  second.1 = Return (Some (wcpm_of (data (self s)) wc2 duration)) ∧
  features (self second.2) = Some f2.
Proof.
  intros Hf Ht1 Hp1 Ht2 Hp2 Hc Hd first second. subst second first.
  rewrite (estimate_wcpm_final_state false s f f1 wc1 col duration Hf Ht1 Hp1 Hc Hd).
  simpl. split; [done|]. split; [done|].
  by rewrite (estimate_wcpm_final_state false
                (mkState (mkEnv (trace (env s) ++ estimation_events) (stdin (env s)))
                         (with_features f1 (self s)))
                f1 f2 wc2 col duration eq_refl Ht2 Hp2 Hc Hd).
Qed.

(** X4.  Where the labels of the predictions (their positions) and the
    labels of the rows do not meet, nothing is reported.  A row whose label
    is no position of the predictions, with a duration that is not missing
    and whose sixtieth is not zero, is estimated at zero; a prediction
    whose position labels no row appears in the returned series with a
    value that is not finite. *)
Theorem estimate_wcpm_unmatched_labels
    (inplace : bool) (s : state DataGrader) (f f' : table)
    (wc : list float64) (col : list cell) (duration : list float64) :
  features (self s) = Some f →
  transform (scaler (self s)) f = Return f' →
  predict (model (self s)) f' = Return wc →
  getitem (data (self s)) (duration_col (self s)) = Return col →
  to_floats col = Return duration →
  NoDup (index (data (self s))) →
  let r := estimate_wcpm inplace None s in
  let wcpm := wcpm_of (data (self s)) wc duration in
  r.1 = Return (if inplace then None else Some wcpm) ∧
  (∀ (k : nat) (i : Z) (d : float64),
     index (data (self s)) !! k = Some i →
     duration !! k = Some d →
     (i < 0 ∨ Z.of_nat (length wc) ≤ i) →
     isnan d = false →
     is_zero (div d sixty) = false →
     ∃ v, wcpm !! i = Some v ∧ is_zero v = true ∧
          (inplace = true →
           ∃ c, columns (data (self r.2)) !! "wcpm_estimations" = Some c ∧
                c !! k = Some (Num v))) ∧
  (∀ (j : nat) (w : float64),
     wc !! j = Some w →
     Z.of_nat j ∉ index (data (self s)) →
     ∃ v, wcpm !! Z.of_nat j = Some v ∧ isfinite v = false).
Proof.
  intros Hf Ht Hp Hc Hd Hnd r wcpm. subst r.
  rewrite (estimate_wcpm_final_state inplace s f f' wc col duration Hf Ht Hp Hc Hd).
  simpl. split; [done|]. split.
  - intros k i d Hi Hk Hout Hnan Hnz.
    assert (Hnone : Series_of_array wc !! i = None).
    { unfold Series_of_array. apply lookup_map_seqZ_None. lia. }
    assert (Hv : wcpm !! i = Some (rint (div (of_Z 0) (div d sixty)))).
    { subst wcpm. rewrite (wcpm_of_lookup _ wc duration k i d Hnd Hi Hk), Hnone.
      simpl. unfold fill_binop. by rewrite isnan_div_sixty, Hnan. }
    exists (rint (div (of_Z 0) (div d sixty))). split; [exact Hv|]. split.
    + pose proof (isnan_div_sixty d) as Hq. rewrite Hnan in Hq.
      destruct (div d sixty) as [sq|sq| |sq mq eq]; try done; by destruct sq.
    + intros ->. simpl. by apply (stored_row _ _ k i).
  - intros j w Hw Hj.
    assert (Hnone : Series_of_column (data (self s)) ((λ d, div d sixty) <$> duration)
                      !! Z.of_nat j = None).
    { unfold Series_of_column. apply not_elem_of_list_to_map_1.
      intros Hin. apply Hj. apply list_elem_of_fmap in Hin as [[i x] [-> Hin]].
      by apply elem_of_zip_l in Hin. }
    assert (Hsome : Series_of_array wc !! Z.of_nat j = Some w).
    { unfold Series_of_array. rewrite lookup_map_seqZ_0 by lia.
      by rewrite Nat2Z.id. }
    subst wcpm. unfold wcpm_of, Series_round, Series_div.
    rewrite lookup_fmap, lookup_merge, Hnone, Hsome. simpl.
    eexists. split; [reflexivity|].
    destruct w as [sw|sw| |sw mw ew]; try done; by destruct sw.
Qed.

(** X5.  A missing duration is not reported as missing: it is filled with
    zero when a word count was predicted for the row, and the estimate is
    then infinite for a non-zero count; in every case the estimate of the
    row is not finite. *)
Theorem estimate_wcpm_missing_duration_not_finite
    (inplace : bool) (s : state DataGrader) (f f' : table)
    (wc : list float64) (col : list cell) (duration : list float64) :
  features (self s) = Some f →
  transform (scaler (self s)) f = Return f' →
  predict (model (self s)) f' = Return wc →
  getitem (data (self s)) (duration_col (self s)) = Return col →
  to_floats col = Return duration →
  NoDup (index (data (self s))) →
  let r := estimate_wcpm inplace None s in
  let wcpm := wcpm_of (data (self s)) wc duration in
  r.1 = Return (if inplace then None else Some wcpm) ∧
  ∀ (k : nat) (i : Z) (d : float64),
    index (data (self s)) !! k = Some i →
    duration !! k = Some d →
    isnan d = true →
    ∃ v, wcpm !! i = Some v ∧
         isfinite v = false ∧
         (isnan v = true ↔
            match Series_of_array wc !! i with
            | Some w => (isnan w || is_zero w) = true
            | None => True
            end) ∧
         (inplace = true →
          ∃ c, columns (data (self r.2)) !! "wcpm_estimations" = Some c ∧
               c !! k = Some (Num v)).
Proof.
  intros Hf Ht Hp Hc Hd Hnd r wcpm. subst r.
  rewrite (estimate_wcpm_final_state inplace s f f' wc col duration Hf Ht Hp Hc Hd).
  simpl. split; [done|].
  intros k i d Hi Hk Hnan.
  destruct d; try discriminate.
  pose proof (wcpm_of_lookup _ wc duration k i _ Hnd Hi Hk) as Hv.
  fold wcpm in Hv. eexists. split; [exact Hv|].
  split; [|split].
  - destruct (Series_of_array wc !! i) as [[sw|sw| |sw mw ew]|]; simpl; try done;
      by destruct sw.
  - destruct (Series_of_array wc !! i) as [[sw|sw| |sw mw ew]|]; simpl; try done;
      by destruct sw.
  - intros ->. simpl. by apply (stored_row _ _ k i).
Qed.



(** An estimation that names a model is [set_model] followed by an
    estimation on the current model. *)
Lemma estimate_wcpm_named (inplace : bool) (mt : string) (s : state DataGrader) :
  estimate_wcpm inplace (Some mt) s =
    match set_model mt s with
    | (Return _, s') => estimate_wcpm inplace None s'
    | (Raise e, s') => (Raise e, s')
    end.
Proof.
  unfold literacy_score_grade.estimate_wcpm. unfold mbind at 1, M_bind at 1.
  by destruct (set_model mt s) as [[[]|e] s'].
Qed.


(** X9.  Whatever [estimate_wcpm] returns, every finite value in it is a
    whole number: each estimate is NaN, infinite, or an integer. *)
Theorem estimate_wcpm_finite_estimates_are_whole
    (inplace : bool) (model_arg : option string) (s : state DataGrader)
    (wcpm : Series) (i : Z) (v : float64) :
  (estimate_wcpm inplace model_arg s).1 = Return (Some wcpm) →
  wcpm !! i = Some v →
  isfinite v = true →
  ∃ n : Z, to_Z v = Some n.
Proof.
  intros Hret Hv Hfin.
  assert (Hshape : ∃ df wc duration, wcpm = wcpm_of df wc duration).
  { assert (Hnone : ∀ s0, (estimate_wcpm inplace None s0).1 = Return (Some wcpm) →
                          ∃ df wc duration, wcpm = wcpm_of df wc duration).
    { intros s0. unfold literacy_score_grade.estimate_wcpm. run.
      answer_all; try done. intros [= <-]. eauto. }
    destruct model_arg as [mt|]; [|by apply (Hnone s)].
    rewrite estimate_wcpm_named in Hret.
    destruct (set_model mt s) as [[[]|e] s']; [|done]. by apply (Hnone s'). }
  destruct Hshape as (df & wc & duration & ->).
  unfold wcpm_of, Series_round, Series_div in Hv.
  rewrite lookup_fmap, lookup_merge in Hv.
  assert (Hq : ∃ l r, v = rint (div l r)).
  { destruct (Series_of_array wc !! i) as [x|],
             (Series_of_column df ((λ d, div d sixty) <$> duration) !! i) as [y|];
      unfold fill_binop in Hv; simpl in Hv; try done;
      injection Hv as <-; eauto. }
  destruct Hq as (l & r & ->).
  assert (Hqfin : isfinite (div l r) = true).
  { destruct (div l r) as [sq| | |sq mq eq]; try done. }
  destruct (rint_nearest_even (div l r) Hqfin (div_valid l r)) as (n & Hn & _).
  by exists n.
Qed.

End DataGrader_more.

Example DataGrader_init_example :
  (literacy_score_grade.__init__ string unit "models/" (λ p, Return p)
     (scenario.batch (of_Z 30)) "prompt" "asr_transcript" "scored_duration"
     "RF" "" (mkState (mkEnv [] []) tt)).1
  = Return (literacy_score_grade.mkDataGrader string unit
              (scenario.batch (of_Z 30)) "prompt" "asr_transcript"
              "scored_duration" None
              "models/standard_scaler.joblib" "models/XGB_0.joblib" "RF").
Proof. reflexivity. Qed.

(** Asked for a "KNN" model, the grader of the scenario estimates 6 words
    in 30 seconds with the model it holds. *)
Lemma estimate_wcpm_unknown_model_name_witness :
  (scenario.estimate_with "KNN" (of_Z 6) false (of_Z 30)).1
    = Return (Some {[ 0 := of_Z 12 ]}).
Proof.
  destruct (estimate_wcpm_unknown_model_name_estimates unit unit "models/"
              (λ _, Return tt) (λ _ t, Return t) (λ _ _, Return [of_Z 6])
              false "KNN" (scenario.grader (of_Z 30))
              ltac:(discriminate) ltac:(discriminate)) as (H & _).
  unfold scenario.estimate_with. rewrite H. vm_compute. reflexivity.
Defined.

(** One word is predicted on the features scaled once, two on the second
    call. *)
Lemma estimate_wcpm_scales_again_witness :
  (scenario.estimate_rescaled scenario.rescaling_grader).1
    = Return (Some {[ 0 := of_Z 1 ]})
  ∧ (scenario.estimate_rescaled
       (scenario.estimate_rescaled scenario.rescaling_grader).2).1
    = Return (Some {[ 0 := of_Z 2 ]}).
Proof.
  destruct (estimate_wcpm_scales_again_on_second_call unit nat "models/"
              (λ _, Return tt) scenario.rescale scenario.count_words
              scenario.rescaling_grader 0%nat 1%nat 2%nat
              [of_Z 1] [of_Z 2] [Num (of_Z 60)] [of_Z 60]
              eq_refl eq_refl eq_refl eq_refl eq_refl eq_refl eq_refl)
    as (H1 & _ & H2 & _).
  unfold scenario.estimate_rescaled. rewrite H1, H2.
  split; vm_compute; reflexivity.
Defined.

(** The row labelled 5 meets no prediction and is estimated at zero. *)
Lemma estimate_wcpm_unmatched_labels_witness :
  ∃ v, literacy_score_grade.wcpm_of (literacy_score_grade.data _ _
                                       (self scenario.relabelled_grader))
         [of_Z 6] [of_Z 30] !! 5 = Some v
       ∧ is_zero v = true.
Proof.
  destruct (estimate_wcpm_unmatched_labels unit unit "models/"
              (λ _, Return tt) (λ _ t, Return t) (λ _ _, Return [of_Z 6])
              false scenario.relabelled_grader tt tt
              [of_Z 6] [Num (of_Z 30)] [of_Z 30]
              eq_refl eq_refl eq_refl eq_refl eq_refl
              ltac:(apply NoDup_singleton))
    as (_ & H & _).
  destruct (H 0%nat 5 (of_Z 30) eq_refl eq_refl
              ltac:(right; simpl; lia) eq_refl eq_refl) as (v & Hv & Hz & _).
  exists v. split; [exact Hv|exact Hz].
Defined.

(** Five words predicted for a row whose duration is missing. *)
Lemma estimate_wcpm_missing_duration_witness :
  ∃ v, literacy_score_grade.wcpm_of (scenario.batch S754_nan)
         [of_Z 5] [S754_nan] !! 0 = Some v
       ∧ isfinite v = false.
Proof.
  destruct (estimate_wcpm_missing_duration_not_finite unit unit "models/"
              (λ _, Return tt) (λ _ t, Return t) (λ _ _, Return [of_Z 5])
              false (scenario.grader S754_nan) tt tt
              [of_Z 5] [Num S754_nan] [S754_nan]
              eq_refl eq_refl eq_refl eq_refl eq_refl
              ltac:(apply NoDup_singleton))
    as (_ & H).
  destruct (H 0%nat 0 S754_nan eq_refl eq_refl eq_refl) as (v & Hv & Hfin & _).
  exists v. split; [exact Hv|exact Hfin].
Defined.

Example estimate_wcpm_missing_duration_is_infinite :
  (scenario.estimate (of_Z 5) false S754_nan).1
    = Return (Some {[ 0 := S754_infinity false ]}).
Proof. vm_compute. reflexivity. Qed.




(** A hundred words in three minutes: 33 a minute. *)
Lemma estimate_wcpm_finite_estimates_witness :
  (scenario.estimate (of_Z 100) false (of_Z 180)).1
    = Return (Some {[ 0 := of_Z 33 ]})
  ∧ ∃ n : Z, to_Z (of_Z 33) = Some n.
Proof.
  assert (H : (scenario.estimate (of_Z 100) false (of_Z 180)).1
              = Return (Some {[ 0 := of_Z 33 ]})) by (vm_compute; reflexivity).
  split; [exact H|].
  exact (estimate_wcpm_finite_estimates_are_whole unit unit "models/"
           (λ _, Return tt) (λ _ t, Return t) (λ _ _, Return [of_Z 100])
           false None (scenario.grader (of_Z 180)) {[ 0 := of_Z 33 ]} 0 (of_Z 33)
           H eq_refl eq_refl).
Defined.
(** ** litreading: what the loader opens, full-model graders *)

Section pathlib_facts.

Lemma append_cons (x : ascii) (a b : string) :
  String x a +:+ b = String x (a +:+ b).
Proof. reflexivity. Qed.

Lemma length_append (a b : string) :
  String.length (a +:+ b) = (String.length a + String.length b)%nat.
Proof.
  induction a as [|x a IH]; [done|]. rewrite append_cons. simpl. by rewrite IH.
Qed.

Lemma rfind_append (c : ascii) (a b : string) :
  rfind c (a +:+ b) =
    match rfind c b with
    | Some i => Some (String.length a + i)%nat
    | None => rfind c a
    end.
Proof.
  induction a as [|x a IH].
  - change ("" +:+ b) with b. by destruct (rfind c b).
  - rewrite append_cons. simpl. rewrite IH. by destruct (rfind c b).
Qed.

Lemma substring_append_r (a b : string) (n : nat) :
  substring (String.length a) n (a +:+ b) = substring 0 n b.
Proof. induction a as [|x a IH]; [done|]. rewrite append_cons. exact IH. Qed.

Lemma substring_all (s : string) : substring 0 (String.length s) s = s.
Proof. induction s as [|x s IH]; simpl; [done|]. by rewrite IH. Qed.

Lemma substring_split (s : string) (i : nat) :
  (i ≤ String.length s)%nat →
  s = substring 0 i s +:+ substring i (String.length s - i) s.
Proof.
  revert i. induction s as [|x s IH]; intros [|i] Hi; simpl in *; try done.
  - change ("" +:+ String x (substring 0 (String.length s) s))
      with (String x (substring 0 (String.length s) s)).
    by rewrite substring_all.
  - rewrite append_cons. rewrite <- IH by lia. done.
Qed.

(** The paths whose suffix is ".pkl": those whose name is ".pkl" after a
    stem that is not empty. *)
Lemma suffix_pkl (p : list string) :
  suffix p = ".pkl" ↔ ∃ stem, stem ≠ "" ∧ name p = stem +:+ ".pkl".
Proof.
  unfold suffix. set (n := name p). split.
  - destruct (rfind "." n) as [i|]; [|done].
    destruct ((0 <? i)%nat && (i <? String.length n - 1)%nat) eqn:Hi; [|done].
    apply andb_true_iff in Hi as [H0 H1].
    apply Nat.ltb_lt in H0, H1. intros Hsub.
    exists (substring 0 i n). split.
    + destruct n as [|x n']; [simpl in H1; lia|].
      destruct i; [lia|]. done.
    + rewrite <- Hsub. apply substring_split. lia.
  - intros (stem & Hne & ->).
    assert (Hlen : (0 < String.length stem)%nat).
    { destruct stem; [done|]. simpl. lia. }
    rewrite rfind_append. cbn [rfind Ascii.eqb Bool.eqb].
    rewrite length_append. cbn [String.length]. rewrite Nat.add_0_r.
    replace ((0 <? String.length stem)%nat) with true
      by (symmetry; by apply Nat.ltb_lt).
    replace ((String.length stem <? String.length stem + 4 - 1)%nat) with true
      by (symmetry; apply Nat.ltb_lt; lia).
    cbn [andb].
    replace (String.length stem + 4 - String.length stem)%nat with 4%nat by lia.
    by rewrite substring_append_r.
Qed.

End pathlib_facts.

Section litreading_more.
Import litreading_base.
Context (Pipeline other content : Type).
Context (fs : gmap (list string) (node content)).
Context (BASELINE_MODEL_PREDICTION_COL : string).
Context (preprocess_data : DataFrame → outcome DataFrame).
Context (Pipeline_predict : Pipeline → DataFrame → outcome (list float64)).
Context (open_file : list string → outcome (pyobj Pipeline other)).

Local Abbreviation load_model_from_file :=
  (@load_model_from_file Pipeline other content fs open_file).
Local Abbreviation BaseModel := (BaseModel Pipeline).
Local Abbreviation BaseModel__init__ := (litreading_base.__init__ Pipeline).
Local Abbreviation _predict :=
  (_predict Pipeline BASELINE_MODEL_PREDICTION_COL preprocess_data Pipeline_predict).
Local Abbreviation grade :=
  (litreading_grade.grade Pipeline BASELINE_MODEL_PREDICTION_COL
     preprocess_data Pipeline_predict).
Local Abbreviation Grader__init__ :=
  (litreading_grade.__init__ Pipeline other content fs open_file).

(** The loader from the state it starts in to the state it leaves. *)
Lemma load_model_from_file_state {Obj} (p : list string) (s : state Obj) :
  (load_model_from_file (Some p) s).2 =
    if is_file fs p && bool_decide (suffix p = ".pkl")
    then mkState (mkEnv (trace (env s) ++ [OpenPath p]) (stdin (env s))) (self s)
    else s.
Proof.
  unfold litreading_base.load_model_from_file. run.
  destruct (is_file fs p); simpl; [|done].
  destruct (decide (suffix p = ".pkl")) as [Hs|Hs].
  - rewrite bool_decide_false by (by intros []).
    rewrite bool_decide_true by done. simpl.
    by destruct (open_file p) as [[m|o]|e].
  - rewrite bool_decide_true by done. by rewrite bool_decide_false.
Qed.

(** X10.  [load_model_from_file] hands to [open_file] nothing but a regular
    file whose suffix is ".pkl", and that at most once: a path that fails
    either test is refused before anything is unpickled.  The caller's
    object and the standard input are as they were, whatever the outcome. *)
Theorem load_model_from_file_opens_pickle_files_only {Obj}
    (model_filepath : option (list string)) (s : state Obj) :
  let r := load_model_from_file model_filepath s in
  self r.2 = self s ∧ stdin (env r.2) = stdin (env s) ∧
  ∃ opened,
    trace (env r.2) = trace (env s) ++ opened ∧
    (length opened ≤ 1)%nat ∧
    (∀ ev, ev ∈ opened →
       ∃ p c, ev = OpenPath p ∧ model_filepath = Some p ∧
              fs !! p = Some (RegularFile c) ∧ suffix p = ".pkl") ∧
    (opened = [] → raises r.1).
Proof.
  intros r. subst r. destruct model_filepath as [p|].
  2:{ unfold litreading_base.load_model_from_file. run.
      split; [done|]. split; [done|]. exists []. rewrite app_nil_r.
      split; [done|]. split; [simpl; lia|]. split; [by intros ev ?%elem_of_nil|].
      intros _. by eexists. }
  rewrite load_model_from_file_state, load_model_from_file_cases.
  destruct (is_file fs p) eqn:Hf; simpl.
  - destruct (decide (suffix p = ".pkl")) as [Hs|Hs].
    + rewrite bool_decide_true by done. simpl.
      split; [done|]. split; [done|]. exists [OpenPath p].
      split; [done|]. split; [simpl; lia|]. split; [|done].
      intros ev ->%list_elem_of_singleton.
      apply is_file_spec in Hf as [c Hc]. by exists p, c.
    + rewrite bool_decide_false by done.
      rewrite bool_decide_true by done.
      split; [done|]. split; [done|]. exists []. rewrite app_nil_r.
      split; [done|]. split; [simpl; lia|]. split; [by intros ev ?%elem_of_nil|].
      intros _. by eexists.
  - split; [done|]. split; [done|]. exists []. rewrite app_nil_r.
    split; [done|]. split; [simpl; lia|]. split; [by intros ev ?%elem_of_nil|].
    intros _. by eexists.
Qed.

(** X11.  By name: [load_model_from_file] returns a model only for a path
    whose last part is a stem that is not empty followed by ".pkl", in
    these very letters; a regular file with any other name (".pkl" alone,
    "model.PKL", "model.pkl.bak") is refused with the [ValueError] that
    asks for a pickle file, and is not opened. *)
Theorem load_model_from_file_accepts_pkl_names {Obj}
    (p : list string) (s : state Obj) :
  let r := load_model_from_file (Some p) s in
  let named_pkl := ∃ stem, stem ≠ "" ∧ name p = stem +:+ ".pkl" in
  (∀ m, r.1 = Return m → named_pkl)
  ∧ (is_file fs p = true → ¬ named_pkl →
     r = (Raise (ValueError "Please give a path to pickle file"), s))
  ∧ (is_file fs p = true → named_pkl →
     r.1 = match open_file p with
           | Return (APipeline _ _ m) => Return m
           | Return (NotAPipeline _ _ _) =>
               Raise (ValueError
                 "Incompatible model: please give a filepath to a sklearn pipeline object")
           | Raise e => Raise e
           end).
Proof.
  intros r named_pkl. subst r named_pkl.
  pose proof (suffix_pkl p) as Hname.
  pose proof (load_model_from_file_cases Pipeline other content fs open_file p s)
    as Hcases.
  pose proof (load_model_from_file_state p s) as Hstate.
  destruct (litreading_base.load_model_from_file Pipeline other content fs
              open_file (Some p) s) as [o s'].
  simpl in *. subst o s'.
  destruct (is_file fs p); simpl.
  2:{ split; [done|]. split; done. }
  destruct (decide (suffix p = ".pkl")) as [Hs|Hs].
  - rewrite bool_decide_false by (by intros []).
    split; [|split].
    + intros _ _. by apply Hname.
    + intros _ Hno. destruct Hno. by apply Hname.
    + done.
  - rewrite bool_decide_true by done. rewrite bool_decide_false by done.
    split; [done|]. split; [done|].
    intros _ Hyes. destruct Hs. by apply Hname.
Qed.

(** X12.  A [Grader] in full-model mode is built exactly when the loader
    returns a pipeline for the path it is given, and then holds that
    pipeline; every exception of the loader leaves [Grader.__init__] as it
    is, with no record logged, and with no path at all (the default) the
    constructor raises a [TypeError]. *)
Theorem Grader_init_full_model_mode
    (model_filepath : option (list string)) (s : state unit) :
  let r := Grader__init__ model_filepath (PyBool false) s in
  let loaded := load_model_from_file model_filepath s in
  (∀ g, r.1 = Return g ↔
        ∃ m, loaded.1 = Return m ∧ g = mkBaseModel Pipeline false (Some m))
  ∧ (∀ g, r.1 = Return g →
        ∃ p c m, model_filepath = Some p ∧
                 fs !! p = Some (RegularFile c) ∧ suffix p = ".pkl" ∧
                 open_file p = Return (APipeline _ _ m) ∧
                 _model _ g = Some m ∧
                 ∃ fmt args,
                   trace (env r.2) =
                     trace (env s) ++ [OpenPath p; Log INFO fmt args])
  ∧ (∀ e, loaded.1 = Raise e → r = (Raise e, loaded.2))
  ∧ (model_filepath = None → ∃ msg, r = (Raise (TypeError msg), s)).
Proof.
  intros r loaded. subst r loaded.
  unfold litreading_grade.__init__, litreading_base.__init__. run.
  destruct model_filepath as [p|].
  2:{ unfold litreading_base.load_model_from_file. run.
      split; [|split; [|split]].
      - intros g. split; [done|]. by intros (m & [=] & _).
      - by intros g [=].
      - by intros e [= <-].
      - intros _. by eexists. }
  pose proof (load_model_from_file_cases Pipeline other content fs open_file
                p s) as Hcases.
  pose proof (load_model_from_file_state p s) as Hstate.
  destruct (litreading_base.load_model_from_file Pipeline other content fs
              open_file (Some p) s) as [[m|e] s'] eqn:Hload; simpl in *.
  - split; [|split; [|split]]; [| | |done].
    + intros g. split.
      * intros [= <-]. by exists m.
      * by intros (m' & [= <-] & ->).
    + intros g [= <-].
      destruct (is_file fs p) eqn:Hfile; simpl in Hcases; [|done].
      destruct (decide (suffix p = ".pkl")) as [Hs|Hs];
        [|by rewrite bool_decide_true in Hcases].
      rewrite bool_decide_false in Hcases by (by intros []).
      rewrite bool_decide_true in Hstate by done. simpl in Hstate.
      apply is_file_spec in Hfile as [c Hc].
      destruct (open_file p) as [[m'|o]|e] eqn:Ho; try done.
      injection Hcases as ->.
      exists p, c, m'. repeat split; try done.
      subst s'. simpl. rewrite <- app_assoc. by do 2 eexists.
    + by intros e [=].
  - split; [|split; [|split]]; [| | |done].
    + intros g. split; [done|]. by intros (m' & [=] & _).
    + by intros g [=].
    + by intros e' [= <-].
Qed.

(** X13.  [_predict], and [grade] with it, never assigns an attribute of
    the grader and reads no input, whether it returns or raises; the first
    thing it does is to call the preprocessor, and the regressor is called
    in full-model mode only, after the preprocessor has returned. *)
Theorem grade_leaves_grader_unchanged (X : DataFrame) (s : state BaseModel) :
  let r := grade X s in
  self r.2 = self s ∧ stdin (env r.2) = stdin (env s) ∧
  ∃ rest,
    trace (env r.2) =
      trace (env s) ++ Call "preprocessor.preprocess_data" :: rest ∧
    (rest = [] ∨
     rest = [Call "model.predict"] ∧ _baseline_mode _ (self s) = false ∧
     ∃ Xp, preprocess_data X = Return Xp).
Proof.
  intros r. subst r.
  unfold litreading_grade.grade, litreading_base._predict. run.
  destruct (preprocess_data X) as [Xp|e]; simpl.
  2:{ split; [done|]. split; [done|]. exists []. split; [done|]. by left. }
  destruct (_baseline_mode _ (self s)) eqn:Hb; simpl.
  - destruct (getitem Xp BASELINE_MODEL_PREDICTION_COL); simpl;
      (split; [done|]; split; [done|]; exists []; split; [done|]; by left).
  - destruct (_model _ (self s)) as [m|]; simpl.
    2:{ split; [done|]. split; [done|]. exists []. split; [done|]. by left. }
    destruct (Pipeline_predict m Xp); simpl; rewrite <- app_assoc; simpl;
      (split; [done|]; split; [done|]; exists [Call "model.predict"];
       split; [done|]; right; split; [done|]; split; [done|]; by exists Xp).
Qed.

(** X14.  A [BaseModel] built by its own constructor in full-model mode
    holds no model, and [_predict] on it never returns: it raises what the
    preprocessor raises or, when the preprocessor returns, an
    [AttributeError]. *)
Theorem BaseModel_full_model_mode_cannot_predict
    (X : DataFrame) (s0 : state unit) (e : Env) :
  ∃ b, BaseModel__init__ (PyBool false) s0 = (Return b, s0) ∧
       _model _ b = None ∧
       raises (_predict X (mkState e b)).1 ∧
       ∀ Xp, preprocess_data X = Return Xp →
             (_predict X (mkState e b)).1 = Raise (AttributeError "predict").
Proof.
  eexists. split; [reflexivity|]. split; [done|].
  unfold litreading_base._predict. run.
  destruct (preprocess_data X) as [Xp|err]; simpl.
  - split; [by eexists|]. done.
  - split; [by eexists|]. done.
Qed.

End litreading_more.
(** ** literacy_score/train.py: parameters, saving, the training sequence *)

Section ModelTrainer_more.
Import literacy_score_train.
Context (Dataset : Type) (SEED : Z).
Context (new_Dataset : DataFrame → outcome Dataset).
Context (preprocess_data : Dataset → outcome Dataset).
Context (Dataset_compute_features : Dataset → outcome DataFrame).
Context (determine_outliers_mask : Dataset → float64 → outcome (list bool)).
Context (valid_param : regressor_class → string → bool).
Context (fit_failure : Estimator → matrix → target → option exn).
Context (split_positions : Z → nat → float64 → outcome (list nat * list nat)).
Context (standardize : DataFrame → DataFrame → outcome matrix).
Context (search :
  Estimator → list (string * list pyval) → string → Z →
  matrix → target → outcome Estimator).
Context (repr : list pyval → string).
Context (MODELS_PATH : string).
Context (save_file : artefact → string → string → bool → outcome unit).

Local Abbreviation ModelTrainer := (ModelTrainer Dataset).
Local Abbreviation blank := (blank Dataset).
Local Abbreviation set_params := (set_params valid_param).
Local Abbreviation set_model_params := (set_model_params Dataset valid_param).
Local Abbreviation set_new_model := (set_new_model Dataset SEED valid_param).
Local Abbreviation __init__ := (__init__ Dataset SEED new_Dataset valid_param).
Local Abbreviation compute_features :=
  (compute_features Dataset preprocess_data Dataset_compute_features).
Local Abbreviation train := (train Dataset valid_param fit_failure).
Local Abbreviation prepare_train_test_set :=
  (prepare_train_test_set Dataset SEED determine_outliers_mask
     split_positions standardize).
Local Abbreviation grid_search :=
  (grid_search Dataset SEED search repr).
Local Abbreviation save_model := (save_model Dataset MODELS_PATH save_file).
Local Abbreviation model := (model Dataset).
Local Abbreviation model_type := (model_type Dataset).
Local Abbreviation features := (features Dataset).
Local Abbreviation data := (data Dataset).
Local Abbreviation datapoints := (datapoints Dataset).
Local Abbreviation scaler := (scaler Dataset).
Local Abbreviation X_train := (X_train Dataset).
Local Abbreviation X_test := (X_test Dataset).
Local Abbreviation Y_train := (Y_train Dataset).
Local Abbreviation Y_test := (Y_test Dataset).
Local Abbreviation test_idx := (test_idx Dataset).
Local Abbreviation with_model := (with_model Dataset).
Local Abbreviation with_model_type := (with_model_type Dataset).

(** The parameters of an estimator after [params] have been set on it in
    turn. *)
Local Abbreviation params_after :=
  (foldl (λ (acc : gmap string pyval) (kv : string * pyval), <[kv.1 := kv.2]> acc)).

Lemma set_params_accepted (params : list (string * pyval)) (e : Estimator) :
  Forall (λ kv, valid_param (est_class e) kv.1 = true) params →
  set_params e params =
    (Return tt,
     mkEstimator (est_class e) (params_after (est_params e) params) (fitted_on e)).
Proof.
  revert e. induction params as [|[k v] rest IH]; intros e Hall; simpl.
  - by destruct e.
  - apply Forall_cons in Hall as [Hk Hrest]. simpl in Hk. rewrite Hk.
    by rewrite IH.
Qed.

Lemma set_params_rejected (before after : list (string * pyval))
    (k : string) (v : pyval) (e : Estimator) :
  Forall (λ kv, valid_param (est_class e) kv.1 = true) before →
  valid_param (est_class e) k = false →
  set_params e (before ++ (k, v) :: after) =
    (Raise (ValueError ("Invalid parameter " +:+ k)),
     mkEstimator (est_class e) (params_after (est_params e) before) (fitted_on e)).
Proof.
  revert e. induction before as [|[k' v'] rest IH]; intros e Hall Hk; simpl.
  - rewrite Hk. by destruct e.
  - apply Forall_cons in Hall as [Hk' Hrest]. simpl in Hk'. rewrite Hk'.
    by rewrite IH.
Qed.

Lemma set_params_returns (params : list (string * pyval)) (e : Estimator) :
  (set_params e params).1 = Return tt ↔
  Forall (λ kv, valid_param (est_class e) kv.1 = true) params.
Proof.
  split; [|intros H; by rewrite set_params_accepted].
  revert e. induction params as [|[k v] rest IH]; intros e; simpl; [done|].
  destruct (valid_param (est_class e) k) eqn:Hk; [|done].
  intros H. apply Forall_cons. split; [done|]. by apply IH in H.
Qed.

(** X15.  [set_model_params] sets the parameters on the trainer's model one
    after the other, and it is all or a prefix: the call returns exactly
    when the model's class accepts every name; at the first name it does
    not accept the call raises a [ValueError], the parameters before that
    name stay set and those after it are not.  The class of the model and
    what it was fitted on do not change, nothing is logged, and [train]
    called with rejected parameters stops at the same exception, before it
    looks for the training partition. *)
Theorem set_model_params_all_or_prefix
    (params : list (string * pyval)) (s : state ModelTrainer) (m : Estimator) :
  model (self s) = Some m →
  let accepted := λ kv : string * pyval, valid_param (est_class m) kv.1 = true in
  let r := set_model_params params s in
  (r.1 = Return tt ↔ Forall accepted params) ∧
  (Forall accepted params →
   model (self r.2) =
     Some (mkEstimator (est_class m) (params_after (est_params m) params)
                       (fitted_on m))) ∧
  (∀ before k v after,
     params = before ++ (k, v) :: after →
     Forall accepted before →
     valid_param (est_class m) k = false →
     (∃ msg, r.1 = Raise (ValueError msg)) ∧
     model (self r.2) =
       Some (mkEstimator (est_class m) (params_after (est_params m) before)
                         (fitted_on m))) ∧
  env r.2 = env s ∧
  (∀ e, r.1 = Raise e → train params s = (Raise e, r.2)).
Proof.
  intros Hm accepted r. subst r accepted.
  unfold literacy_score_train.train, literacy_score_train.set_model_params,
    model_set_params. run. rewrite Hm. simpl.
  pose proof (set_params_returns params m) as Hret.
  destruct (literacy_score_train.set_params valid_param m params) as [o m'] eqn:Hset.
  simpl in *. split; [|split; [|split; [|split]]].
  - rewrite <- Hret. by destruct o as [[]|].
  - intros Hall. rewrite (set_params_accepted params m Hall) in Hset.
    by injection Hset as <- <-.
  - intros before k v after -> Hall Hk.
    rewrite (set_params_rejected before after k v m Hall Hk) in Hset.
    injection Hset as <- <-. simpl. split; [by eexists|done].
  - by destruct o.
  - intros e. destruct o as [[]|e']; simpl; [done|]. by intros [= ->].
Qed.

(** X16.  [set_new_model] with a known name starts from a regressor as its
    constructor leaves it, whatever model the trainer held: the new model
    is not fitted and carries the constructor's arguments and the
    parameters given, nothing of the old one.  Model and model type are
    assigned before the parameters are set, so that a rejected parameter
    raises a [ValueError] on a trainer that has already changed. *)
Theorem set_new_model_replaces_before_setting_params
    (mt : string) (c : regressor_class) (kwargs params : list (string * pyval))
    (s : state ModelTrainer) :
  (mt, c, kwargs) ∈
    [("RF", RandomForestRegressor, [("random_state", PyInt SEED)]);
     ("XGB", XGBRegressor, [("random_state", PyInt SEED)]);
     ("KNN", KNeighborsRegressor, []);
     ("Baseline", BaselineModel, [])] →
  let accepted := λ kv : string * pyval, valid_param c kv.1 = true in
  let r := set_new_model mt params s in
  model_type (self r.2) = Some mt ∧
  (r.1 = Return tt ↔ Forall accepted params) ∧
  (Forall accepted params →
   model (self r.2) =
     Some (mkEstimator c (params_after (list_to_map kwargs) params) None)) ∧
  (∀ before k v after,
     params = before ++ (k, v) :: after →
     Forall accepted before →
     valid_param c k = false →
     (∃ msg, r.1 = Raise (ValueError msg)) ∧
     model (self r.2) =
       Some (mkEstimator c (params_after (list_to_map kwargs) before) None)) ∧
  env r.2 = env s.
Proof.
  intros Hin accepted r. subst r accepted.
  rewrite (set_new_model_accepted Dataset SEED valid_param mt c kwargs params s Hin).
  simpl.
  assert (Hout : (if bool_decide (params ≠ [])
                  then (set_params (new_regressor c kwargs) params).1
                  else Return tt)
                 = (set_params (new_regressor c kwargs) params).1).
  { destruct params as [|kv rest]; [done|]. by rewrite bool_decide_true. }
  rewrite Hout. clear Hout.
  split; [done|]. split; [apply set_params_returns|]. split; [|split; [|done]].
  - intros Hall. by rewrite (set_params_accepted params (new_regressor c kwargs) Hall).
  - intros before k v after -> Hall Hk.
    rewrite (set_params_rejected before after k v (new_regressor c kwargs) Hall Hk).
    split; [by eexists|done].
Qed.

(** X17.  A trainer constructed with a model type outside the four known
    names is constructed all the same, as long as the [Dataset] is: one
    error is logged and nothing raised.  The trainer then holds neither
    model nor model type, and [train], [grid_search] and [save_model] with
    [model=True] all stop with an [AttributeError]. *)
Theorem init_unknown_model_type_gives_trainer_without_model
    (df : DataFrame) (mt : string) (d : Dataset) (e0 : Env) :
  mt ∉ ["RF"; "XGB"; "KNN"; "Baseline"] →
  new_Dataset df = Return d →
  let r := __init__ df mt (mkState e0 blank) in
  r.1 = Return tt ∧
  self r.2 = literacy_score_train.with_data Dataset d blank ∧
  trace (env r.2) =
    trace e0 ++
      [Log ERROR "Sorry, training for mode_type %s has not been implemented yet."
           [mt];
       Call "Dataset"] ∧
  (∀ params e,
     (train params (mkState e (self r.2))).1 = Raise (AttributeError "model")) ∧
  (∀ cv_params cv_folds verbose scoring_metric e,
     (grid_search cv_params cv_folds verbose scoring_metric
        (mkState e (self r.2))).1 = Raise (AttributeError "model_type")) ∧
  (∀ scaler' replace e,
     (save_model scaler' true replace (mkState e (self r.2))).1
       = Raise (AttributeError "model")).
Proof.
  intros Hout Hd r. subst r. rewrite !not_elem_of_cons in Hout.
  destruct Hout as (H1 & H2 & H3 & H4 & _).
  unfold literacy_score_train.__init__, literacy_score_train.set_new_model. run.
  rewrite !bool_decide_false by done. simpl. rewrite Hd. simpl.
  split; [done|]. split; [done|]. split; [by rewrite <- app_assoc|].
  split; [|split].
  - intros params e. unfold literacy_score_train.train, model_set_params. by run.
  - intros cv_params cv_folds verbose sm e.
    unfold literacy_score_train.grid_search. by run.
  - intros scaler' replace e. unfold literacy_score_train.save_model. run.
    by destruct scaler'.
Qed.

(** X18.  Before [compute_features] has run there is no feature table, and
    [prepare_train_test_set] on a newly constructed trainer never returns:
    without the removal of outliers it raises an [AttributeError] and
    leaves the trainer as it was; no train or test partition is assigned in
    any case. *)
Theorem prepare_train_test_set_needs_features
    (df : DataFrame) (mt : string) (e0 e : Env)
    (remove_outliers inplace : bool) (tol ts : float64) :
  let s := mkState e (self (__init__ df mt (mkState e0 blank)).2) in
  let r := prepare_train_test_set remove_outliers tol ts inplace s in
  features (self s) = None ∧
  raises r.1 ∧
  (remove_outliers = false → r = (Raise (AttributeError "features"), s)) ∧
  X_train (self r.2) = None ∧ Y_train (self r.2) = None.
Proof.
  intros s r.
  set (o := self (__init__ df mt (mkState e0 blank)).2) in *.
  assert (Hs : features o = None ∧ X_train o = None ∧ Y_train o = None).
  { subst o. unfold literacy_score_train.__init__, literacy_score_train.set_new_model.
    run. repeat (case_bool_decide; simpl);
      destruct (new_Dataset df); simpl; done. }
  clearbody o. subst r s. destruct Hs as (Hf & Hx & Hy). simpl.
  split; [exact Hf|].
  unfold literacy_score_train.prepare_train_test_set.
  destruct remove_outliers; run; rewrite ?Hf; simpl.
  - destruct (literacy_score_train.data Dataset o) as [d|]; simpl.
    + destruct (determine_outliers_mask d tol) as [mask|err]; simpl.
      * rewrite Hf. simpl. split; [by eexists|]. done.
      * split; [by eexists|]. done.
    + split; [by eexists|]. done.
  - split; [by eexists|]. done.
Qed.

(** X19.  What [save_model] does about the scaler.  On a trainer that has
    no scaler it logs one error and goes on to the model; an
    [AttributeError] raised inside [save_file] is caught by the same
    handler and reported in the same words, although a scaler is there; any
    other exception of [save_file] ends the call, and the model is then not
    saved.  The model, when asked for, is written under the name of the
    model type followed by ".joblib".  The trainer itself is never changed. *)
Theorem save_model_scaler_handler
    (model' replace : bool) (s : state ModelTrainer) :
  let r := save_model true model' replace s in
  let scaler_file sc :=
    save_file (AScaler sc) MODELS_PATH "standard_scaler.joblib" replace in
  let then_the_model (added : list event) :=
    save_model false model' replace
      (mkState (mkEnv (trace (env s) ++ added) (stdin (env s))) (self s)) in
  self r.2 = self s ∧
  (scaler (self s) = None →
   r = then_the_model [Log ERROR scaler_not_defined_message []]) ∧
  (∀ sc a, scaler (self s) = Some sc →
     scaler_file sc = Raise (AttributeError a) →
     r = then_the_model
           [Call "save_file"; Log ERROR scaler_not_defined_message []]) ∧
  (∀ sc, scaler (self s) = Some sc →
     scaler_file sc = Return tt →
     r = then_the_model [Call "save_file"]) ∧
  (∀ sc err, scaler (self s) = Some sc →
     scaler_file sc = Raise err →
     (∀ a, err ≠ AttributeError a) →
     r = (Raise err,
          mkState (mkEnv (trace (env s) ++ [Call "save_file"]) (stdin (env s)))
                  (self s))) ∧
  (∀ m mt, model (self s) = Some m → model_type (self s) = Some mt →
     save_model false true replace s =
       (save_file (AModel m) MODELS_PATH (mt +:+ ".joblib") replace,
        mkState (mkEnv (trace (env s) ++ [Call "save_file"]) (stdin (env s)))
                (self s))) ∧
  save_model false false replace s = (Return tt, s).
Proof.
  intros r scaler_file then_the_model. subst r scaler_file then_the_model.
  unfold literacy_score_train.save_model.
  split; [|split; [|split; [|split; [|split; [|split]]]]].
  - run. destruct (scaler (self s)) as [sc|]; simpl.
    + destruct (save_file (AScaler sc) MODELS_PATH "standard_scaler.joblib" replace)
        as [[]|[]]; simpl; try done; destruct model'; try done; simpl;
        destruct (model (self s)); try done; simpl;
        by destruct (model_type (self s)).
    + destruct model'; try done; simpl.
      destruct (model (self s)); try done; simpl;
        by destruct (model_type (self s)).
  - intros Hsc. run. by rewrite Hsc.
  - intros sc a Hsc Hsave. run. rewrite Hsc. simpl. rewrite Hsave. simpl.
    by rewrite <- app_assoc.
  - intros sc Hsc Hsave. run. rewrite Hsc. simpl. by rewrite Hsave.
  - intros sc err Hsc Hsave Hne. run. rewrite Hsc. simpl. rewrite Hsave.
    destruct err; simpl; try done. by destruct (Hne attr).
  - intros m mt Hm Hmt. run. rewrite Hm. simpl. by rewrite Hmt.
  - by destruct s.
Qed.

(** The positions at which a mask holds, read from its head. *)
Lemma mask_positions_cons (b : bool) (mask : list bool) :
  mask_positions (b :: mask) =
    (if b then [0%nat] else []) ++ (S <$> mask_positions mask).
Proof.
  unfold mask_positions. rewrite imap_cons. cbn [omap list_omap].
  assert (Hshift : ∀ (g : nat → nat) (l : list bool),
            omap (λ '(k, b0), if b0 : bool then Some k else None) (imap (pair ∘ g) l)
            = g <$> omap (λ '(k, b0), if b0 : bool then Some k else None) (imap pair l)).
  { intros g l. revert g. induction l as [|c l IH]; intros g; [done|].
    rewrite !imap_cons. cbn [omap list_omap].
    change (imap ((pair ∘ g) ∘ S) l) with (imap (pair ∘ (g ∘ S)) l).
    rewrite (IH S), (IH (g ∘ S)).
    destruct c; cbn [fmap list_fmap]; by rewrite <- list_fmap_compose. }
  rewrite (Hshift S). by destruct b.
Qed.

Lemma take_cons_S {A} (x : A) (l : list A) (pos : list nat) :
  take (x :: l) (S <$> pos) = take l pos.
Proof.
  unfold take. induction pos as [|k pos IH]; [done|].
  cbn [fmap list_fmap omap list_omap]. simpl. by rewrite <- IH.
Qed.

(** Indexing by a mask keeps the entries at which the mask holds, in
    their order. *)
Lemma take_mask_positions {A} (l : list A) (mask : list bool) :
  take l (mask_positions mask) = (filter (λ p, p.2 = true) (zip l mask)).*1.
Proof.
  revert l. induction mask as [|b mask IH]; intros l.
  - by destruct l.
  - rewrite mask_positions_cons. destruct l as [|x l].
    + unfold take. simpl. clear IH.
      generalize ((if b then [0%nat] else []) ++ (S <$> mask_positions mask)).
      intros pos. by induction pos.
    + unfold take at 1. rewrite omap_app. fold (take (x :: l) (S <$> mask_positions mask)).
      rewrite take_cons_S, IH. simpl. rewrite filter_cons.
      destruct b; simpl; repeat case_decide; done.
Qed.

Lemma length_take_mask {A} (l : list A) (mask : list bool) :
  length mask = length l →
  length (take l (mask_positions mask)) = count_true mask.
Proof.
  unfold count_true. revert l. induction mask as [|b mask IH]; intros l Hlen.
  - by destruct l.
  - destruct l as [|x l]; [done|]. injection Hlen as Hlen.
    rewrite mask_positions_cons. unfold take. rewrite omap_app.
    fold (take (x :: l) (S <$> mask_positions mask)).
    rewrite take_cons_S, !length_app, length_fmap, (IH l Hlen).
    by destruct b.
Qed.

(** X20.  With [remove_outliers=True] the feature table is replaced, in
    place and before anything is split, by its rows at which the mask of
    the [Dataset] holds: labels and cells of every column, in their order.
    [datapoints] is the number of rows kept, the log records how many went
    and how many stayed, and all of this stands whether or not the steps
    that follow succeed. *)
Theorem prepare_train_test_set_keeps_unmasked_rows
    (inplace : bool) (tol ts : float64) (s : state ModelTrainer)
    (d : Dataset) (f : DataFrame) (mask : list bool) :
  data (self s) = Some d →
  features (self s) = Some f →
  determine_outliers_mask d tol = Return mask →
  length mask = nrows f →
  well_formed f →
  let r := prepare_train_test_set true tol ts inplace s in
  ∃ kept,
    features (self r.2) = Some kept ∧
    index kept = (filter (λ p, p.2 = true) (zip (index f) mask)).*1 ∧
    (∀ c, columns kept !! c =
            (λ cells, (filter (λ p, p.2 = true) (zip cells mask)).*1)
              <$> columns f !! c) ∧
    well_formed kept ∧
    nrows kept = count_true mask ∧
    datapoints (self r.2) = Some (nrows kept) ∧
    Log INFO "Removed %i outliers, %i datapoints remaining for training/testing"
        [pretty (nrows f - nrows kept)%nat; pretty (nrows kept)]
      ∈ trace (env r.2).
Proof.
  intros Hd Hf Hmask Hlen Hwf r. subst r.
  exists (iloc f (mask_positions mask)).
  assert (Hrows : nrows (iloc f (mask_positions mask)) = count_true mask).
  { unfold nrows. simpl. by apply length_take_mask. }
  assert (Hstate :
    let r := prepare_train_test_set true tol ts inplace s in
    features (self r.2) = Some (iloc f (mask_positions mask)) ∧
    datapoints (self r.2) = Some (count_true mask) ∧
    Log INFO "Removed %i outliers, %i datapoints remaining for training/testing"
        [pretty (length mask - count_true mask)%nat; pretty (count_true mask)]
      ∈ trace (env r.2)).
  { unfold literacy_score_train.prepare_train_test_set, scaler_fit_transform,
      scaler_transform, literacy_score_train.train_test_split, boolean_index.
    run. rewrite Hd. simpl. rewrite Hmask. simpl. rewrite Hf. simpl.
    rewrite bool_decide_true by done. simpl.
    answer_all;
      (split; [done|]; split; [done|];
       rewrite <- ?app_assoc; rewrite !elem_of_app; right; right;
       first [left; apply list_elem_of_here | apply list_elem_of_here]). }
  destruct Hstate as (H1 & H2 & H3).
  split; [exact H1|]. split; [apply take_mask_positions|]. split; [|split].
  - intros c. simpl. rewrite lookup_fmap.
    destruct (columns f !! c) as [cells|]; simpl; [|done].
    by rewrite take_mask_positions.
  - intros c cells. simpl. rewrite lookup_fmap.
    destruct (columns f !! c) as [cells0|] eqn:Hc; simpl; [|done].
    intros [= <-]. rewrite Hrows. apply length_take_mask.
    rewrite Hlen. symmetry. by apply (Hwf _ _ Hc).
  - split; [exact Hrows|]. rewrite Hrows. split; [exact H2|]. by rewrite <- Hlen.
Qed.

(** What [prepare_train_test_set] leaves in the four partition
    attributes, and that it does not touch the [Dataset]. *)
Lemma prepare_train_test_set_partitions
    (remove_outliers inplace : bool) (tol ts : float64)
    (s : state ModelTrainer) (f kept : DataFrame) (y : list cell)
    (tr te : list nat) (Xtr Xte : matrix) :
  features (self s) = Some f →
  (if remove_outliers
   then ∃ d mask, data (self s) = Some d ∧
                  determine_outliers_mask d tol = Return mask ∧
                  boolean_index f mask = Return kept
   else kept = f) →
  columns kept !! "human_wc" = Some y →
  let X := mkDataFrame (index kept) (delete "human_wc" (columns kept)) in
  split_positions SEED (nrows X) ts = Return (tr, te) →
  standardize (iloc X tr) (iloc X tr) = Return Xtr →
  standardize (iloc X tr) (iloc X te) = Return Xte →
  let r := prepare_train_test_set remove_outliers tol ts inplace s in
  X_train (self r.2) = (if inplace then Some Xtr else X_train (self s)) ∧
  X_test (self r.2) = (if inplace then Some Xte else X_test (self s)) ∧
  Y_train (self r.2) =
    (if inplace then Some (take (zip (index X) y) tr) else Y_train (self s)) ∧
  Y_test (self r.2) =
    (if inplace then Some (take (zip (index X) y) te) else Y_test (self s)) ∧
  data (self r.2) = data (self s) ∧
  ∃ added, trace (env r.2) = trace (env s) ++ added ∧
           Forall (λ ev, ∀ fmt args, ev ≠ Log ERROR fmt args) added.
Proof.
  intros Hf Hkept Hy X Hsplit Hfit Htr r. subst r.
  unfold literacy_score_train.prepare_train_test_set, scaler_fit_transform,
    scaler_transform, literacy_score_train.train_test_split, drop_column, getitem.
  destruct remove_outliers.
  - destruct Hkept as (d & mask & Hd & Hm & Hb). run.
    rewrite Hd. simpl. rewrite Hm. simpl. rewrite Hf. simpl. rewrite Hb. simpl.
    rewrite Hy. simpl. fold X. rewrite Hsplit. simpl. rewrite Hfit. simpl.
    rewrite Htr. simpl.
    destruct inplace; simpl; repeat (split; [done|]);
      rewrite <- !app_assoc; simpl; eexists; (split; [reflexivity|]);
      repeat (apply Forall_cons; split; [done|]); apply Forall_nil_2.
  - subst kept. run. rewrite Hf. simpl. rewrite Hf. simpl.
    rewrite Hy. simpl. fold X. rewrite Hsplit. simpl. rewrite Hfit. simpl.
    rewrite Htr. simpl.
    destruct inplace; simpl; repeat (split; [done|]);
      rewrite <- !app_assoc; simpl; eexists; (split; [reflexivity|]);
      repeat (apply Forall_cons; split; [done|]); apply Forall_nil_2.
Qed.

Lemma with_model_same (t : ModelTrainer) (m : Estimator) :
  model t = Some m → with_model m t = t.
Proof. destruct t. simpl. by intros ->. Qed.

(** X21.  Called with [inplace=False], [prepare_train_test_set] returns the
    four partitions and assigns none of them, although it replaces the
    scaler and the test labels of the trainer: a trainer that was not
    prepared before is not prepared after, and [train] on it reports just
    that. *)
Theorem prepare_train_test_set_not_inplace_leaves_unprepared
    (remove_outliers : bool) (tol ts : float64)
    (s : state ModelTrainer) (f kept : DataFrame) (y : list cell)
    (tr te : list nat) (Xtr Xte : matrix) (m : Estimator) :
  features (self s) = Some f →
  (if remove_outliers
   then ∃ d mask, data (self s) = Some d ∧
                  determine_outliers_mask d tol = Return mask ∧
                  boolean_index f mask = Return kept
   else kept = f) →
  columns kept !! "human_wc" = Some y →
  let X := mkDataFrame (index kept) (delete "human_wc" (columns kept)) in
  split_positions SEED (nrows X) ts = Return (tr, te) →
  standardize (iloc X tr) (iloc X tr) = Return Xtr →
  standardize (iloc X tr) (iloc X te) = Return Xte →
  model (self s) = Some m →
  X_train (self s) = None →
  let r := prepare_train_test_set remove_outliers tol ts false s in
  r.1 = Return (Some (Xtr, Xte, take (zip (index X) y) tr,
                      take (zip (index X) y) te)) ∧
  X_train (self r.2) = None ∧
  X_test (self r.2) = X_test (self s) ∧
  Y_train (self r.2) = Y_train (self s) ∧
  Y_test (self r.2) = Y_test (self s) ∧
  scaler (self r.2) = Some (mkStandardScaler (Some (iloc X tr))) ∧
  test_idx (self r.2) = Some (index (iloc X te)) ∧
  train [] r.2 =
    (Return tt,
     mkState (mkEnv (trace (env r.2) ++ [Log ERROR not_prepared_message []])
                    (stdin (env r.2)))
             (self r.2)).
Proof.
  intros Hf Hkept Hy X Hsplit Hfit Htr Hm Hx r.
  destruct (prepare_train_test_set_run Dataset SEED determine_outliers_mask
              split_positions standardize remove_outliers false tol ts s f kept y
              tr te Xtr Xte Hf Hkept Hy Hsplit Hfit Htr)
    as (H1 & _ & H2 & H3 & H4 & _).
  destruct (prepare_train_test_set_partitions remove_outliers false tol ts s f
              kept y tr te Xtr Xte Hf Hkept Hy Hsplit Hfit Htr)
    as (G1 & G2 & G3 & G4 & _).
  cbv zeta in H1, H2, H3, H4, G1, G2, G3, G4. simpl in G1, G2, G3, G4.
  rewrite Hx in G1.
  split; [exact H1|]. split; [exact G1|]. split; [exact G2|]. split; [exact G3|].
  split; [exact G4|]. split; [exact H2|]. split; [exact H3|].
  rewrite Hm in H4.
  subst r.
  rewrite (train_not_prepared Dataset valid_param fit_failure [] _ m m H4 G1 eq_refl).
  by rewrite (with_model_same _ _ H4).
Qed.

(** Distinct labels at distinct positions: rows taken at positions that
    two lists do not share have no label in common. *)
Lemma take_disjoint {A} (l : list A) (tr te : list nat) :
  NoDup l → Forall (λ k, k ∉ te) tr →
  ∀ x, x ∈ take l te → x ∉ take l tr.
Proof.
  intros Hnd Hdisj x Hte Htr. unfold take in *.
  apply list_elem_of_omap in Hte as (k1 & Hk1 & Hl1).
  apply list_elem_of_omap in Htr as (k2 & Hk2 & Hl2).
  assert (k1 = k2) as -> by (by eapply NoDup_lookup).
  rewrite Forall_forall in Hdisj. by apply (Hdisj k2 Hk2).
Qed.

(** X22.  After [prepare_train_test_set], [train] fits the model on the
    training partition and on nothing else: on a table with distinct
    labels, split at positions that the two sides do not share, no label of
    [test_idx] is the label of a target the model was fitted on. *)
Theorem train_fits_on_training_rows_only
    (remove_outliers : bool) (tol ts : float64)
    (s : state ModelTrainer) (f kept : DataFrame) (y : list cell)
    (tr te : list nat) (Xtr Xte : matrix) (m : Estimator) (mt : string) :
  features (self s) = Some f →
  (if remove_outliers
   then ∃ d mask, data (self s) = Some d ∧
                  determine_outliers_mask d tol = Return mask ∧
                  boolean_index f mask = Return kept
   else kept = f) →
  columns kept !! "human_wc" = Some y →
  well_formed kept →
  NoDup (index kept) →
  let X := mkDataFrame (index kept) (delete "human_wc" (columns kept)) in
  split_positions SEED (nrows X) ts = Return (tr, te) →
  Forall (λ k, k ∉ te) tr →
  standardize (iloc X tr) (iloc X tr) = Return Xtr →
  standardize (iloc X tr) (iloc X te) = Return Xte →
  model (self s) = Some m →
  model_type (self s) = Some mt →
  let Ytr := take (zip (index X) y) tr in
  fit_failure m Xtr Ytr = None →
  let prepared := (prepare_train_test_set remove_outliers tol ts true s).2 in
  let r := train [] prepared in
  r.1 = Return tt ∧
  model (self r.2) =
    Some (mkEstimator (est_class m) (est_params m) (Some (Xtr, Ytr))) ∧
  test_idx (self r.2) = Some (take (index kept) te) ∧
  Ytr.*1 = take (index kept) tr ∧
  ∀ i, i ∈ take (index kept) te → i ∉ Ytr.*1.
Proof.
  intros Hf Hkept Hy Hwf Hnd X Hsplit Hdisj Hfit Htr Hm Hmt Ytr Hfits prepared r.
  destruct (prepare_train_test_set_run Dataset SEED determine_outliers_mask
              split_positions standardize remove_outliers true tol ts s f kept y
              tr te Xtr Xte Hf Hkept Hy Hsplit Hfit Htr)
    as (_ & _ & _ & H3 & H4 & H5 & _ & H6 & H7).
  fold X prepared Ytr in H3, H4, H5, H6, H7.
  destruct (H6 eq_refl) as (HX & _ & HY & _).
  destruct (H7 Hwf) as (Hlab & _). simpl in Hlab.
  rewrite Hm in H4. rewrite Hmt in H5. subst r.
  rewrite (train_prepared Dataset valid_param fit_failure prepared m mt Xtr Ytr
             H4 H5 HX HY Hfits).
  simpl. split; [done|]. split; [done|]. split; [exact H3|]. split; [exact Hlab|].
  intros i Hi. rewrite Hlab. by apply (take_disjoint _ tr te Hnd Hdisj).
Qed.

(** X23.  The whole sequence, from construction to a fitted model: for each
    known model type, [ModelTrainer(df, model_type)], [compute_features()],
    [prepare_train_test_set()] and [train()] call the collaborators in one
    fixed order and leave the freshly constructed regressor of that type
    fitted on the training partition. *)
Theorem training_sequence_fits_model
    (df : DataFrame) (mt : string) (c : regressor_class)
    (kwargs : list (string * pyval)) (e0 : Env)
    (d d' : Dataset) (f : DataFrame) (y : list cell) (tol ts : float64)
    (tr te : list nat) (Xtr Xte : matrix) :
  (mt, c, kwargs) ∈
    [("RF", RandomForestRegressor, [("random_state", PyInt SEED)]);
     ("XGB", XGBRegressor, [("random_state", PyInt SEED)]);
     ("KNN", KNeighborsRegressor, []);
     ("Baseline", BaselineModel, [])] →
  new_Dataset df = Return d →
  preprocess_data d = Return d' →
  Dataset_compute_features d' = Return f →
  columns f !! "human_wc" = Some y →
  let X := mkDataFrame (index f) (delete "human_wc" (columns f)) in
  split_positions SEED (nrows X) ts = Return (tr, te) →
  standardize (iloc X tr) (iloc X tr) = Return Xtr →
  standardize (iloc X tr) (iloc X te) = Return Xte →
  let Ytr := take (zip (index X) y) tr in
  fit_failure (new_regressor c kwargs) Xtr Ytr = None →
  let constructed := (__init__ df mt (mkState e0 blank)).2 in
  let featured := (compute_features constructed).2 in
  let prepared := (prepare_train_test_set false tol ts true featured).2 in
  let r := train [] prepared in
  r.1 = Return tt ∧
  model (self r.2) = Some (mkEstimator c (list_to_map kwargs) (Some (Xtr, Ytr))) ∧
  model_type (self r.2) = Some mt ∧
  trace (env r.2) =
    trace e0 ++
      [Call "Dataset"; Call "data.preprocess_data"; Call "data.compute_features";
       Call "train_test_split";
       Log DEBUG "Fit scaler to training set and transform training and test set" [];
       Call "scaler.fit_transform"; Call "scaler.transform";
       Log INFO "Training %s" [mt]; Call "model.fit"].
Proof.
  intros Hin Hd Hp Hc Hy X Hsplit Hfit Htr Ytr Hfits constructed featured prepared r.
  assert (Hconstructed : constructed =
            mkState (mkEnv (trace e0 ++ [Call "Dataset"]) (stdin e0))
              (literacy_score_train.with_data Dataset d
                 (with_model_type mt (with_model (new_regressor c kwargs) blank)))).
  { subst constructed. unfold literacy_score_train.__init__. run.
    rewrite (set_new_model_accepted Dataset SEED valid_param mt c kwargs []
               (mkState e0 blank) Hin). simpl. by rewrite Hd. }
  assert (Hfeatured : featured =
            mkState (mkEnv (trace e0 ++ [Call "Dataset"; Call "data.preprocess_data";
                                         Call "data.compute_features"]) (stdin e0))
              (literacy_score_train.with_features Dataset f
                 (literacy_score_train.with_data Dataset d'
                    (literacy_score_train.with_data Dataset d
                       (with_model_type mt
                          (with_model (new_regressor c kwargs) blank)))))).
  { subst featured. rewrite Hconstructed.
    unfold literacy_score_train.compute_features. run. rewrite Hp. simpl.
    rewrite Hc. simpl. by rewrite <- !app_assoc. }
  assert (Hprepared : prepared =
            mkState (mkEnv (trace e0 ++
                      [Call "Dataset"; Call "data.preprocess_data";
                       Call "data.compute_features"; Call "train_test_split";
                       Log DEBUG
                         "Fit scaler to training set and transform training and test set" [];
                       Call "scaler.fit_transform"; Call "scaler.transform"])
                      (stdin e0))
              (self prepared)
            ∧ model (self prepared) = Some (new_regressor c kwargs)
            ∧ model_type (self prepared) = Some mt
            ∧ X_train (self prepared) = Some Xtr
            ∧ Y_train (self prepared) = Some Ytr).
  { subst prepared. rewrite Hfeatured.
    unfold literacy_score_train.prepare_train_test_set, scaler_fit_transform,
      scaler_transform, literacy_score_train.train_test_split, drop_column, getitem.
    run. rewrite Hy. simpl. fold X. rewrite Hsplit. simpl. rewrite Hfit. simpl.
    rewrite Htr. simpl. by rewrite <- !app_assoc. }
  destruct Hprepared as (Hstate & Hm & Hmt & HX & HY). subst r.
  rewrite (train_prepared Dataset valid_param fit_failure prepared
             (new_regressor c kwargs) mt Xtr Ytr Hm Hmt HX HY Hfits).
  rewrite Hstate at 2. simpl. split; [done|]. split; [done|].
  split; [exact Hmt|]. rewrite Hstate. simpl. by rewrite <- !app_assoc.
Qed.

(** X24.  On a prepared trainer [train] first sets the parameters it is
    given on the model and then fits that model on the training partition,
    logging the model type before the fit.  When the fit raises, the
    exception reaches the caller and the trainer keeps the model with the
    new parameters, fitted on whatever it was fitted on before. *)
Theorem train_sets_parameters_then_fits
    (params : list (string * pyval)) (s : state ModelTrainer)
    (m : Estimator) (mt : string) (X : matrix) (Y : target) :
  model (self s) = Some m →
  model_type (self s) = Some mt →
  X_train (self s) = Some X →
  Y_train (self s) = Some Y →
  Forall (λ kv, valid_param (est_class m) kv.1 = true) params →
  let tuned :=
    mkEstimator (est_class m) (params_after (est_params m) params) (fitted_on m) in
  let r := train params s in
  trace (env r.2) =
    trace (env s) ++ [Log INFO "Training %s" [mt]; Call "model.fit"] ∧
  (fit_failure tuned X Y = None →
   r.1 = Return tt ∧
   model (self r.2) =
     Some (mkEstimator (est_class m) (params_after (est_params m) params)
                       (Some (X, Y)))) ∧
  (∀ e, fit_failure tuned X Y = Some e →
        r.1 = Raise e ∧ model (self r.2) = Some tuned) ∧
  X_train (self r.2) = Some X ∧ Y_train (self r.2) = Some Y.
Proof.
  intros Hm Hmt HX HY Hall tuned r. subst r.
  unfold literacy_score_train.train, model_set_params, literacy_score_train.fit.
  run. rewrite Hm. simpl.
  rewrite (set_params_accepted params m Hall). fold tuned. simpl.
  repeat (progress (rewrite ?HX, ?Hmt, ?HY; simpl)).
  destruct (fit_failure tuned X Y) as [e|]; simpl;
    rewrite <- ?app_assoc; simpl.
  - split; [done|]. split; [done|]. split; [|done]. by intros e' [= <-].
  - split; [done|]. split; [done|]. split; [|done]. by intros e' [=].
Qed.

(** What [grid_search] prints and asks before it reads the answer. *)
Local Abbreviation announcement c scoring_metric cv_params :=
  ([Print (nl +:+ center " Estimator: " 120 "-");
    Print (class_name c);
    Print (nl +:+ center " Metric for evaluation: " 120 "-");
    Print scoring_metric;
    Print (nl +:+ center " Params to be tested: " 120 "-")]
   ++ ((λ kv : string * list pyval, Print (kv.1 +:+ " " +:+ repr kv.2)) <$> cv_params)
   ++ [Print (nl +:+ " # of possible combinations to be cross-validated: "
                 +:+ pretty (length (product (snd <$> cv_params))));
       Prompt (nl +:+ "Continue with these c-v parameters ? (y/n)  ")]).

(** [grid_search] after an answer that is neither "n" nor "no". *)
Lemma grid_search_confirmed
    (cv_params : list (string * list pyval)) (cv_folds verbose : Z)
    (scoring_metric : string) (s : state ModelTrainer)
    (mt answer : string) (rest : list string)
    (c : regressor_class) (kwargs : list (string * pyval)) :
  model_type (self s) = Some mt →
  (mt, c, kwargs) ∈
    [("RF", RandomForestRegressor, [("random_state", PyInt SEED)]);
     ("XGB", XGBRegressor, [("random_state", PyInt SEED)]);
     ("KNN", KNeighborsRegressor, [])] →
  stdin (env s) = answer :: rest →
  answer ≠ "n" → answer ≠ "no" →
  let est := new_regressor c kwargs in
  let asked := trace (env s) ++ announcement c scoring_metric cv_params in
  grid_search cv_params cv_folds verbose scoring_metric s =
    match X_train (self s), Y_train (self s) with
    | Some X, Some Y =>
        match search est cv_params scoring_metric cv_folds X Y with
        | Return best =>
            (Return (Some (mkGridSearchCV est cv_params scoring_metric
                             cv_folds verbose (Some best))),
             mkState (mkEnv (asked ++ [Call "GridSearchCV.fit"]) rest)
                     (with_model best (self s)))
        | Raise (AttributeError a) =>
            (Raise (AttributeError "best_estimator_"),
             mkState (mkEnv (asked ++ [Call "GridSearchCV.fit";
                                       Log ERROR not_prepared_message []]) rest)
                     (self s))
        | Raise e =>
            (Raise e, mkState (mkEnv (asked ++ [Call "GridSearchCV.fit"]) rest) (self s))
        end
    | _, _ =>
        (Raise (AttributeError "best_estimator_"),
         mkState (mkEnv (asked ++ [Log ERROR not_prepared_message []]) rest)
                 (self s))
    end.
Proof.
  clear fit_failure split_positions.
  intros Hmt Hin Hstdin H1 H2 est asked. subst est asked.
  rewrite !elem_of_cons, elem_of_nil in Hin.
  unfold literacy_score_train.grid_search, input. run. rewrite Hmt. simpl.
  destruct Hin as [[= -> -> ->]|[[= -> -> ->]|[[= -> -> ->]|[]]]]; simpl;
    rewrite print_items_run; simpl; rewrite Hstdin; simpl;
    rewrite (bool_decide_false _ H1), (bool_decide_false _ H2); simpl;
    (destruct (X_train (self s)) as [X|]; simpl;
     [ destruct (Y_train (self s)) as [Y|]; simpl;
       [ match goal with
         | |- context [search ?e cv_params scoring_metric cv_folds X Y] =>
             destruct (search e cv_params scoring_metric cv_folds X Y) as [best|[]]
         end; simpl; repeat (rewrite <- ?app_assoc; simpl); reflexivity
       | repeat (rewrite <- ?app_assoc; simpl); reflexivity ]
     | repeat (rewrite <- ?app_assoc; simpl); reflexivity ]).
Qed.

(** X25.  Confirmed on a trainer that was not prepared, [grid_search] logs
    the "not prepared" error and then raises all the same: the handler does
    not return, and the search that was never fitted has no best estimator.
    The trainer is as it was and nothing was searched.  An [AttributeError]
    raised inside the search itself goes the same way, reported in the same
    words although the partitions are there. *)
Theorem grid_search_unprepared_logs_then_raises
    (cv_params : list (string * list pyval)) (cv_folds verbose : Z)
    (scoring_metric : string) (s : state ModelTrainer)
    (mt answer : string) (rest : list string)
    (c : regressor_class) (kwargs : list (string * pyval)) :
  model_type (self s) = Some mt →
  (mt, c, kwargs) ∈
    [("RF", RandomForestRegressor, [("random_state", PyInt SEED)]);
     ("XGB", XGBRegressor, [("random_state", PyInt SEED)]);
     ("KNN", KNeighborsRegressor, [])] →
  stdin (env s) = answer :: rest →
  answer ≠ "n" → answer ≠ "no" →
  let r := grid_search cv_params cv_folds verbose scoring_metric s in
  let asked := trace (env s) ++ announcement c scoring_metric cv_params in
  (X_train (self s) = None ∨ Y_train (self s) = None →
   r = (Raise (AttributeError "best_estimator_"),
        mkState (mkEnv (asked ++ [Log ERROR not_prepared_message []]) rest)
                (self s)))
  ∧ (∀ X Y a,
       X_train (self s) = Some X → Y_train (self s) = Some Y →
       search (new_regressor c kwargs) cv_params scoring_metric cv_folds X Y
         = Raise (AttributeError a) →
       r = (Raise (AttributeError "best_estimator_"),
            mkState (mkEnv (asked ++ [Call "GridSearchCV.fit";
                                      Log ERROR not_prepared_message []]) rest)
                    (self s))).
Proof.
  clear fit_failure split_positions.
  intros Hmt Hin Hstdin H1 H2 r asked. subst r asked.
  rewrite (grid_search_confirmed cv_params cv_folds verbose scoring_metric s
             mt answer rest c kwargs Hmt Hin Hstdin H1 H2).
  split.
  - intros [Hx|Hy].
    + by rewrite Hx.
    + rewrite Hy. by destruct (X_train (self s)).
  - intros X Y a HX HY Hsearch. by rewrite HX, HY, Hsearch.
Qed.

(** X26.  [set_new_model] accepts "Baseline", but [grid_search] has no
    estimator for it: on a trainer whose model type is none of "RF", "XGB"
    and "KNN" the call prints its first heading and stops with an
    [UnboundLocalError], before it asks anything; and "Baseline" is the
    model type [set_new_model] leaves, whether or not the parameters given
    with it are accepted. *)
Theorem grid_search_without_estimator_unbound
    (cv_params : list (string * list pyval)) (cv_folds verbose : Z)
    (scoring_metric : string) (s : state ModelTrainer) :
  (∀ mt, model_type (self s) = Some mt →
         mt ∉ ["RF"; "XGB"; "KNN"] →
         grid_search cv_params cv_folds verbose scoring_metric s =
           (Raise (UnboundLocalError "estimator"),
            mkState (mkEnv (trace (env s) ++
                            [Print (nl +:+ center " Estimator: " 120 "-")])
                           (stdin (env s)))
                    (self s)))
  ∧ ∀ params,
      let s1 := (set_new_model "Baseline" params s).2 in
      model_type (self s1) = Some "Baseline" ∧
      (grid_search cv_params cv_folds verbose scoring_metric s1).1 =
        Raise (UnboundLocalError "estimator").
Proof.
  clear fit_failure split_positions.
  assert (Hgen : ∀ (s0 : state ModelTrainer) mt,
            model_type (self s0) = Some mt →
            mt ∉ ["RF"; "XGB"; "KNN"] →
            grid_search cv_params cv_folds verbose scoring_metric s0 =
              (Raise (UnboundLocalError "estimator"),
               mkState (mkEnv (trace (env s0) ++
                               [Print (nl +:+ center " Estimator: " 120 "-")])
                              (stdin (env s0)))
                       (self s0))).
  { intros s0 mt Hmt Hout. rewrite !not_elem_of_cons in Hout.
    destruct Hout as (H1 & H2 & H3 & _).
    unfold literacy_score_train.grid_search. run. rewrite Hmt. simpl.
    by rewrite !bool_decide_false by done. }
  split; [apply Hgen|].
  intros params s1.
  assert (Hmt : model_type (self s1) = Some "Baseline").
  { subst s1.
    by rewrite (set_new_model_accepted Dataset SEED valid_param "Baseline"
                  BaselineModel [] params s
                  ltac:(do 3 apply list_elem_of_further; apply list_elem_of_here)). }
  split; [exact Hmt|].
  rewrite (Hgen s1 "Baseline" Hmt); [done|].
  rewrite !not_elem_of_cons. repeat split; try done. apply not_elem_of_nil.
Qed.

End ModelTrainer_more.

Lemma features_table_well_formed : well_formed scenario.features_table.
Proof.
  unfold well_formed.
  apply (bool_decide_unpack
           (map_Forall (λ _ c, length c = nrows scenario.features_table)
                       (columns scenario.features_table))).
  vm_compute. exact I.
Qed.

(** "n_estimators" is accepted and stays set, "max_depth" is not and stops
    the call. *)
Lemma set_model_params_witness :
  ∃ m, literacy_score_train.model unit (self (scenario.tune (scenario.trainer "RF")).2)
         = Some m
       ∧ literacy_score_train.est_params m !! "n_estimators" = Some (PyInt 100)
       ∧ literacy_score_train.est_params m !! "max_depth" = None.
Proof.
  destruct (set_model_params_all_or_prefix unit scenario.accepts (λ _ _ _, None)
              [("n_estimators", PyInt 100); ("max_depth", PyInt 3)]
              (scenario.trainer "RF")
              (literacy_score_train.new_regressor
                 literacy_score_train.RandomForestRegressor
                 [("random_state", PyInt scenario.SEED)])
              eq_refl) as (_ & _ & H & _).
  destruct (H [("n_estimators", PyInt 100)] "max_depth" (PyInt 3) [] eq_refl
              ltac:(by apply Forall_singleton) eq_refl) as (_ & Hm).
  eexists. split; [exact Hm|]. split; vm_compute; reflexivity.
Defined.

Example set_model_params_example :
  (scenario.tune (scenario.trainer "RF")).1
    = Raise (ValueError "Invalid parameter max_depth").
Proof. reflexivity. Qed.

(** A trainer asked for a support vector machine. *)
Lemma init_unknown_model_type_witness :
  (literacy_score_train.__init__ unit scenario.SEED (λ _, Return tt)
     scenario.accepts (mkDataFrame [] ∅) "SVM"
     (mkState (mkEnv [] []) (literacy_score_train.blank unit))).1 = Return tt
  ∧ (scenario.train [] (scenario.trainer "SVM")).1
    = Raise (AttributeError "model").
Proof.
  destruct (init_unknown_model_type_gives_trainer_without_model unit scenario.SEED
              (λ _, Return tt) scenario.accepts (λ _ _ _, None)
              scenario.search (λ _, "[...]") "models/" (λ _ _ _ _, Return tt)
              (mkDataFrame [] ∅) "SVM" tt (mkEnv [] [])
              ltac:(by apply (bool_decide_unpack _)) eq_refl)
    as (H1 & _ & _ & H2 & _).
  split; [exact H1|]. exact (H2 [] (mkEnv [] [])).
Defined.

(** The second of four rows masked out. *)
Lemma prepare_train_test_set_keeps_unmasked_rows_witness :
  ∃ kept,
    literacy_score_train.features unit
      (self (scenario.prepare_masked (scenario.trainer "RF")).2) = Some kept
    ∧ index kept = [0; 2; 3]
    ∧ literacy_score_train.datapoints unit
        (self (scenario.prepare_masked (scenario.trainer "RF")).2) = Some 3%nat.
Proof.
  destruct (prepare_train_test_set_keeps_unmasked_rows unit scenario.SEED
              (λ _ _, Return [true; false; true; true])
              scenario.split scenario.standardize
              true (of_Z 0) (of_Z 0) (scenario.trainer "RF") tt
              scenario.features_table [true; false; true; true]
              eq_refl eq_refl eq_refl eq_refl features_table_well_formed)
    as (kept & Hf & Hi & _ & _ & Hn & Hd & _).
  exists kept. split; [exact Hf|]. split; [exact Hi|].
  unfold scenario.prepare_masked. rewrite Hd, Hn. reflexivity.
Defined.

(** The split handed back and not stored: [train] still has nothing to
    train on. *)
Lemma prepare_train_test_set_not_inplace_witness :
  literacy_score_train.X_train unit
    (self (scenario.prepare_not_inplace (scenario.trainer "RF")).2) = None
  ∧ last (trace (env (scenario.train []
                        (scenario.prepare_not_inplace (scenario.trainer "RF")).2).2))
    = Some (Log ERROR literacy_score_train.not_prepared_message []).
Proof.
  destruct (prepare_train_test_set_not_inplace_leaves_unprepared unit scenario.SEED
              (λ _ _, Return [true; true; true; true]) scenario.accepts
              (λ _ _ _, None) scenario.split scenario.standardize
              false (of_Z 0) (of_Z 0) (scenario.trainer "RF")
              scenario.features_table scenario.features_table
              [Num (of_Z 9); Num (of_Z 21); Num (of_Z 30); Num (of_Z 38)]
              [1; 2; 3]%nat [0]%nat [[]; []; []] [[]]
              (literacy_score_train.new_regressor
                 literacy_score_train.RandomForestRegressor
                 [("random_state", PyInt scenario.SEED)])
              eq_refl eq_refl eq_refl eq_refl eq_refl eq_refl eq_refl eq_refl)
    as (_ & HX & _ & _ & _ & _ & _ & Htrain).
  split; [exact HX|].
  unfold scenario.train, scenario.prepare_not_inplace. rewrite Htrain.
  vm_compute. reflexivity.
Defined.

(** The first of four rows goes to the test side; the model is fitted on
    the other three. *)
Lemma train_fits_on_training_rows_only_witness :
  literacy_score_train.test_idx unit
    (self (scenario.train [] (scenario.prepare (scenario.trainer "RF")).2).2)
    = Some [0]
  ∧ ∃ m X Y,
      literacy_score_train.model unit
        (self (scenario.train [] (scenario.prepare (scenario.trainer "RF")).2).2)
        = Some m
      ∧ literacy_score_train.fitted_on m = Some (X, Y) ∧ Y.*1 = [1; 2; 3].
Proof.
  destruct (train_fits_on_training_rows_only unit scenario.SEED
              (λ _ _, Return [true; true; true; true]) scenario.accepts
              (λ _ _ _, None) scenario.split scenario.standardize
              false (of_Z 0) (of_Z 0) (scenario.trainer "RF")
              scenario.features_table scenario.features_table
              [Num (of_Z 9); Num (of_Z 21); Num (of_Z 30); Num (of_Z 38)]
              [1; 2; 3]%nat [0]%nat [[]; []; []] [[]]
              (literacy_score_train.new_regressor
                 literacy_score_train.RandomForestRegressor
                 [("random_state", PyInt scenario.SEED)])
              "RF"
              eq_refl eq_refl eq_refl features_table_well_formed
              ltac:(by apply (bool_decide_unpack _))
              eq_refl
              ltac:(by apply (bool_decide_unpack _))
              eq_refl eq_refl eq_refl eq_refl eq_refl)
    as (_ & Hm & Ht & Hl & _).
  unfold scenario.train, scenario.prepare. split; [exact Ht|].
  do 3 eexists. split; [exact Hm|]. split; [reflexivity|exact Hl].
Defined.

(** The sequence on the four-row feature table, for a random forest. *)
Lemma training_sequence_witness :
  (scenario.sequence "RF").1 = Return tt
  ∧ literacy_score_train.model_type unit (self (scenario.sequence "RF").2)
    = Some "RF".
Proof.
  destruct (training_sequence_fits_model unit scenario.SEED
              (λ _, Return tt) (λ d, Return d) (λ _, Return scenario.features_table)
              (λ _ _, Return [true; true; true; true]) scenario.accepts
              (λ _ _ _, None) scenario.split scenario.standardize
              (mkDataFrame [] ∅) "RF"
              literacy_score_train.RandomForestRegressor
              [("random_state", PyInt scenario.SEED)] (mkEnv [] [])
              tt tt scenario.features_table
              [Num (of_Z 9); Num (of_Z 21); Num (of_Z 30); Num (of_Z 38)]
              (of_Z 0) (of_Z 0) [1; 2; 3]%nat [0]%nat [[]; []; []] [[]]
              ltac:(apply list_elem_of_here)
              eq_refl eq_refl eq_refl eq_refl eq_refl eq_refl eq_refl eq_refl)
    as (H1 & _ & H2 & _).
  split; [exact H1|exact H2].
Defined.

Example training_sequence_baseline :
  (scenario.sequence "Baseline").1 = Return tt
  ∧ (scenario.sequence "SVM").1 = Raise (AttributeError "model").
Proof. split; vm_compute; reflexivity. Qed.

(** "y" typed at the prompt of a trainer that was not prepared. *)
Lemma grid_search_unprepared_witness :
  (scenario.ask "y" (scenario.trainer "RF")).1
    = Raise (AttributeError "best_estimator_")
  ∧ last (trace (env (scenario.ask "y" (scenario.trainer "RF")).2))
    = Some (Log ERROR literacy_score_train.not_prepared_message []).
Proof.
  destruct (grid_search_unprepared_logs_then_raises unit scenario.SEED
              scenario.search (λ _, "[...]") scenario.grid 5 2 "r2"
              (mkState (mkEnv [] ["y"]) (self (scenario.trainer "RF")))
              "RF" "y" []
              literacy_score_train.RandomForestRegressor
              [("random_state", PyInt scenario.SEED)]
              eq_refl ltac:(apply list_elem_of_here) eq_refl
              ltac:(discriminate) ltac:(discriminate)) as (H & _).
  unfold scenario.ask. rewrite (H (or_introl eq_refl)).
  split; vm_compute; reflexivity.
Defined.

(** Saving scaler and model from a trainer that was never prepared, into a
    directory that takes every file: the scaler is reported missing, the
    model is written. *)
Example save_model_unprepared :
  literacy_score_train.save_model unit "models/" (λ _ _ _ _, Return tt)
    true true false (scenario.trainer "RF")
  = (Return tt,
     mkState (mkEnv [Log ERROR literacy_score_train.scaler_not_defined_message [];
                     Call "save_file"] [])
             (self (scenario.trainer "RF"))).
Proof. reflexivity. Qed.

(** A random forest asked for with a parameter it accepts and one it does
    not: the trainer holds the new forest with the first parameter set. *)
Lemma set_new_model_replaces_witness :
  literacy_score_train.model_type unit
    (self (literacy_score_train.set_new_model unit scenario.SEED scenario.accepts
             "RF" [("n_estimators", PyInt 100); ("max_depth", PyInt 3)]
             (scenario.trainer "KNN")).2) = Some "RF".
Proof.
  destruct (set_new_model_replaces_before_setting_params unit scenario.SEED
              scenario.accepts "RF" literacy_score_train.RandomForestRegressor
              [("random_state", PyInt scenario.SEED)]
              [("n_estimators", PyInt 100); ("max_depth", PyInt 3)]
              (scenario.trainer "KNN") ltac:(apply list_elem_of_here))
    as (H & _).
  exact H.
Defined.

(** A forest of a hundred trees, fitted after the split of the scenario. *)
Lemma train_sets_parameters_witness :
  (scenario.train [("n_estimators", PyInt 100)]
     (scenario.prepare (scenario.trainer "RF")).2).1 = Return tt
  ∧ ∃ m, literacy_score_train.model unit
           (self (scenario.train [("n_estimators", PyInt 100)]
                    (scenario.prepare (scenario.trainer "RF")).2).2) = Some m
         ∧ literacy_score_train.est_params m !! "n_estimators" = Some (PyInt 100)
         ∧ is_Some (literacy_score_train.fitted_on m).
Proof.
  destruct (train_sets_parameters_then_fits unit scenario.accepts (λ _ _ _, None)
              [("n_estimators", PyInt 100)]
              (scenario.prepare (scenario.trainer "RF")).2
              (literacy_score_train.new_regressor
                 literacy_score_train.RandomForestRegressor
                 [("random_state", PyInt scenario.SEED)])
              "RF" [[]; []; []]
              [(1, Num (of_Z 21)); (2, Num (of_Z 30)); (3, Num (of_Z 38))]
              eq_refl eq_refl eq_refl eq_refl
              ltac:(by apply Forall_singleton))
    as (_ & H & _).
  destruct (H eq_refl) as (H1 & H2).
  unfold scenario.train. split; [exact H1|].
  eexists. split; [exact H2|]. split; [vm_compute; reflexivity|by eexists].
Defined.
